(** * CARL: metadata cache replay and report reconciliation

    A shallow embedding of [autopkg_tools.py] and of the
    [CacheRecipeMetadata] post-processor, with the properties of the
    specification stated over it.

    Python values are embedded as [pyval], failures as the [Raise] branch of
    [res], and every contact with the outside (sub-processes, the file
    system, the clock, the notification endpoint) goes through an oracle of
    the [world] record.  Oracles are given the history of the run so far, so
    that a file may answer differently before and after a command ran. *)

From Stdlib Require Import String Ascii List ZArith Bool Lia DecimalString.
Import ListNotations.
Local Open Scope list_scope.
Local Open Scope string_scope.
Set Warnings "-register-all".

(* ------------------------------------------------------------------ *)
(** ** Python values, exceptions, results *)

Module Py.

(** The values that [json.load] and [plistlib.load] produce, which are also
    the values held by a processor's environment.  Dicts keep insertion
    order and have string keys. *)
Inductive pyval : Type :=
| PNone
| PBool (b : bool)
| PInt (z : Z)
| PStr (s : string)
| PList (l : list pyval)
| PDict (d : list (string * pyval)).

(** Exception classes met in the two source files. *)
Inductive exn : Type :=
| TypeError
| AttributeError
| KeyError
| IndexError
| StopIteration
| ValueError
| JSONDecodeError
| InvalidFileException
| OSError
| FileNotFoundError
| PermissionError
| NotADirectoryError
| CalledProcessError (returncode : Z).

Definition exn_eqb (a b : exn) : bool :=
  match a, b with
  | TypeError, TypeError | AttributeError, AttributeError
  | KeyError, KeyError | IndexError, IndexError
  | StopIteration, StopIteration | ValueError, ValueError
  | JSONDecodeError, JSONDecodeError
  | InvalidFileException, InvalidFileException
  | OSError, OSError | FileNotFoundError, FileNotFoundError
  | PermissionError, PermissionError
  | NotADirectoryError, NotADirectoryError => true
  | CalledProcessError _, CalledProcessError _ => true
  | _, _ => false
  end.

(** [isinstance e cls]: [e] is caught by [except cls].  The second argument
    stands for a class; the return code of [CalledProcessError] is ignored
    there.  [json.JSONDecodeError] and [plistlib.InvalidFileException] derive
    from [ValueError]; the three file errors derive from [OSError]. *)
Definition isinstance (e cls : exn) : bool :=
  exn_eqb e cls ||
  match cls, e with
  | ValueError, (JSONDecodeError | InvalidFileException) => true
  | OSError, (FileNotFoundError | PermissionError | NotADirectoryError) => true
  | _, _ => false
  end.

Inductive res (A : Type) : Type :=
| Ok (a : A)
| Raise (e : exn).
Arguments Ok {A} a.
Arguments Raise {A} e.

(** Truth value of a Python object ([if x:]). *)
Definition truthy (v : pyval) : bool :=
  match v with
  | PNone => false
  | PBool b => b
  | PInt z => negb (z =? 0)%Z
  | PStr s => negb (s =? "")
  | PList l => match l with [] => false | _ => true end
  | PDict d => match d with [] => false | _ => true end
  end.

(** *** Dicts *)

Fixpoint lookup {A : Type} (k : string) (d : list (string * A)) : option A :=
  match d with
  | [] => None
  | (k', v) :: d' => if k' =? k then Some v else lookup k d'
  end.

(** [d[k] = v]: the value is replaced where the key stands, a new key goes
    last. *)
Fixpoint setitem {A : Type} (k : string) (v : A) (d : list (string * A))
  : list (string * A) :=
  match d with
  | [] => [(k, v)]
  | (k', v') :: d' =>
      if k' =? k then (k', v) :: d' else (k', v') :: setitem k v d'
  end.

(** [x.get(k)] *)
Definition get (x : pyval) (k : string) : res pyval :=
  match x with
  | PDict d => Ok (match lookup k d with Some v => v | None => PNone end)
  | _ => Raise AttributeError
  end.

(** [x.get(k, default)] *)
Definition get_default (x : pyval) (k : string) (dflt : pyval) : res pyval :=
  match x with
  | PDict d => Ok (match lookup k d with Some v => v | None => dflt end)
  | _ => Raise AttributeError
  end.

(** [x[k]] with a string key. *)
Definition getitem (x : pyval) (k : string) : res pyval :=
  match x with
  | PDict d => match lookup k d with Some v => Ok v | None => Raise KeyError end
  | _ => Raise TypeError
  end.

(** [x.keys()] and [x.values()] *)
Definition keys (x : pyval) : res (list string) :=
  match x with
  | PDict d => Ok (map fst d)
  | _ => Raise AttributeError
  end.

Definition values (x : pyval) : res (list pyval) :=
  match x with
  | PDict d => Ok (map snd d)
  | _ => Raise AttributeError
  end.

Fixpoint chars (s : string) : list pyval :=
  match s with
  | EmptyString => []
  | String c s' => PStr (String c EmptyString) :: chars s'
  end.

(** The elements a [for] loop or [list.extend] draws from a value. *)
Definition iter (x : pyval) : res (list pyval) :=
  match x with
  | PList l => Ok l
  | PDict d => Ok (map (fun kv => PStr (fst kv)) d)
  | PStr s => Ok (chars s)
  | _ => Raise TypeError
  end.

(** *** Strings *)

(** [s.find(sub)] as an optional index; [str_find] is the Python integer. *)
Fixpoint find (sub s : string) : option nat :=
  if prefix sub s then Some 0
  else match s with
       | EmptyString => None
       | String _ s' => option_map S (find sub s')
       end.

Fixpoint rfind (sub s : string) : option nat :=
  match s with
  | EmptyString => if prefix sub s then Some 0 else None
  | String _ s' =>
      match rfind sub s' with
      | Some i => Some (S i)
      | None => if prefix sub s then Some 0 else None
      end
  end.

Definition index_or_minus1 (o : option nat) : Z :=
  match o with Some i => Z.of_nat i | None => (-1)%Z end.

Definition str_find (s sub : string) : Z := index_or_minus1 (find sub s).
Definition str_rfind (s sub : string) : Z := index_or_minus1 (rfind sub s).

(** [sub in s] *)
Definition contains (sub s : string) : bool :=
  match find sub s with Some _ => true | None => false end.

(** [s[a:b]] with Python's treatment of negative and oversized bounds. *)
Definition slice (s : string) (a b : Z) : string :=
  let n := Z.of_nat (String.length s) in
  let norm i := if (i <? 0)%Z then Z.max 0 (i + n) else Z.min i n in
  let lo := norm a in
  let hi := norm b in
  if (lo <? hi)%Z then substring (Z.to_nat lo) (Z.to_nat (hi - lo)) s
  else "".

(** [s[:i]] and [s[i:]] for a non-negative [i]. *)
Definition take (i : nat) (s : string) : string := substring 0 i s.
Definition drop (i : nat) (s : string) : string :=
  substring i (String.length s - i) s.

Definition startswith (s pre : string) : bool := prefix pre s.

Definition endswith (s suf : string) : bool :=
  (String.length suf <=? String.length s)%nat
  && (drop (String.length s - String.length suf) s =? suf).

(** [s.replace(old, new)] for a non-empty [old]: occurrences are taken from
    the left and do not overlap; [skip] counts the characters of a match
    that remain to be passed over. *)
Fixpoint replace_from (old new : string) (skip : nat) (s : string) : string :=
  match s with
  | EmptyString => EmptyString
  | String c s' =>
      match skip with
      | S k => replace_from old new k s'
      | O =>
          if prefix old s
          then new ++ replace_from old new (String.length old - 1) s'
          else String c (replace_from old new 0 s')
      end
  end.

(** With an empty [old], Python puts [new] before every character and at the
    end. *)
Fixpoint intersperse_all (new s : string) : string :=
  match s with
  | EmptyString => new
  | String c s' => new ++ String c (intersperse_all new s')
  end.

Definition replace (s old new : string) : string :=
  if old =? "" then intersperse_all new s else replace_from old new 0 s.

(** [sep.join(l)] *)
Definition join (sep : string) (l : list string) : string := String.concat sep l.

(** [s.rstrip("/")] *)
Fixpoint rstrip_slash (s : string) : string :=
  match s with
  | EmptyString => EmptyString
  | String c s' =>
      let r := rstrip_slash s' in
      if (r =? "") && (c =? "/")%char then EmptyString else String c r
  end.

Fixpoint all_slash (s : string) : bool :=
  match s with
  | EmptyString => true
  | String c s' => (c =? "/")%char && all_slash s'
  end.

(** [s.split(sep)] for a one-character separator. *)
Fixpoint split_on (sep : ascii) (s : string) : list string :=
  match s with
  | EmptyString => [EmptyString]
  | String c s' =>
      if (c =? sep)%char then EmptyString :: split_on sep s'
      else match split_on sep s' with
           | h :: t => String c h :: t
           | [] => [String c EmptyString]
           end
  end.

(** *** [str()] and [repr()] *)

Definition str_of_Z (z : Z) : string := NilZero.string_of_int (Z.to_int z).

Definition nl : string := String (ascii_of_nat 10) EmptyString.

Fixpoint escape (q : ascii) (s : string) : string :=
  match s with
  | EmptyString => EmptyString
  | String c s' =>
      (if (c =? q)%char then String "\" (String q EmptyString)
       else if (c =? "\")%char then "\\"
       else if (c =? ascii_of_nat 10)%char then "\n"
       else if (c =? ascii_of_nat 13)%char then "\r"
       else if (c =? ascii_of_nat 9)%char then "\t"
       else String c EmptyString) ++ escape q s'
  end.

Definition dquote : ascii := ascii_of_nat 34.
Definition dq : string := String dquote EmptyString.

(** [repr] of a string: single quotes, unless the text holds a single quote
    and no double quote.  Exact on printable ASCII text. *)
Definition repr_str (s : string) : string :=
  if contains "'" s && negb (contains (String dquote EmptyString) s)
  then String dquote (escape dquote s) ++ String dquote EmptyString
  else "'" ++ escape "'" s ++ "'".

Fixpoint repr (v : pyval) : string :=
  match v with
  | PNone => "None"
  | PBool true => "True"
  | PBool false => "False"
  | PInt z => str_of_Z z
  | PStr s => repr_str s
  | PList l => "[" ++ join ", " (map repr l) ++ "]"
  | PDict d =>
      "{" ++ join ", " (map (fun kv => repr_str (fst kv) ++ ": " ++ repr (snd kv)) d)
      ++ "}"
  end.

(** [str(v)], which is what an f-string field [{v}] prints. *)
Definition str (v : pyval) : string :=
  match v with
  | PStr s => s
  | _ => repr v
  end.

(** [s.split(sep)] for a non-empty separator of any length; [skip] counts
    the characters of a separator that remain to be passed over. *)
Fixpoint split_from (sep : string) (skip : nat) (s : string) : list string :=
  match s with
  | EmptyString => [EmptyString]
  | String c s' =>
      match skip with
      | S k => split_from sep k s'
      | O =>
          if prefix sep s
          then EmptyString :: split_from sep (String.length sep - 1) s'
          else match split_from sep 0 s' with
               | h :: t => String c h :: t
               | [] => [String c EmptyString]
               end
      end
  end.

Definition split_str (s sep : string) : list string := split_from sep 0 s.

End Py.

(* ------------------------------------------------------------------ *)
(** ** [os.path] and [pathlib] on POSIX *)

Module PosixPath.
Import Py.

(** [os.path.split(p)] *)
Definition split (p : string) : string * string :=
  let i := Z.to_nat (str_rfind p "/" + 1) in
  let head := take i p in
  let tail := drop i p in
  (if negb (head =? "") && negb (all_slash head) then rstrip_slash head
   else head,
   tail).

(** [os.path.join(a, b)] *)
Definition join2 (a b : string) : string :=
  if startswith b "/" then b
  else if (a =? "") || endswith a "/" then a ++ b
  else a ++ "/" ++ b.

(** A [PurePosixPath]: its root ([""], ["/"] or ["//"]) and its parts, the
    empty and ["."] components dropped. *)
Record pure_path : Type := mkPath { pp_root : string; pp_parts : list string }.

Definition Path (s : string) : pure_path :=
  {| pp_root := if prefix "//" s && negb (prefix "///" s) then "//"
                else if prefix "/" s then "/" else "";
     pp_parts := filter (fun x => negb (x =? "") && negb (x =? "."))
                        (split_on "/" s) |}.

(** [str(path)] *)
Definition path_str (p : pure_path) : string :=
  match pp_root p, pp_parts p with
  | EmptyString, [] => "."
  | r, parts => r ++ Py.join "/" parts
  end.

(** [path.parent]: a path without parts is its own parent. *)
Definition parent (p : pure_path) : pure_path :=
  {| pp_root := pp_root p; pp_parts := removelast (pp_parts p) |}.

(** [path.parents[1]] *)
Definition parents_1 (p : pure_path) : res pure_path :=
  if (2 <=? List.length (pp_parts p))%nat then Ok (parent (parent p))
  else Raise IndexError.

Fixpoint all_dots (s : string) : bool :=
  match s with
  | EmptyString => true
  | String c s' => (c =? ".")%char && all_dots s'
  end.

(** [os.path.splitext(p)]: the extension starts at the last dot of the last
    component, unless that component has only dots before it. *)
Definition splitext (p : string) : string * string :=
  let sepIndex := str_rfind p "/" in
  let dotIndex := str_rfind p "." in
  if (sepIndex <? dotIndex)%Z
     && negb (all_dots (slice p (sepIndex + 1) dotIndex))
  then (take (Z.to_nat dotIndex) p, drop (Z.to_nat dotIndex) p)
  else (p, EmptyString).

End PosixPath.

(* ------------------------------------------------------------------ *)
(** ** Effects: the history of a run, the world, and the monad *)

Module Eff.
Import Py.

Inductive level : Type := DEBUG | INFO | WARNING | ERROR | CRITICAL.

(** What a run does to the outside.  A log record keeps the text of its
    message apart from the values printed into it. *)
Inductive event : Type :=
| EvLog (lvl : level) (msg : string) (args : list pyval)
| EvLogExn (lvl : level) (msg : string) (e : exn) (args : list pyval)
| EvRun (cmd : string)
| EvOpen (p : string)
| EvMkdir (p : string)
| EvTouch (p : string)
| EvPost (url title text color : string)
| EvOutput (msg : string) (v : pyval)
| EvDump (p : string) (data : pyval).

(** The history, most recent event first. *)
Definition trace : Type := list event.

(** What a file holds, as its reader sees it: text that the parser rejects,
    or a document.  An empty file is [Garbled] for both parsers. *)
Inductive content : Type :=
| Garbled
| Document (v : pyval).

Inductive file_state : Type :=
| Missing
| Denied
| Present (c : content).

Record world : Type := mkWorld {
  (** [subprocess.run(cmd, shell=True)]: return code and the decoded,
      stripped output *)
  w_run : trace -> string -> Z * string;
  w_file : trace -> string -> file_state;
  w_exists : trace -> string -> bool;
  w_isfile : trace -> string -> bool;
  (** [true] when the directory could be made, the file touched, the file
      opened for writing *)
  w_mkdir : trace -> string -> bool;
  w_touch : trace -> string -> bool;
  w_open_w : trace -> string -> bool;
  (** [None] when [os.stat] fails *)
  w_getmtime : trace -> string -> option Z;
  w_getsize : trace -> string -> option Z;
  w_scandir : trace -> string -> list string;
  w_listdir : trace -> string -> option (list string);
  (** [os.walk(top)]: the [(root, files)] of each directory visited *)
  w_walk : trace -> string -> list (string * list string);
  w_glob : trace -> string -> list string;
  (** status code of [requests.post] *)
  w_post : trace -> string -> Z;
  (** [str(datetime.now())] *)
  w_now : trace -> string
}.

(** A computation over a state [S] that may raise. *)
Definition M (S A : Type) : Type := S -> S * res A.

Definition ret {S A} (a : A) : M S A := fun s => (s, Ok a).
Definition raise {S A} (e : exn) : M S A := fun s => (s, Raise e).
Definition lift {S A} (r : res A) : M S A := fun s => (s, r).

Definition bind {S A B} (m : M S A) (k : A -> M S B) : M S B :=
  fun s => match m s with
           | (s', Ok a) => k a s'
           | (s', Raise e) => (s', Raise e)
           end.

(** [try: m  except cls as e: h e] *)
Definition try_except {S A} (m : M S A) (cls : exn) (h : exn -> M S A)
  : M S A :=
  fun s => match m s with
           | (s', Raise e) => if isinstance e cls then h e s' else (s', Raise e)
           | r => r
           end.

(** [except (cls1, cls2, ...)] *)
Definition try_except_any {S A} (m : M S A) (clss : list exn) (h : exn -> M S A)
  : M S A :=
  fun s => match m s with
           | (s', Raise e) =>
               if existsb (isinstance e) clss then h e s' else (s', Raise e)
           | r => r
           end.

Fixpoint for_each {S A} (l : list A) (body : A -> M S unit) : M S unit :=
  match l with
  | [] => ret tt
  | x :: l' => bind (body x) (fun _ => for_each l' body)
  end.

Definition when {S} (b : bool) (m : M S unit) : M S unit :=
  if b then m else ret tt.

(** *** Contacts with the outside *)

Definition emit (e : event) : M trace unit := fun tr => (e :: tr, Ok tt).

(** A question to the world, at the present point of the run. *)
Definition ask {A} (W : world) (oracle : world -> trace -> A) : M trace A :=
  fun tr => (tr, Ok (oracle W tr)).

(** [open(path)] for reading *)
Definition open_read (W : world) (path : string) : M trace content :=
  fun tr => (EvOpen path :: tr,
             match w_file W tr path with
             | Missing => Raise FileNotFoundError
             | Denied => Raise PermissionError
             | Present c => Ok c
             end).

(** [json.load(f)] and [plistlib.load(f)] *)
Definition json_load (c : content) : res pyval :=
  match c with
  | Garbled => Raise JSONDecodeError
  | Document v => Ok v
  end.

Definition plistlib_load (c : content) : res pyval :=
  match c with
  | Garbled => Raise InvalidFileException
  | Document v => Ok v
  end.

End Eff.

Declare Scope eff_scope.
Delimit Scope eff_scope with eff.
Notation "x <- m ;; k" := (Eff.bind m (fun x => k))
  (at level 61, m at next level, right associativity) : eff_scope.
Notation "' p <- m ;; k" := (Eff.bind m (fun x => match x with p => k end))
  (at level 61, p pattern, m at next level, right associativity) : eff_scope.
Notation "m ;; k" := (Eff.bind m (fun _ => k))
  (at level 61, right associativity) : eff_scope.

(* ------------------------------------------------------------------ *)
(** ** autopkg_tools.py *)

Module AutopkgTools.
Import Py Eff.
Local Open Scope eff_scope.

(** Module-level variables and the parsed command line. *)
Record config : Type := mkConfig {
  METADATA_CACHE_PATH : string;
  SLACK_WEBHOOK : option string;
  RECIPES_DIR : pyval;
  args_cache : bool;
  args_debug : bool
}.

Definition REPORT_PLIST_PATH : string := "/tmp/autopkg.plist".

(** [fnmatch(name, "*pkg*")]: on POSIX the name is not case-folded and the
    pattern asks for the letters [pkg] anywhere in it. *)
Definition fnmatch_pkg (name : string) : bool := contains "pkg" name.

(** [os.fspath(p)], the first thing [os.path] functions do to an argument. *)
Definition fspath (p : pyval) : res string :=
  match p with
  | PStr s => Ok s
  | _ => Raise TypeError
  end.

(** Lines 228-236 of [create_file_and_attributes]: the short name between
    [/Users/] and [/Library], and the rewrite for the console user. *)
Definition target_home_dir (cache_path : string) : string :=
  slice cache_path
        (str_find cache_path "/Users/" + Z.of_nat (String.length "/Users/"))
        (str_rfind cache_path "/Library").

(** Both values are strings, so [None not in (target_home_dir, console_user)]
    holds and the test is the comparison alone. *)
Definition home_rewrite_fires (cache_path console_user : string) : bool :=
  negb (target_home_dir cache_path =? console_user).

Definition home_rewrite (cache_path pathname console_user : string)
  : string * string :=
  if home_rewrite_fires cache_path console_user
  then (replace cache_path (target_home_dir cache_path) console_user,
        replace pathname (target_home_dir cache_path) console_user)
  else (cache_path, pathname).

Definition is_digit (c : ascii) : bool :=
  let n := nat_of_ascii c in (48 <=? n)%nat && (n <=? 57)%nat.

Definition is_newline (c : ascii) : bool := (c =? ascii_of_nat 10)%char.

(** The longest prefix of the current line that ends in a digit. *)
Fixpoint upto_last_digit (s : string) : option string :=
  match s with
  | EmptyString => None
  | String c s' =>
      if is_newline c then None
      else match upto_last_digit s' with
           | Some m => Some (String c m)
           | None => if is_digit c then Some (String c EmptyString) else None
           end
  end.

(** The match of the version pattern of [_eval_recipe_results] (a digit,
    anything on the same line, a digit): from the first digit that has
    another digit after it on its line, to the last digit of that line. *)
Fixpoint version_search (s : string) : option string :=
  match s with
  | EmptyString => None
  | String c s' =>
      if is_digit c then
        match upto_last_digit s' with
        | Some m => Some (String c m)
        | None => version_search s'
        end
      else version_search s'
  end.

(** [v[0]] and [v[-1]] *)
Definition first_item (v : pyval) : res pyval :=
  match v with
  | PList (x :: _) => Ok x
  | PList [] => Raise IndexError
  | PStr (String c _) => Ok (PStr (String c EmptyString))
  | PStr EmptyString => Raise IndexError
  | PDict _ => Raise KeyError
  | _ => Raise TypeError
  end.

Definition last_item (v : pyval) : res pyval :=
  match v with
  | PList l => match rev l with x :: _ => Ok x | [] => Raise IndexError end
  | PStr s => match rev (chars s) with x :: _ => Ok x | [] => Raise IndexError end
  | PDict _ => Raise KeyError
  | _ => Raise TypeError
  end.

(** [[x.get("pkg_path") for x in built if x.get("pkg_path")]] *)
Fixpoint build_paths (built : list pyval) : res (list pyval) :=
  match built with
  | [] => Ok []
  | x :: rest =>
      match get x "pkg_path" with
      | Raise e => Raise e
      | Ok p =>
          match build_paths rest with
          | Raise e => Raise e
          | Ok found => Ok (if truthy p then p :: found else found)
          end
      end
  end.

(** [sep.join(items)]: every item has to be a string. *)
Fixpoint str_items (items : list pyval) : res (list string) :=
  match items with
  | [] => Ok []
  | PStr s :: rest =>
      match str_items rest with
      | Raise e => Raise e
      | Ok l => Ok (s :: l)
      end
  | _ :: _ => Raise TypeError
  end.

Definition no_releases : string := "No releases found for repo".

Definition populate_issue : string := "Issue when populating recipe metadata".

Section Tools.
Variable W : world.
Variable C : config.

Definition log (lvl : level) (msg : string) (args : list pyval)
  : M trace unit := emit (EvLog lvl msg args).

Definition log_exn (lvl : level) (msg : string) (e : exn) (args : list pyval)
  : M trace unit := emit (EvLogExn lvl msg e args).

Definition _plist_pal (path : string) : M trace pyval :=
  f <- open_read W path ;;
  lift (plistlib_load f).

(** [run(..., shell=True, check=True)]: a non-zero return code raises. *)
Definition _run_command (shell_cmd : string) : M trace (Z * string) :=
  fun tr =>
    let '(exit_code, decoded_out) := w_run W tr shell_cmd in
    (EvRun shell_cmd :: tr,
     if (exit_code =? 0)%Z then Ok (exit_code, decoded_out)
     else Raise (CalledProcessError exit_code)).

Definition load_cached_attributes : M trace pyval :=
  try_except
    (cache_file <- open_read W (METADATA_CACHE_PATH C) ;;
     lift (json_load cache_file))
    FileNotFoundError
    (fun _ => ret (PDict [])).

Definition mkdir (p : string) : M trace unit :=
  fun tr => (EvMkdir p :: tr, if w_mkdir W tr p then Ok tt else Raise OSError).

(** The body of the inner loop of [create_file_and_attributes], for the
    record [dl_md] of the recipe key [i]. *)
Definition replicate_download (i : string) (dl_md : pyval) : M trace unit :=
  pathname <- lift (get dl_md "pathname") ;;
  etag <- lift (get dl_md "etag") ;;
  last_modified <- lift (get dl_md "last_modified") ;;
  dl_size_in_bytes <- lift (get dl_md "dl_size_in_bytes") ;;
  try_except
    (pathname <- lift (fspath pathname) ;;
     let '(cache_path, cache_filename) := PosixPath.split pathname in
     log DEBUG "Found previous cache path" [PStr cache_path] ;;
     ' (exitc, console_user) <- _run_command "/usr/bin/stat -f%Su /dev/console" ;;
     when (home_rewrite_fires cache_path console_user)
          (log DEBUG "Recorded home dir and logged in user do not match; updating cache path"
               [PStr (target_home_dir cache_path); PStr console_user]) ;;
     let '(cache_path, pathname) := home_rewrite cache_path pathname console_user in
     present <- ask W (fun w tr => w_exists w tr cache_path) ;;
     when (negb present) (mkdir cache_path) ;;
     _run_command ("mkfile -n '" ++ str dl_size_in_bytes ++ "' '" ++ pathname ++ "'") ;;
     (if truthy etag
      then _run_command ("xattr -w com.github.autopkg.etag '" ++ str etag
                         ++ "' '" ++ pathname ++ "'") ;; ret tt
      else log INFO "Skipping write of attribute 'etag'; key is missing" [PStr i]) ;;
     (if truthy last_modified
      then _run_command ("xattr -w com.github.autopkg.last-modified '"
                         ++ str last_modified ++ "' '" ++ pathname ++ "'") ;; ret tt
      else log INFO "Skipping write of attribute 'last_modified'; key is missing"
               [PStr i]) ;;
     log INFO "Wrote file with xattrs and byte size" [dl_size_in_bytes; PStr pathname])
    TypeError
    (fun e => log_exn CRITICAL populate_issue e [PStr i; dl_md]).

(** The records of one cache entry. *)
Definition replicate_entry (attributes_dict : pyval) (i : string) : M trace unit :=
  entry <- lift (get attributes_dict i) ;;
  download_metadata <- lift (get entry "download_metadata") ;;
  records <- lift (iter download_metadata) ;;
  for_each records (replicate_download i).

(** A cache that is a dict is walked key by key.  Any other JSON value is
    either not iterable, or its first element meets [.get] on a value that
    has none. *)
Definition create_file_and_attributes (attributes_dict : pyval) : M trace unit :=
  match attributes_dict with
  | PDict d => for_each (map fst d) (replicate_entry attributes_dict)
  | other =>
      elements <- lift (iter other) ;;
      for_each elements (fun _ => raise AttributeError)
  end.

(** *** The [Recipe] class *)

(** A recipe object.  When the recipe file was not found, [__init__] leaves
    after setting [recipe_name] and [error] only: [path] is then [None] and
    reading any of the other attributes raises [AttributeError]. *)
Record Recipe : Type := mkRecipe {
  recipe_name : string;
  path : option string;
  success : bool;
  error : bool;
  results : pyval;
  _keys : pyval;
  _has_run : bool
}.

Definition set_success (b : bool) (r : Recipe) : Recipe :=
  mkRecipe (recipe_name r) (path r) b (error r) (results r) (_keys r) (_has_run r).
Definition set_error (b : bool) (r : Recipe) : Recipe :=
  mkRecipe (recipe_name r) (path r) (success r) b (results r) (_keys r) (_has_run r).
Definition set_results (v : pyval) (r : Recipe) : Recipe :=
  mkRecipe (recipe_name r) (path r) (success r) (error r) v (_keys r) (_has_run r).
Definition set_keys (v : pyval) (r : Recipe) : Recipe :=
  mkRecipe (recipe_name r) (path r) (success r) (error r) (results r) v (_has_run r).
Definition set_has_run (b : bool) (r : Recipe) : Recipe :=
  mkRecipe (recipe_name r) (path r) (success r) (error r) (results r) (_keys r) b.

(** Methods run over the object and the history. *)
Definition MR (A : Type) : Type := M (Recipe * trace) A.

Definition liftT {A} (m : M trace A) : MR A :=
  fun s => let '(tr', x) := m (snd s) in ((fst s, tr'), x).

(** An attribute that always exists. *)
Definition self_get {A} (f : Recipe -> A) : MR A :=
  fun s => (s, Ok (f (fst s))).

(** An attribute that exists only on a located recipe. *)
Definition attr {A} (f : Recipe -> A) : MR A :=
  fun s => (s, match path (fst s) with
               | Some _ => Ok (f (fst s))
               | None => Raise AttributeError
               end).

Definition attr_path : MR string :=
  fun s => (s, match path (fst s) with
               | Some p => Ok p
               | None => Raise AttributeError
               end).

Definition self_set (f : Recipe -> Recipe) : MR unit :=
  fun s => ((f (fst s), snd s), Ok tt).

Definition with_recipe {A} (r : Recipe) (m : MR A) : M trace A :=
  fun tr => let '((_, tr'), x) := m (r, tr) in (tr', x).

(** [Recipe(path)] *)
Definition Recipe_init (path_arg : string) : M trace Recipe :=
  fun tr =>
    match w_glob W tr (str (RECIPES_DIR C) ++ "/**/" ++ path_arg) with
    | p :: _ => (tr, Ok (mkRecipe path_arg (Some p) false false (PDict []) PNone false))
    | [] => (EvLog ERROR "Could not locate" [PStr path_arg] :: tr,
             Ok (mkRecipe path_arg None false true (PDict []) PNone false))
    end.

Definition plist : MR pyval :=
  k <- attr _keys ;;
  match k with
  | PNone =>
      p <- attr_path ;;
      loaded <- liftT (_plist_pal p) ;;
      self_set (set_keys loaded) ;;
      ret loaded
  | cached => ret cached
  end.

Definition name : MR pyval :=
  p <- plist ;;
  input <- lift (get p "Input") ;;
  lift (get input "NAME").

Definition getmtime (p : string) : M trace Z :=
  fun tr => (tr, match w_getmtime W tr p with
                 | Some t => Ok t
                 | None => Raise FileNotFoundError
                 end).

(** [[values.get(key) for plist in receipt_plist for values in plist.values()
      if isinstance(values, dict) and key in values.keys()]] *)
Fixpoint receipt_values (key : string) (plists : list pyval) : res (list pyval) :=
  match plists with
  | [] => Ok []
  | pl :: rest =>
      match values pl with
      | Raise e => Raise e
      | Ok vs =>
          match receipt_values key rest with
          | Raise e => Raise e
          | Ok found =>
              Ok (flat_map (fun v => match v with
                                     | PDict d => match lookup key d with
                                                  | Some x => [x]
                                                  | None => []
                                                  end
                                     | _ => []
                                     end) vs ++ found)%list
          end
      end
  end.

Definition last_opt {A} (l : list A) : option A :=
  match rev l with
  | [] => None
  | x :: _ => Some x
  end.

(** The loop over the receipts directory; [acc] holds [receipt_pkg] and
    [receipt_version].  An [IndexError] on the empty list is the [continue]
    of either [try]. *)
Fixpoint scan_receipts (dl_mod_time : Z) (receipts : list string)
  (acc : pyval * pyval) : M trace (pyval * pyval) :=
  match receipts with
  | [] => ret acc
  | receipt :: rest =>
      t <- getmtime receipt ;;
      if (t >? dl_mod_time)%Z then
        log DEBUG "Found new receipt" [PStr receipt] ;;
        receipt_plist <- _plist_pal receipt ;;
        log DEBUG "Read in plist with contents" [receipt_plist] ;;
        plists <- lift (iter receipt_plist) ;;
        versions <- lift (receipt_values "version" plists) ;;
        match last_opt versions with
        | None => scan_receipts dl_mod_time rest acc
        | Some receipt_version =>
            log DEBUG "Found" [receipt_version] ;;
            pkgs <- lift (receipt_values "pkg_path" plists) ;;
            match last_opt pkgs with
            | None => scan_receipts dl_mod_time rest (fst acc, receipt_version)
            | Some receipt_pkg =>
                scan_receipts dl_mod_time rest (receipt_pkg, receipt_version)
            end
        end
      else scan_receipts dl_mod_time rest acc
  end.

Definition _get_pkg_version_from_receipt (new_dl : string)
  : M trace (pyval * pyval) :=
  dl_mod_time <- getmtime new_dl ;;
  parent_path <- lift (PosixPath.parents_1 (PosixPath.Path new_dl)) ;;
  log DEBUG "Trying to get receipt data from provided DL" [PStr new_dl] ;;
  let receipts_dir :=
    PosixPath.join2 (PosixPath.path_str parent_path) "receipts" in
  present <- ask W (fun w tr => w_exists w tr receipts_dir) ;;
  if present then
    receipts <- ask W (fun w tr => w_scandir w tr receipts_dir) ;;
    scan_receipts dl_mod_time receipts (PNone, PNone)
  else ret (PNone, PNone).

(** [[next(iter(x.values())) for x in rows
      if fnmatch(next(iter(x.values())), "*pkg*")]] *)
Fixpoint fringe_paths (rows : list pyval) : res (list string) :=
  match rows with
  | [] => Ok []
  | x :: rest =>
      match values x with
      | Raise e => Raise e
      | Ok [] => Raise StopIteration
      | Ok (PStr p :: _) =>
          match fringe_paths rest with
          | Raise e => Raise e
          | Ok found => Ok (if fnmatch_pkg p then p :: found else found)
          end
      | Ok (_ :: _) => Raise TypeError
      end
  end.

Definition _parse_report (report : string) : M trace pyval :=
  report_data <- _plist_pal report ;;
  failed_items <- lift (get_default report_data "failures" (PList [])) ;;
  summary_results <- lift (get report_data "summary_results") ;;
  ' (built_items, downloaded_items) <-
    (if truthy summary_results then
       summary_keys <- lift (keys summary_results) ;;
       let pkg_summary_key := join "" (filter fnmatch_pkg summary_keys) in
       pkg_results <- lift (get_default summary_results pkg_summary_key (PDict [])) ;;
       pkg_rows <- lift (get_default pkg_results "data_rows" (PList [])) ;;
       built_items <- lift (iter pkg_rows) ;;
       dl_results <- lift (get_default summary_results
                             "url_downloader_summary_result" (PDict [])) ;;
       dl_rows <- lift (get_default dl_results "data_rows" (PList [])) ;;
       downloaded_items <- lift (iter dl_rows) ;;
       if truthy dl_results && negb (truthy pkg_results) then
         rows <- lift (get dl_results "data_rows") ;;
         rows <- lift (iter rows) ;;
         paths <- lift (fringe_paths rows) ;;
         let fringe_build := join "" paths in
         if negb (fringe_build =? "") then
           ' (receipt_pkg, receipt_version) <-
             _get_pkg_version_from_receipt fringe_build ;;
           if truthy receipt_pkg && truthy receipt_version then
             ret ((built_items ++ [PDict [("pkg_path", receipt_pkg);
                                          ("version", receipt_version)]])%list,
                  downloaded_items)
           else if truthy receipt_version then
             log DEBUG "Appending built items with version" [] ;;
             ret ((built_items ++ [PDict [("pkg_path", PStr fringe_build);
                                          ("version", receipt_version)]])%list,
                  downloaded_items)
           else
             ret ((built_items ++ [PDict [("pkg_path", PStr fringe_build)]])%list,
                  downloaded_items)
         else ret (built_items, downloaded_items)
       else ret (built_items, downloaded_items)
     else ret ([], [])) ;;
  ret (PDict [("built", PList built_items);
              ("downloaded", PList downloaded_items);
              ("failed", failed_items)]).

(** [Recipe.run] *)
Definition autopkg_cmd (p : string) : string :=
  let quoted := dq ++ p ++ dq in
  let cmd := ["/usr/local/bin/autopkg"; "run"; "-vvv"; quoted;
              "--report-plist"; REPORT_PLIST_PATH] in
  let cmd := if args_cache C
             then (cmd ++ ["--post"; "io.kandji.cachedata/CacheRecipeMetadata"])%list
             else cmd in
  join " " cmd.

Definition touch (p : string) : M trace unit :=
  fun tr => (EvTouch p :: tr, if w_touch W tr p then Ok tt else Raise OSError).

Definition run : MR pyval :=
  is_file <- liftT (ask W (fun w tr => w_isfile w tr REPORT_PLIST_PATH)) ;;
  when (negb is_file) (liftT (touch REPORT_PLIST_PATH)) ;;
  try_except
    (p <- attr_path ;;
     let cmd := autopkg_cmd p in
     liftT (log DEBUG "Running" [PStr cmd]) ;;
     liftT (_run_command cmd) ;;
     ret tt)
    (CalledProcessError 0)
    (fun e => liftT (log_exn ERROR "" e []) ;; self_set (set_error true)) ;;
  self_set (set_has_run true) ;;
  parsed <- liftT (_parse_report REPORT_PLIST_PATH) ;;
  self_set (set_results parsed) ;;
  built <- lift (get parsed "built") ;;
  when (truthy built) (self_set (set_success true)) ;;
  ret parsed.

Definition handle_recipe : MR unit :=
  run ;;
  res <- attr results ;;
  downloaded <- lift (get res "downloaded") ;;
  when (truthy downloaded)
       (n <- name ;; liftT (log INFO "SUCCESS: Downloaded" [n])) ;;
  res <- attr results ;;
  built <- lift (get res "built") ;;
  when (truthy built)
       (n <- name ;; liftT (log INFO "SUCCESS: Built" [n])).

(** [_eval_recipe_results]: [None] is the bare [return], [Some] the pair of
    title and description. *)
Definition _eval_recipe_results : MR (option (pyval * pyval)) :=
  failed_run <- self_get error ;;
  if failed_run then
    try_except
      (n <- name ;;
       let task_title := PStr ("Failed to run " ++ str n) in
       res <- attr results ;;
       failed <- lift (getitem res "failed") ;;
       if negb (truthy failed) then
         ret (Some (task_title, PStr "Unknown error"))
       else
         failure <- lift (first_item failed) ;;
         message <- lift (getitem failure "message") ;;
         traceback <- lift (getitem failure "traceback") ;;
         let task_description :=
           "ERROR: " ++ str message ++ nl ++ "Traceback: " ++ str traceback ++ nl in
         if contains no_releases task_description then ret None
         else ret (Some (task_title, PStr task_description)))
      AttributeError
      (fun _ =>
         rn <- self_get recipe_name ;;
         ret (Some (PStr "ERROR: Unable to locate specified recipe!",
                    PStr ("Skipping run of " ++ rn
                          ++ "; recipe doesn't exist or name is malformed."))))
  else
    succeeded <- attr success ;;
    if succeeded then
      res <- attr results ;;
      built <- lift (getitem res "built") ;;
      last <- lift (last_item built) ;;
      last_build <- lift (get last "pkg_path") ;;
      last <- lift (last_item built) ;;
      last_vers <- lift (get last "version") ;;
      version <-
        (if negb (truthy last_vers) then
           match last_build with
           | PStr b => ret (match version_search b with
                            | Some v => PStr v
                            | None => PStr "Unknown"
                            end)
           | _ => raise TypeError
           end
         else ret last_vers) ;;
      rows <- lift (iter built) ;;
      paths <- lift (build_paths rows) ;;
      paths <- lift (str_items paths) ;;
      let all_builds := join nl paths in
      n <- name ;;
      ret (Some (PStr ("SUCCESS: Recipe " ++ str n ++ " packaged new version "
                       ++ str version),
                 PStr ("*Build Path(s):*" ++ nl ++ " " ++ all_builds ++ nl)))
    else ret (Some (PNone, PNone)).

Definition post (url title text color : string) : M trace Z :=
  fun tr => (EvPost url title text color :: tr, Ok (w_post W tr url)).

(** Unpacking the bare [return] of [_eval_recipe_results] into two names is
    a [TypeError]. *)
Definition slack_alert : MR unit :=
  if args_debug C then
    liftT (log DEBUG "Skipping Slack notification - debug is enabled!" [])
  else
    match SLACK_WEBHOOK C with
    | None => liftT (log WARNING "Skipping Slack notification - webhook is missing!" [])
    | Some webhook =>
        evaluated <- _eval_recipe_results ;;
        match evaluated with
        | None => raise TypeError
        | Some (task_title, task_description) =>
            if truthy task_title && truthy task_description
               && negb (webhook =? "") then
              failed_run <- self_get error ;;
              status <- liftT (post webhook (str task_title) (str task_description)
                                    (if failed_run then "danger" else "good")) ;;
              if negb (status =? 200)%Z then raise ValueError else ret tt
            else ret tt
        end
    end.

(** The loop of [main] over the recipe identifiers that [parse_recipes]
    yields; the list [failures] of [main] stays empty. *)
Definition main_loop (recipes : list string) : M trace unit :=
  for_each recipes
    (fun identifier =>
       recipe <- Recipe_init identifier ;;
       log INFO "Running" [PStr (recipe_name recipe)] ;;
       with_recipe recipe
         (try_except
            (handle_recipe ;; slack_alert)
            AttributeError
            (fun e =>
               rn <- self_get recipe_name ;;
               liftT (log_exn ERROR "Skipping run! Recipe was not found." e [PStr rn]) ;;
               slack_alert))).

(** [main], from the point where the recipe identifiers are known. *)
Definition main (recipes : list string) : M trace unit :=
  when (args_cache C)
       (attributes_dict <- load_cached_attributes ;;
        create_file_and_attributes attributes_dict) ;;
  main_loop recipes.

(** *** The command line and the recipe list *)

(** [sys.exit(code)] ends the process from wherever it is called; nothing in
    this module catches it. *)
Inductive outcome (A : Type) : Type :=
| Exited (code : Z)
| Returned (a : A).
Arguments Exited {A} code.
Arguments Returned {A} a.

(** The override of a single run, the recipe list argument, and the
    directory of the script. *)
Record cli : Type := mkCli {
  RECIPE_TO_RUN : option string;
  args_list : option string;
  EXECUTION_DIR : string
}.

Variable L : cli.

Definition recipe_to_run_set : bool :=
  match RECIPE_TO_RUN L with
  | Some r => negb (r =? "")
  | None => false
  end.

(** The identifier of the override, with the extension it has to have. *)
Definition with_recipe_ext (recipe : string) : string :=
  if negb (snd (PosixPath.splitext recipe) =? ".recipe")
  then recipe ++ ".recipe" else recipe.

(** [parse_recipes(recipes)]; [recipes] is the list of the override, or the
    path of the recipe list.  An identifier is only ever printed into a
    text, so the identifiers of the result are kept as their text. *)
Definition parse_recipes (recipes : list string + string)
  : M trace (outcome (list string)) :=
  if recipe_to_run_set then
    match recipes with
    | inl identifiers => ret (Returned (map with_recipe_ext identifiers))
    | inr text => ret (Returned (map (fun c => with_recipe_ext (str c)) (chars text)))
    end
  else
    match recipes with
    | inl _ => raise TypeError
    | inr recipes =>
        present <- ask W (fun w tr => w_exists w tr recipes) ;;
        let recipes := if negb present
                       then PosixPath.join2 (EXECUTION_DIR L) recipes
                       else recipes in
        let ext := snd (PosixPath.splitext recipes) in
        if (ext =? ".json") || (ext =? ".plist") then
          f <- open_read W recipes ;;
          recipe_list <- lift (if ext =? ".json" then json_load f
                               else plistlib_load f) ;;
          identifiers <- lift (iter recipe_list) ;;
          ret (Returned (map str identifiers))
        else
          log CRITICAL "Found invalid recipe list extension! Expected .plist/.json"
              [PStr ext] ;;
          ret (Exited 1%Z)
    end.

(** [main], from the command line on. *)
Definition main_cli : M trace (outcome unit) :=
  let recipes :=
    if recipe_to_run_set
    then match RECIPE_TO_RUN L with
         | Some r => Some (inl (split_str r ", "))
         | None => None
         end
    else match args_list L with
         | Some l => if negb (l =? "") then Some (inr l) else None
         | None => None
         end in
  match recipes with
  | None =>
      log CRITICAL "Recipe --list or RECIPE_TO_RUN not provided!" [] ;;
      ret (Exited 1%Z)
  | Some recipes =>
      when (args_cache C)
           (attributes_dict <- load_cached_attributes ;;
            create_file_and_attributes attributes_dict) ;;
      parsed <- parse_recipes recipes ;;
      match parsed with
      | Exited code => ret (Exited code)
      | Returned identifiers => main_loop identifiers ;; ret (Returned tt)
      end
  end.

End Tools.

Arguments Exited {A} code.
Arguments Returned {A} a.

End AutopkgTools.

(* ------------------------------------------------------------------ *)
(** ** CacheRecipeMetadata.py *)

Module CacheRecipeMetadata.
Import Py Eff.
Local Open Scope eff_scope.

(** [str(Path(directory).parent)] *)
Definition parent_dir (directory : string) : string :=
  PosixPath.path_str (PosixPath.parent (PosixPath.Path directory)).

(** [find_downloads_dir]: the loop is run for at most [fuel] tests of its
    condition; [None] says that the fuel did not suffice. *)
Fixpoint find_downloads_dir (fuel : nat) (directory : string) : option string :=
  match fuel with
  | O => None
  | S fuel' =>
      if endswith directory "downloads" then Some directory
      else find_downloads_dir fuel' (parent_dir directory)
  end.

(** [d[k] = v] on a value [d] that has to be a dict. *)
Definition store (d : pyval) (k : string) (v : pyval) : res pyval :=
  match d with
  | PDict e => Ok (PDict (setitem k v e))
  | _ => Raise TypeError
  end.

(** [data[key][k] = v] *)
Definition store_in (data : list (string * pyval)) (key k : string) (v : pyval)
  : res (list (string * pyval)) :=
  match lookup key data with
  | None => Raise KeyError
  | Some entry =>
      match store entry k v with
      | Ok entry' => Ok (setitem key entry' data)
      | Raise e => Raise e
      end
  end.

(** The local variables of [main] that are live when the downloads
    directory is looked for. *)
Record locals : Type := mkLocals {
  l_pathname : string;
  l_recipe_filename : string;
  l_output_file : string;
  l_data : list (string * pyval);
  l_cache_modified : bool;
  l_recipe_metadata_list : list pyval
}.

Section Processor.
Variable W : world.
(** [self.env]: the variables read here hold strings, or are absent. *)
Variable env : list (string * string).

Definition env_get (k : string) : pyval :=
  match lookup k env with
  | Some s => PStr s
  | None => PNone
  end.

Definition output (msg : string) (v : pyval) : M trace unit :=
  emit (EvOutput msg v).

(** [run(shell_cmd.split(), ..., check=False)]: never raises on the return
    code. *)
Definition _run_command (shell_cmd : string) : M trace (Z * string) :=
  fun tr => (EvRun shell_cmd :: tr, Ok (w_run W tr shell_cmd)).

Definition get_latest_recipe_run_info (output_file : string) : M trace pyval :=
  try_except_any
    (fp <- open_read W output_file ;;
     lift (json_load fp))
    [OSError; ValueError]
    (fun _ => ret (PDict [])).

(** [os.path.getsize(p)]: [os.stat] refuses [None] with a [TypeError] and
    the empty path with a [FileNotFoundError]. *)
Definition getsize (p : pyval) : M trace Z :=
  fun tr => (tr, match p with
                 | PStr EmptyString => Raise FileNotFoundError
                 | PStr s => match w_getsize W tr s with
                             | Some n => Ok n
                             | None => Raise FileNotFoundError
                             end
                 | _ => Raise TypeError
                 end).

(** The body of the inner loop of [populate_multiple_dls] for one file: the
    records it appends to [return_list]. *)
Definition bonus_download (known_dl additional_dl_path : string)
  : M trace (list pyval) :=
  additional_dl_size <- getsize (PStr additional_dl_path) ;;
  if (additional_dl_size >? 500000)%Z && negb (additional_dl_path =? known_dl) then
    output "appears to be valid with byte size"
           (PList [PStr additional_dl_path; PInt additional_dl_size]) ;;
    ' (exitc, add_etag) <-
      _run_command ("xattr -p com.github.autopkg.etag " ++ dq
                    ++ additional_dl_path ++ dq ++ " 2>/dev/null") ;;
    ' (exitc, add_last_mod) <-
      _run_command ("xattr -p com.github.autopkg.last-modified " ++ dq
                    ++ additional_dl_path ++ dq ++ " 2>/dev/null") ;;
    ' (exitc, additional_dl) <-
      _run_command ("xattr -p com.apple.metadata:kMDItemWhereFroms " ++ dq
                    ++ additional_dl_path ++ dq ++ " 2>/dev/null") ;;
    ' (exitc, additional_dl_type) <-
      _run_command ("file -b " ++ dq ++ additional_dl_path ++ dq ++ " 2>/dev/null") ;;
    if negb (add_last_mod =? "") || contains "archive" additional_dl_type
       || contains "compressed" additional_dl_type then
      let placeholder_dict := [] in
      placeholder_dict <-
        (if negb (additional_dl =? "") then
           output "Bonus URL" (PStr additional_dl) ;;
           ret (setitem "url" (PStr additional_dl) placeholder_dict)
         else ret placeholder_dict) ;;
      placeholder_dict <-
        (if negb (additional_dl_path =? "") then
           output "Bonus path" (PStr additional_dl_path) ;;
           ret (setitem "pathname" (PStr additional_dl_path) placeholder_dict)
         else ret placeholder_dict) ;;
      placeholder_dict <-
        (if negb (add_etag =? "") then
           output "Bonus etag" (PStr add_etag) ;;
           ret (setitem "etag" (PStr add_etag) placeholder_dict)
         else ret placeholder_dict) ;;
      placeholder_dict <-
        (if negb (add_last_mod =? "") then
           output "Bonus last_modified" (PStr add_last_mod) ;;
           ret (setitem "last_modified" (PStr add_last_mod) placeholder_dict)
         else ret placeholder_dict) ;;
      placeholder_dict <-
        (if negb (additional_dl_size =? 0)%Z then
           output "Bonus DL size" (PInt additional_dl_size) ;;
           ret (setitem "dl_size_in_bytes" (PStr (str_of_Z additional_dl_size))
                        placeholder_dict)
         else ret placeholder_dict) ;;
      ret [PDict placeholder_dict]
    else ret []
  else ret [].

(** The files of one directory of the walk. *)
Fixpoint bonus_downloads_in (known_dl root : string) (files : list string)
  : M trace (list pyval) :=
  match files with
  | [] => ret []
  | name :: rest =>
      found <- bonus_download known_dl (PosixPath.join2 root name) ;;
      more <- bonus_downloads_in known_dl root rest ;;
      ret (found ++ more)%list
  end.

Fixpoint bonus_downloads (known_dl : string) (walk : list (string * list string))
  : M trace (list pyval) :=
  match walk with
  | [] => ret []
  | (root, files) :: rest =>
      found <- bonus_downloads_in known_dl root files ;;
      more <- bonus_downloads known_dl rest ;;
      ret (found ++ more)%list
  end.

Definition populate_multiple_dls (dls_dir known_dl : string) : M trace (list pyval) :=
  walk <- ask W (fun w tr => w_walk w tr dls_dir) ;;
  bonus_downloads known_dl walk.

(** [main], lines 188 to 240: up to the primary record. *)
Definition main_primary : M trace locals :=
  let output_file_path := env_get "output_file_path" in
  let output_file_name := env_get "output_file_name" in
  let pathname := env_get "pathname" in
  let recipe_name := env_get "RECIPE_PATH" in
  let url := env_get "url" in
  let last_modified := env_get "last_modified" in
  let etag := env_get "etag" in
  dl_size_in_bytes <- getsize pathname ;;
  recipe_name <- lift (AutopkgTools.fspath recipe_name) ;;
  let '(recipe_path, recipe_filename) := PosixPath.split recipe_name in
  let first_download_dict := [] in
  let output_file_path :=
    if negb (truthy output_file_path) then PStr "/tmp" else output_file_path in
  output_file_path <- lift (AutopkgTools.fspath output_file_path) ;;
  output_file_name <- lift (AutopkgTools.fspath output_file_name) ;;
  let output_file := PosixPath.join2 output_file_path output_file_name in
  data <- get_latest_recipe_run_info output_file ;;
  let cache_modified := false in
  known <- lift (keys data) ;;
  data <- lift (match data with
                | PDict d =>
                    Ok (if existsb (String.eqb recipe_filename) known then d
                        else setitem recipe_filename (PDict []) d)
                | _ => Raise AttributeError
                end) ;;
  first_download_dict <-
    (if truthy url then
       output "URL" url ;; ret (setitem "url" url first_download_dict)
     else ret first_download_dict) ;;
  first_download_dict <-
    (if truthy pathname then
       output "Path" pathname ;; ret (setitem "pathname" pathname first_download_dict)
     else ret first_download_dict) ;;
  ' (cache_modified, first_download_dict) <-
    (if truthy etag then
       output "etag" etag ;; ret (true, setitem "etag" etag first_download_dict)
     else ret (cache_modified, first_download_dict)) ;;
  ' (cache_modified, first_download_dict) <-
    (if truthy last_modified then
       output "last_modified" last_modified ;;
       ret (true, setitem "last_modified" last_modified first_download_dict)
     else ret (cache_modified, first_download_dict)) ;;
  ' (cache_modified, first_download_dict) <-
    (if negb (dl_size_in_bytes =? 0)%Z then
       output "DL size" (PInt dl_size_in_bytes) ;;
       ret (true, setitem "dl_size_in_bytes" (PStr (str_of_Z dl_size_in_bytes))
                          first_download_dict)
     else ret (cache_modified, first_download_dict)) ;;
  ret (mkLocals (str pathname) recipe_filename output_file data cache_modified
                [PDict first_download_dict]).

Definition listdir (p : string) : M trace (list string) :=
  fun tr => (tr, match w_listdir W tr p with
                 | Some l => Ok l
                 | None => Raise FileNotFoundError
                 end).

Definition dump (output_file : string) (data : pyval) : M trace unit :=
  fun tr => if w_open_w W tr output_file
            then (EvDump output_file data :: tr, Ok tt)
            else (tr, Raise PermissionError).

(** [main], lines 243 to 264: from the listing of the downloads directory.
    The result is the final value of [cache_modified] and the mapping that
    was written. *)
Definition main_persist (l : locals) (downloads_dir : string)
  : M trace (bool * pyval) :=
  dl_dir_contents <- listdir downloads_dir ;;
  ' (cache_modified, recipe_metadata_list) <-
    (if (1 <? List.length dl_dir_contents)%nat then
       bonus_dls_list <- populate_multiple_dls downloads_dir (l_pathname l) ;;
       match bonus_dls_list with
       | [] => ret (l_cache_modified l, l_recipe_metadata_list l)
       | _ => ret (true, (l_recipe_metadata_list l ++ bonus_dls_list)%list)
       end
     else ret (l_cache_modified l, l_recipe_metadata_list l)) ;;
  data <-
    (if cache_modified then
       now <- ask W w_now ;;
       lift (store_in (l_data l) (l_recipe_filename l) "cache_timestamp" (PStr now))
     else ret (l_data l)) ;;
  data <-
    (match recipe_metadata_list with
     | [] => ret data
     | _ => lift (store_in data (l_recipe_filename l) "download_metadata"
                           (PList recipe_metadata_list))
     end) ;;
  dump (l_output_file l) (PDict data) ;;
  output "Metadata cache written to" (PStr (l_output_file l)) ;;
  ret (cache_modified, PDict data).

(** [main]: [None] when the search for the downloads directory did not end
    within [fuel] steps. *)
Definition main (fuel : nat) (tr : trace)
  : option (trace * res (bool * pyval)) :=
  match main_primary tr with
  | (tr1, Raise e) => Some (tr1, Raise e)
  | (tr1, Ok l) =>
      match find_downloads_dir fuel (l_pathname l) with
      | None => None
      | Some downloads_dir => Some (main_persist l downloads_dir tr1)
      end
  end.

End Processor.
End CacheRecipeMetadata.

(* ------------------------------------------------------------------ *)
(** ** Sample worlds *)

Module Samples.
Import Py Eff.

(** A machine on which every command succeeds silently and no file exists. *)
Definition still_world : world :=
  {| w_run := fun _ _ => (0%Z, "");
     w_file := fun _ _ => Missing;
     w_exists := fun _ _ => false;
     w_isfile := fun _ _ => false;
     w_mkdir := fun _ _ => true;
     w_touch := fun _ _ => true;
     w_open_w := fun _ _ => true;
     w_getmtime := fun _ _ => None;
     w_getsize := fun _ _ => None;
     w_scandir := fun _ _ => [];
     w_listdir := fun _ _ => None;
     w_walk := fun _ _ => [];
     w_glob := fun _ _ => [];
     w_post := fun _ _ => 200%Z;
     w_now := fun _ => "2023-06-07 09:30:00.000000" |}.

Definition with_run (f : trace -> string -> Z * string) (w : world) : world :=
  mkWorld f (w_file w) (w_exists w) (w_isfile w) (w_mkdir w) (w_touch w)
          (w_open_w w) (w_getmtime w) (w_getsize w) (w_scandir w) (w_listdir w)
          (w_walk w) (w_glob w) (w_post w) (w_now w).

Definition with_file (f : trace -> string -> file_state) (w : world) : world :=
  mkWorld (w_run w) f (w_exists w) (w_isfile w) (w_mkdir w) (w_touch w)
          (w_open_w w) (w_getmtime w) (w_getsize w) (w_scandir w) (w_listdir w)
          (w_walk w) (w_glob w) (w_post w) (w_now w).

Definition with_getmtime (f : trace -> string -> option Z) (w : world) : world :=
  mkWorld (w_run w) (w_file w) (w_exists w) (w_isfile w) (w_mkdir w) (w_touch w)
          (w_open_w w) f (w_getsize w) (w_scandir w) (w_listdir w)
          (w_walk w) (w_glob w) (w_post w) (w_now w).

Definition with_getsize (f : trace -> string -> option Z) (w : world) : world :=
  mkWorld (w_run w) (w_file w) (w_exists w) (w_isfile w) (w_mkdir w) (w_touch w)
          (w_open_w w) (w_getmtime w) f (w_scandir w) (w_listdir w)
          (w_walk w) (w_glob w) (w_post w) (w_now w).

Definition with_listdir (f : trace -> string -> option (list string)) (w : world)
  : world :=
  mkWorld (w_run w) (w_file w) (w_exists w) (w_isfile w) (w_mkdir w) (w_touch w)
          (w_open_w w) (w_getmtime w) (w_getsize w) (w_scandir w) f
          (w_walk w) (w_glob w) (w_post w) (w_now w).

Definition with_walk (f : trace -> string -> list (string * list string))
  (w : world) : world :=
  mkWorld (w_run w) (w_file w) (w_exists w) (w_isfile w) (w_mkdir w) (w_touch w)
          (w_open_w w) (w_getmtime w) (w_getsize w) (w_scandir w) (w_listdir w)
          f (w_glob w) (w_post w) (w_now w).

Definition with_glob (f : trace -> string -> list string) (w : world) : world :=
  mkWorld (w_run w) (w_file w) (w_exists w) (w_isfile w) (w_mkdir w) (w_touch w)
          (w_open_w w) (w_getmtime w) (w_getsize w) (w_scandir w) (w_listdir w)
          (w_walk w) f (w_post w) (w_now w).

Definition config0 : AutopkgTools.config :=
  AutopkgTools.mkConfig "/tmp/autopkg_metadata.json" None (PStr "/tmp/recipes")
                        false false.

Definition config_slack : AutopkgTools.config :=
  AutopkgTools.mkConfig "/tmp/autopkg_metadata.json"
                        (Some "https://hooks.slack.example/services/T0/B0/x")
                        (PStr "/tmp/recipes") false false.

Definition cache_dir : string :=
  "/Users/runner/Library/AutoPkg/Cache/com.github.example.pkg.Foo".

Definition foo_download : string := cache_dir ++ "/downloads/Foo-1.0.pkg".

(** A report in which two processors left a package summary, next to the
    download summary. *)
Definition report_two_pkg_keys : pyval :=
  PDict
    [("failures", PList []);
     ("summary_results",
      PDict
        [("pkg_copier_summary_result",
          PDict [("data_rows",
                  PList [PDict [("pkg_path", PStr (cache_dir ++ "/Foo-1.0.pkg"))]])]);
         ("pkg_creator_summary_result",
          PDict [("data_rows",
                  PList [PDict [("identifier", PStr "com.example.foo");
                                ("version", PStr "1.0");
                                ("pkg_path", PStr (cache_dir ++ "/Foo.pkg"))]])]);
         ("url_downloader_summary_result",
          PDict [("data_rows",
                  PList [PDict [("download_path", PStr foo_download)]])])])].

Definition report_at (report : pyval) : trace -> string -> file_state :=
  fun _ p => if p =? AutopkgTools.REPORT_PLIST_PATH
             then Present (Document report) else Missing.

Definition world_two_pkg_keys : world :=
  with_getmtime (fun _ _ => Some 1686130200%Z)
    (with_file (report_at report_two_pkg_keys) still_world).


(** The recipes of the samples, as the search path holds them. *)
Definition recipe_file (identifier : string) : string :=
  "/tmp/recipes/vendor/" ++ identifier.

Definition glob_vendor : trace -> string -> list string :=
  fun _ pattern =>
    if endswith pattern "/**/Foo.pkg.recipe" then [recipe_file "Foo.pkg.recipe"]
    else if endswith pattern "/**/Bar.pkg.recipe" then [recipe_file "Bar.pkg.recipe"]
    else [].

Definition recipe_plist (name : string) : pyval :=
  PDict [("Identifier", PStr ("com.github.example.pkg." ++ name));
         ("Input", PDict [("NAME", PStr name)])].

(** The external tool fails on the recipe Foo with return code 70 and
    succeeds on everything else. *)
Definition run_foo_fails : trace -> string -> Z * string :=
  fun _ cmd =>
    if contains "autopkg run" cmd && contains "Foo.pkg.recipe" cmd
    then (70%Z, "Failed.") else (0%Z, "").

Definition files_with_report (report : pyval) : trace -> string -> file_state :=
  fun _ p =>
    if p =? AutopkgTools.REPORT_PLIST_PATH then Present (Document report)
    else if p =? recipe_file "Foo.pkg.recipe" then Present (Document (recipe_plist "Foo"))
    else if p =? recipe_file "Bar.pkg.recipe" then Present (Document (recipe_plist "Bar"))
    else Missing.

(** A report written by a failed run that nevertheless lists a package. *)
Definition report_failed_with_build : pyval :=
  PDict
    [("failures",
      PList [PDict [("message", PStr "Error in local.Foo: post-processor failed");
                    ("recipe", PStr "Foo.pkg.recipe");
                    ("traceback", PStr "Traceback (most recent call last)")]]);
     ("summary_results",
      PDict
        [("pkg_creator_summary_result",
          PDict [("data_rows",
                  PList [PDict [("version", PStr "1.0");
                                ("pkg_path", PStr (cache_dir ++ "/Foo-1.0.pkg"))]])])])].

Definition world_failed_with_build : world :=
  with_glob glob_vendor
    (with_run run_foo_fails
       (with_file (files_with_report report_failed_with_build) still_world)).

Definition foo_recipe : AutopkgTools.Recipe :=
  AutopkgTools.mkRecipe "Foo.pkg.recipe" (Some (recipe_file "Foo.pkg.recipe"))
                        false false (PDict []) PNone false.

(** A report of a run that found no release upstream. *)
Definition report_no_releases : pyval :=
  PDict
    [("failures",
      PList [PDict [("message",
                     PStr "Error in local.Foo: Processor: GitHubReleasesInfoProvider: Error: No releases found for repo 'example/foo'");
                    ("recipe", PStr "Foo.pkg.recipe");
                    ("traceback", PStr "Traceback (most recent call last)")]])].

Definition world_no_releases : world :=
  with_glob glob_vendor
    (with_run run_foo_fails
       (with_file (files_with_report report_no_releases) still_world)).

(** A cache file that is there and is not JSON. *)
Definition world_garbled_cache : world :=
  with_file (fun _ p => if p =? "/tmp/autopkg_metadata.json"
                        then Present Garbled else Missing)
            still_world.

Definition is_post (e : event) : bool :=
  match e with
  | EvPost _ _ _ _ => true
  | _ => false
  end.

Definition is_run_of (cmd : string) (e : event) : bool :=
  match e with
  | EvRun c => c =? cmd
  | _ => false
  end.

Definition is_open_of (p : string) (e : event) : bool :=
  match e with
  | EvOpen q => q =? p
  | _ => false
  end.

Definition is_running_log (identifier : string) (e : event) : bool :=
  match e with
  | EvLog INFO "Running" [PStr r] => r =? identifier
  | _ => false
  end.

(** A cache whose first record has no size, as [CacheRecipeMetadata] writes
    it for an empty download. *)
Definition bar_download : string :=
  "/Users/runner/Library/AutoPkg/Cache/com.github.example.pkg.Bar/downloads/Bar.dmg".

Definition cache_sizeless_first : pyval :=
  PDict
    [("Foo.pkg.recipe",
      PDict [("download_metadata",
              PList [PDict [("url", PStr "https://example.com/Foo-1.0.pkg");
                            ("pathname", PStr foo_download)]])]);
     ("Bar.pkg.recipe",
      PDict [("cache_timestamp", PStr "2023-06-06 09:30:00.000000");
             ("download_metadata",
              PList [PDict [("pathname", PStr bar_download);
                            ("etag", PStr "abc123");
                            ("dl_size_in_bytes", PStr "1048576")]])])].

(** [mkfile] refuses a size that is not a number. *)
Definition run_mkfile_strict : trace -> string -> Z * string :=
  fun _ cmd =>
    if startswith cmd "mkfile -n 'None'" then (1%Z, "mkfile: invalid size")
    else if startswith cmd "/usr/bin/stat" then (0%Z, "runner")
    else (0%Z, "").

Definition world_mkfile_strict : world := with_run run_mkfile_strict still_world.

(** A record without a pathname, followed by a complete one. *)
Definition record_no_pathname : list (string * pyval) :=
  [("url", PStr "https://example.com/Foo-1.0.pkg"); ("etag", PStr "abc123")].

Definition record_bar : pyval :=
  PDict [("pathname", PStr bar_download);
         ("etag", PStr "abc123");
         ("dl_size_in_bytes", PStr "1048576")].


(** The environment of the processor after a run of Foo that downloaded an
    empty file, with neither etag nor last-modified header. *)
Definition env_foo_empty : list (string * string) :=
  [("RECIPE_PATH", recipe_file "Foo.pkg.recipe");
   ("output_file_name", "autopkg_metadata.json");
   ("url", "https://example.com/Foo-1.0.pkg");
   ("pathname", foo_download)].

Definition world_foo_empty : world :=
  with_listdir (fun _ d => if d =? cache_dir ++ "/downloads"
                           then Some ["Foo-1.0.pkg"] else None)
    (with_getsize (fun _ p => if p =? foo_download then Some 0%Z else None)
       still_world).

(** A run of Bar: a download of 2 MB, and next to it a file of 3 MB that
    carries a last-modified attribute.  The cache from the run before holds
    an entry for Foo. *)
Definition bar_downloads : string :=
  "/Users/runner/Library/AutoPkg/Cache/com.github.example.pkg.Bar/downloads".

Definition env_bar : list (string * string) :=
  [("RECIPE_PATH", recipe_file "Bar.pkg.recipe");
   ("output_file_name", "autopkg_metadata.json");
   ("url", "https://example.com/Bar.dmg");
   ("last_modified", "Tue, 06 Jun 2023 08:00:00 GMT");
   ("pathname", bar_download)].

Definition foo_entry : pyval :=
  PDict [("cache_timestamp", PStr "2023-06-06 09:30:00.000000");
         ("download_metadata",
          PList [PDict [("url", PStr "https://example.com/Foo-1.0.pkg");
                        ("pathname", PStr foo_download);
                        ("etag", PStr "abc123");
                        ("dl_size_in_bytes", PStr "1048576")]])].

Definition cache_with_foo : pyval := PDict [("Foo.pkg.recipe", foo_entry)].

Definition run_xattr_extra : trace -> string -> Z * string :=
  fun _ cmd =>
    if startswith cmd "xattr -p com.github.autopkg.last-modified"
       && contains "Extra.zip" cmd
    then (0%Z, "Mon, 05 Jun 2023 12:00:00 GMT")
    else if startswith cmd "file -b" then (0%Z, "data")
    else (1%Z, "").

Definition world_bar_bonus : world :=
  with_walk (fun _ d => if d =? bar_downloads
                        then [(bar_downloads, ["Bar.dmg"; "Extra.zip"])] else [])
    (with_listdir (fun _ d => if d =? bar_downloads
                              then Some ["Bar.dmg"; "Extra.zip"] else None)
       (with_getsize (fun _ p => if p =? bar_download then Some 2000000%Z
                                 else if p =? bar_downloads ++ "/Extra.zip"
                                      then Some 3000000%Z else None)
          (with_run run_xattr_extra
             (with_file (fun _ p => if p =? "/tmp/autopkg_metadata.json"
                                    then Present (Document cache_with_foo)
                                    else Missing)
                        still_world)))).

(** The mapping that the run of Bar writes. *)
Definition cache_after_bar : pyval :=
  PDict
    [("Foo.pkg.recipe", foo_entry);
     ("Bar.pkg.recipe",
      PDict
        [("cache_timestamp", PStr "2023-06-07 09:30:00.000000");
         ("download_metadata",
          PList
            [PDict [("url", PStr "https://example.com/Bar.dmg");
                    ("pathname", PStr bar_download);
                    ("last_modified", PStr "Tue, 06 Jun 2023 08:00:00 GMT");
                    ("dl_size_in_bytes", PStr "2000000")];
             PDict [("pathname", PStr (bar_downloads ++ "/Extra.zip"));
                    ("last_modified", PStr "Mon, 05 Jun 2023 12:00:00 GMT");
                    ("dl_size_in_bytes", PStr "3000000")]])])].

(** The history of that run. *)
Definition trace_after_bar : trace :=
  match CacheRecipeMetadata.main world_bar_bonus env_bar 2 [] with
  | Some r => fst r
  | None => []
  end.

(** A run that only downloaded a disk image. *)
Definition baz_download : string :=
  "/Users/runner/Library/AutoPkg/Cache/local.download.Baz/downloads/Baz.dmg".

Definition report_download_only (download : string) : pyval :=
  PDict
    [("failures", PList []);
     ("summary_results",
      PDict
        [("url_downloader_summary_result",
          PDict [("data_rows",
                  PList [PDict [("download_path", PStr download)]])])])].

Definition world_download_only (download : string) : world :=
  with_getmtime (fun _ _ => Some 1686130200%Z)
    (with_file (report_at (report_download_only download)) still_world).

(** The receipts of Foo: one written before the download, one after it,
    which names a package and no version. *)
Definition old_receipt : string := cache_dir ++ "/receipts/Foo-receipt-20230601.plist".
Definition new_receipt : string := cache_dir ++ "/receipts/Foo-receipt-20230607.plist".

Definition receipt_without_version : pyval :=
  PList [PDict [("Processor", PStr "URLDownloader");
                ("Output", PDict [("pathname", PStr foo_download)])];
         PDict [("Processor", PStr "PkgCopier");
                ("Output", PDict [("pkg_path", PStr (cache_dir ++ "/Foo.pkg"))])]].

Definition world_receipts : world :=
  with_getmtime (fun _ p => if p =? old_receipt then Some 1685600000%Z
                            else if p =? new_receipt then Some 1686130300%Z
                            else Some 1686130200%Z)
    (with_file (fun _ p => if p =? new_receipt
                           then Present (Document receipt_without_version)
                           else Missing)
               still_world).

Definition bar_recipe : AutopkgTools.Recipe :=
  AutopkgTools.mkRecipe "Bar.pkg.recipe" (Some (recipe_file "Bar.pkg.recipe"))
                        false false (PDict []) PNone false.

(** A recipe object whose file was not found. *)
Definition lost_recipe : AutopkgTools.Recipe :=
  AutopkgTools.mkRecipe "Qux.pkg.recipe" None false true (PDict []) PNone false.

(** A machine on which every command succeeds and [admin] sits at the
    console. *)
Definition run_console_admin : trace -> string -> Z * string :=
  fun _ cmd =>
    if cmd =? "/usr/bin/stat -f%Su /dev/console" then (0%Z, "admin")
    else (0%Z, "").

Definition world_console_admin : world := with_run run_console_admin still_world.

Definition record_bar_fields : list (string * pyval) :=
  [("pathname", PStr bar_download);
   ("etag", PStr "abc123");
   ("dl_size_in_bytes", PStr "1048576")].

Definition cache_bar_then_foo : list (string * pyval) :=
  [("Bar.pkg.recipe",
    PDict [("download_metadata", PList [PDict record_bar_fields])]);
   ("Foo.pkg.recipe", foo_entry)].

Definition cache_unstamped_first : list (string * pyval) :=
  [("Baz.download.recipe",
    PDict [("cache_timestamp", PStr "2023-06-06 09:30:00.000000")]);
   ("Foo.pkg.recipe", foo_entry)].

(** Runs of Foo over a cache file that holds a list, one whose entry for Foo
    is a text, and one whose entry for Foo carries a note. *)
Definition with_cache_file (v : pyval) (w : world) : world :=
  with_file (fun _ p => if p =? "/tmp/autopkg_metadata.json"
                        then Present (Document v) else Missing) w.

Definition world_cache_list : world :=
  with_cache_file (PList [PStr "Foo.pkg.recipe"]) world_foo_empty.

Definition world_cache_text_entry : world :=
  with_cache_file (PDict [("Foo.pkg.recipe", PStr "stale")]) world_foo_empty.



(** A downloads directory with a small file next to the download. *)
Definition world_small_sibling : world :=
  with_getsize (fun _ p => if p =? bar_downloads ++ "/notes.txt"
                           then Some 500000%Z else None)
    still_world.



(** Command lines: the override with two identifiers, a recipe list with an
    extension that is not supported, and neither of the two. *)
Definition cli_override : AutopkgTools.cli :=
  AutopkgTools.mkCli (Some "Foo.pkg, Bar.pkg.recipe") None "/opt/carl".

Definition cli_list_txt : AutopkgTools.cli :=
  AutopkgTools.mkCli None (Some "recipes.txt") "/opt/carl".

Definition cli_nothing : AutopkgTools.cli :=
  AutopkgTools.mkCli (Some "") None "/opt/carl".

Definition config_cache : AutopkgTools.config :=
  AutopkgTools.mkConfig "/tmp/autopkg_metadata.json" None (PStr "/tmp/recipes")
                        true false.

(** A webhook that answers with a server error. *)
Definition with_post (f : trace -> string -> Z) (w : world) : world :=
  mkWorld (w_run w) (w_file w) (w_exists w) (w_isfile w) (w_mkdir w) (w_touch w)
          (w_open_w w) (w_getmtime w) (w_getsize w) (w_scandir w) (w_listdir w)
          (w_walk w) (w_glob w) f (w_now w).

Definition world_slack_down : world := with_post (fun _ _ => 500%Z) world_no_releases.

(** Foo after a failed run whose report lists no failure, and Bar after a
    run that downloaded a file and built nothing. *)
Definition foo_failed_silently : AutopkgTools.Recipe :=
  AutopkgTools.set_results
    (PDict [("built", PList []); ("downloaded", PList []); ("failed", PList [])])
    (AutopkgTools.set_error true foo_recipe).

Definition bar_downloaded_only : AutopkgTools.Recipe :=
  AutopkgTools.set_results
    (PDict [("built", PList []);
            ("downloaded", PList [PDict [("download_path", PStr bar_download)]]);
            ("failed", PList [])])
    (AutopkgTools.set_has_run true bar_recipe).

Definition config_debug : AutopkgTools.config :=
  AutopkgTools.mkConfig "/tmp/autopkg_metadata.json"
                        (Some "https://hooks.slack.example/services/T0/B0/x")
                        (PStr "/tmp/recipes") false true.

End Samples.

(* ------------------------------------------------------------------ *)
(** ** Notions used to state the properties *)

Module Views.
Import Py Eff.
Local Open Scope eff_scope.

Section ToolsViews.
Import AutopkgTools.

(** What [run] does after the report file is in place. *)
Definition run_after_touch (W : world) (C : config) : MR pyval :=
  (try_except
     (p <- attr_path ;;
      let cmd := autopkg_cmd C p in
      liftT (log DEBUG "Running" [PStr cmd]) ;;
      liftT (_run_command W cmd) ;;
      ret tt)
     (CalledProcessError 0)
     (fun e => liftT (log_exn ERROR "" e []) ;; self_set (set_error true)) ;;
   self_set (set_has_run true) ;;
   parsed <- liftT (_parse_report W REPORT_PLIST_PATH) ;;
   self_set (set_results parsed) ;;
   built <- lift (get parsed "built") ;;
   when (truthy built) (self_set (set_success true)) ;;
   ret parsed)%eff.

End ToolsViews.

Section ProcessorViews.
Import CacheRecipeMetadata.

(** [d[k] = v] when [b] holds. *)
Definition put_if (b : bool) (k : string) (v : pyval) (d : list (string * pyval))
  : list (string * pyval) :=
  if b then setitem k v d else d.

(** The primary record, from the environment and the size on disk. *)
Definition primary_record (env : list (string * string)) (size : Z)
  : list (string * pyval) :=
  put_if (negb (size =? 0)%Z) "dl_size_in_bytes" (PStr (str_of_Z size))
    (put_if (truthy (env_get env "last_modified")) "last_modified"
            (env_get env "last_modified")
       (put_if (truthy (env_get env "etag")) "etag" (env_get env "etag")
          (put_if (truthy (env_get env "pathname")) "pathname"
                  (env_get env "pathname")
             (put_if (truthy (env_get env "url")) "url" (env_get env "url") [])))).

Definition primary_modified (env : list (string * string)) (size : Z) : bool :=
  truthy (env_get env "etag") || truthy (env_get env "last_modified")
  || negb (size =? 0)%Z.

Definition recipe_filename_of (env : list (string * string)) : string :=
  match lookup "RECIPE_PATH" env with
  | Some recipe_name => snd (PosixPath.split recipe_name)
  | None => ""
  end.

Definition output_file_of (env : list (string * string)) : string :=
  PosixPath.join2
    (match lookup "output_file_path" env with
     | Some p => if p =? "" then "/tmp" else p
     | None => "/tmp"
     end)
    (match lookup "output_file_name" env with
     | Some n => n
     | None => ""
     end).

(** The mapping that the cache file holds when [main] reads it. *)
Definition loaded (W : world) (env : list (string * string)) (tr : trace) : pyval :=
  match w_file W tr (output_file_of env) with
  | Present (Document v) => v
  | _ => PDict []
  end.

(** A record that can be replayed: it names a file. *)
Definition has_pathname (r : pyval) : Prop :=
  exists d p, r = PDict d /\ lookup "pathname" d = Some (PStr p) /\ p <> "".

(** The names that a walk yields are names of directory entries. *)
Definition walk_names_nonempty (W : world) : Prop :=
  forall tr top root files name,
    In (root, files) (w_walk W tr top) -> In name files -> name <> "".

(** The entry of the recipe after [main]: the loaded entry [e0], stamped
    when the cache was modified, with the records of this run. *)
Definition final_entry (e0 : list (string * pyval)) (modified : bool)
  (now : string) (records : list pyval) : list (string * pyval) :=
  setitem "download_metadata" (PList records)
          (if modified then setitem "cache_timestamp" (PStr now) e0 else e0).

Definition is_nil {A} (l : list A) : bool :=
  match l with
  | [] => true
  | _ => false
  end.

(** The entry of the recipe in a loaded mapping; a recipe that was not
    cached starts from the empty entry. *)
Definition loaded_entry (key : string) (d0 : list (string * pyval))
  : list (string * pyval) :=
  match lookup key d0 with
  | Some (PDict e) => e
  | _ => []
  end.

End ProcessorViews.

Section ReplayViews.
Import AutopkgTools.

(** [d.get(k)] on the fields of a record. *)
Definition field (d : list (string * pyval)) (k : string) : pyval :=
  match lookup k d with
  | Some v => v
  | None => PNone
  end.

Definition stat_console : string := "/usr/bin/stat -f%Su /dev/console".

Definition mkfile_cmd (size : pyval) (pathname : string) : string :=
  "mkfile -n '" ++ str size ++ "' '" ++ pathname ++ "'".

Definition xattr_etag_cmd (etag : pyval) (pathname : string) : string :=
  "xattr -w com.github.autopkg.etag '" ++ str etag ++ "' '" ++ pathname ++ "'".

Definition xattr_last_modified_cmd (last_modified : pyval) (pathname : string)
  : string :=
  "xattr -w com.github.autopkg.last-modified '" ++ str last_modified
  ++ "' '" ++ pathname ++ "'".

(** A machine on which every command succeeds and every missing directory
    can be made. *)
Definition commands_succeed (W : world) : Prop :=
  (forall tr cmd, fst (w_run W tr cmd) = 0%Z)
  /\ (forall tr dir, w_exists W tr dir = false -> w_mkdir W tr dir = true).

(** The user at the console when the record with pathname [p] is replayed
    from the history [tr], and the path of the placeholder for that user. *)
Definition console_user_at (W : world) (tr : trace) (p : string) : string :=
  snd (w_run W (EvLog DEBUG "Found previous cache path"
                      [PStr (fst (PosixPath.split p))] :: tr)
             stat_console).

Definition placeholder_path (W : world) (tr : trace) (p : string) : string :=
  snd (home_rewrite (fst (PosixPath.split p)) p (console_user_at W tr p)).

Definition is_log_exn (e : event) : bool :=
  match e with
  | EvLogExn _ _ _ _ => true
  | _ => false
  end.

(** A record that names its file, an entry whose [download_metadata] is a
    list of such records, and a cache made of such entries. *)
Definition record_replayable (r : pyval) : bool :=
  match r with
  | PDict d => match lookup "pathname" d with
               | Some (PStr _) => true
               | _ => false
               end
  | _ => false
  end.

Definition entry_replayable (e : pyval) : bool :=
  match e with
  | PDict f => match lookup "download_metadata" f with
               | Some (PList records) => forallb record_replayable records
               | _ => false
               end
  | _ => false
  end.

Definition key_replayable (d : list (string * pyval)) (k : string) : bool :=
  match lookup k d with
  | Some e => entry_replayable e
  | None => false
  end.

Definition replayable (d : list (string * pyval)) : bool :=
  forallb (key_replayable d) (map fst d).

Definition no_log_exn (tr : trace) : bool :=
  forallb (fun e => negb (is_log_exn e)) tr.

End ReplayViews.

Section BonusViews.

Definition is_mapping (v : pyval) : bool :=
  match v with
  | PDict _ => true
  | _ => false
  end.







End BonusViews.

End Views.

(* ------------------------------------------------------------------ *)
(** ** Facts about the string operations *)

Module StrFacts.
Import Py.

Lemma length_app (a b : string) :
  String.length (a ++ b) = String.length a + String.length b.
Proof.
  induction a as [|c a IH]; simpl; [reflexivity | now rewrite IH].
Qed.

Lemma app_assoc (a b c : string) : (a ++ b) ++ c = a ++ (b ++ c).
Proof.
  induction a as [|x a IH]; simpl; [reflexivity | now rewrite IH].
Qed.


Lemma substring_skip (a s : string) (m : nat) :
  substring (String.length a) m (a ++ s) = substring 0 m s.
Proof.
  induction a as [|c a IH]; simpl; [reflexivity | exact IH].
Qed.



(** *** [replace] replaces every occurrence, from the left *)






Lemma substring_all (s : string) : substring 0 (String.length s) s = s.
Proof.
  induction s as [|c s IH]; simpl; [reflexivity | now rewrite IH].
Qed.

Lemma endswith_app (a suf : string) : endswith (a ++ suf) suf = true.
Proof.
  unfold endswith, drop.
  rewrite length_app.
  replace (String.length a + String.length suf - String.length suf)
    with (String.length a) by lia.
  replace (String.length a + String.length suf - String.length a)
    with (String.length suf) by lia.
  rewrite substring_skip, substring_all, String.eqb_refl, andb_true_r.
  apply Nat.leb_le. lia.
Qed.

End StrFacts.

(* ------------------------------------------------------------------ *)
(** ** Facts about the monad *)

Module EffFacts.
Import Py Eff.

Lemma bind_inv {S A B} (m : M S A) (k : A -> M S B) (s s' : S) (b : B) :
  bind m k s = (s', Ok b) ->
  exists a s1, m s = (s1, Ok a) /\ k a s1 = (s', Ok b).
Proof.
  unfold bind. destruct (m s) as [s1 [a|e]]; intros H.
  - now exists a, s1.
  - discriminate H.
Qed.

Lemma bind_ok {S A B} (m : M S A) (k : A -> M S B) (s s1 : S) (a : A) :
  m s = (s1, Ok a) -> bind m k s = k a s1.
Proof. unfold bind. now intros ->. Qed.

Lemma bind_raise {S A B} (m : M S A) (k : A -> M S B) (s s1 : S) (e : exn) :
  m s = (s1, Raise e) -> bind m k s = (s1, Raise e).
Proof. unfold bind. now intros ->. Qed.

Lemma lift_inv {S A} (r : res A) (s s' : S) (a : A) :
  lift r s = (s', Ok a) -> r = Ok a /\ s' = s.
Proof. unfold lift. intros H. injection H as -> ->. auto. Qed.

Lemma ret_inv {S A} (x : A) (s s' : S) (a : A) :
  ret x s = (s', Ok a) -> x = a /\ s' = s.
Proof. unfold ret. intros H. injection H as -> ->. auto. Qed.

End EffFacts.

(* ------------------------------------------------------------------ *)
(** ** Properties of autopkg_tools.py *)

Module ToolsFacts.
Import Py Eff AutopkgTools Samples Views EffFacts.
Local Open Scope eff_scope.

(** *** ReportParser *)

(** The report that [_parse_report] returns is a dict of three lists. *)
Lemma parse_report_shape (W : world) (report : string) (tr tr' : trace) (v : pyval) :
  _parse_report W report tr = (tr', Ok v) ->
  exists built downloaded failed,
    v = PDict [("built", PList built); ("downloaded", PList downloaded);
               ("failed", failed)].
Proof.
  unfold _parse_report. intros H.
  apply bind_inv in H as (report_data & s1 & _ & H).
  apply bind_inv in H as (failed & s2 & _ & H).
  apply bind_inv in H as (summary & s3 & _ & H).
  apply bind_inv in H as ([built downloaded] & s4 & _ & H).
  apply ret_inv in H as [<- _].
  now exists built, downloaded, failed.
Qed.

(** C1, at the failing input: the report holds two package summaries, each
    with its row list, and a download row whose path names a package; the
    two summary keys are joined into a key that the report does not have,
    the package rows are lost, and the download is promoted to a build. *)
Theorem parse_report_two_pkg_keys_promotes_download :
  (exists summary rows_copier rows_creator,
      get report_two_pkg_keys "summary_results" = Ok summary
      /\ getitem summary "pkg_copier_summary_result"
         = Ok (PDict [("data_rows", PList rows_copier)])
      /\ getitem summary "pkg_creator_summary_result"
         = Ok (PDict [("data_rows", PList rows_creator)])
      /\ rows_copier <> [] /\ rows_creator <> [])
  /\ snd (_parse_report world_two_pkg_keys REPORT_PLIST_PATH [])
     = Ok (PDict [("built", PList [PDict [("pkg_path", PStr foo_download)]]);
                  ("downloaded",
                   PList [PDict [("download_path", PStr foo_download)]]);
                  ("failed", PList [])]).
Proof.
  split.
  - eexists _, _, _. repeat split; try reflexivity; discriminate.
  - vm_compute. reflexivity.
Qed.


(** Where the claim holds: with one summary key that names [pkg] and a
    non-empty result under it, the built list is the row list of that
    result and the receipts are never looked at. *)
Lemma parse_report_one_pkg_key (W : world) (report : string) (tr : trace)
  (data summary pkg : list (string * pyval)) (k : string) :
  w_file W tr report = Present (Document (PDict data)) ->
  lookup "summary_results" data = Some (PDict summary) ->
  filter fnmatch_pkg (map fst summary) = [k] ->
  lookup k summary = Some (PDict pkg) ->
  pkg <> [] ->
  exists r,
    _parse_report W report tr = (EvOpen report :: tr, r)
    /\ forall v, r = Ok v ->
         exists built,
           iter (match lookup "data_rows" pkg with
                 | Some rows => rows
                 | None => PList []
                 end) = Ok built
           /\ get v "built" = Ok (PList built).
Proof.
  intros Hfile Hsum Hkeys Hpkg Hne.
  assert (summary <> []) as Hs by (intros ->; discriminate Hpkg).
  unfold _parse_report, _plist_pal, open_read, bind at 1 2.
  rewrite Hfile. cbn [plistlib_load lift].
  unfold bind at 1. cbn [get_default lift].
  unfold bind at 1. cbn [get lift]. rewrite Hsum.
  assert (truthy (PDict summary) = true) as -> by (destruct summary; [contradiction | reflexivity]).
  cbn [keys]. unfold bind at 2. cbn [lift]. rewrite Hkeys.
  cbn [join String.concat].
  unfold bind at 2. cbn [get_default lift]. rewrite Hpkg.
  unfold bind at 2. cbn [lift get_default].
  assert (truthy (PDict pkg) = true) as Ht by (destruct pkg; [contradiction | reflexivity]).
  set (rows := match lookup "data_rows" pkg with Some v => v | None => PList [] end).
  unfold bind at 2. cbn [lift].
  destruct (iter rows) as [built|e] eqn:Hrows.
  2:{ unfold bind. eexists. split; [reflexivity|]. intros v Hv. discriminate Hv. }
  unfold bind at 2. cbn [lift].
  destruct (lookup "url_downloader_summary_result" summary) as [dl|] eqn:Hdl.
  - unfold bind at 2.
    destruct (get_default dl "data_rows" (PList [])) as [dl_rows|e] eqn:Hdr;
      cbn [lift].
    2:{ unfold bind. eexists. split; [reflexivity|]. intros v Hv. discriminate Hv. }
    unfold bind at 2. cbn [lift].
    destruct (iter dl_rows) as [downloaded|e] eqn:Hit.
    2:{ unfold bind. eexists. split; [reflexivity|]. intros v Hv. discriminate Hv. }
    rewrite Ht, andb_false_r.
    unfold bind, ret. eexists. split; [reflexivity|].
    intros v Hv. injection Hv as <-. exists built. now split.
  - cbn [get_default lift]. unfold bind at 2. cbn [lift iter].
    unfold bind at 2. cbn [lift truthy andb].
    unfold bind, ret. eexists. split; [reflexivity|].
    intros v Hv. injection Hv as <-. exists built. now split.
Qed.


(** *** RecipeRunner *)

Lemma run_touches_report (W : world) (C : config) (r : Recipe) (tr : trace) :
  (w_isfile W tr REPORT_PLIST_PATH = false ->
   w_touch W tr REPORT_PLIST_PATH = true) ->
  run W C (r, tr)
  = run_after_touch W C
      (r, if w_isfile W tr REPORT_PLIST_PATH then tr
          else EvTouch REPORT_PLIST_PATH :: tr).
Proof.
  intros Htouch.
  unfold run, run_after_touch.
  unfold bind at 1, liftT at 1, ask. cbn [fst snd].
  unfold bind at 1, when, liftT at 1, touch, ret.
  destruct (w_isfile W tr REPORT_PLIST_PATH) eqn:Hf; cbn [negb fst snd];
    [reflexivity|].
  now rewrite (Htouch eq_refl).
Qed.

(** A non-zero return code is caught: the parser runs next, on a recipe
    whose error flag is set. *)
Lemma run_failed_reaches_parser (W : world) (C : config) (r : Recipe)
  (tr0 : trace) (p : string) (code : Z) (out : string) :
  path r = Some p ->
  w_run W (EvLog DEBUG "Running" [PStr (autopkg_cmd C p)] :: tr0) (autopkg_cmd C p)
  = (code, out) ->
  code <> 0%Z ->
  run_after_touch W C (r, tr0)
  = (parsed <- liftT (_parse_report W REPORT_PLIST_PATH) ;;
     self_set (set_results parsed) ;;
     built <- lift (get parsed "built") ;;
     when (truthy built) (self_set (set_success true)) ;;
     ret parsed)%eff
      (set_has_run true (set_error true r),
       EvLogExn ERROR "" (CalledProcessError code) []
       :: EvRun (autopkg_cmd C p)
       :: EvLog DEBUG "Running" [PStr (autopkg_cmd C p)] :: tr0).
Proof.
  intros Hpath Hrun Hcode.
  unfold run_after_touch.
  unfold bind at 1.
  unfold try_except, bind at 1, attr_path. cbn [fst snd]. rewrite Hpath.
  unfold bind at 1, liftT at 1, log, emit. cbn [fst snd].
  unfold bind at 1, liftT at 1, _run_command. cbn [fst snd].
  rewrite Hrun.
  destruct (Z.eqb_spec code 0) as [->|_]; [now elim Hcode|].
  cbn [isinstance exn_eqb orb].
  unfold bind at 1, liftT at 1, log_exn, emit. cbn [fst snd].
  unfold self_set at 1. cbn [fst snd].
  unfold bind at 1, self_set at 1. cbn [fst snd].
  reflexivity.
Qed.

(** C2, as the code has it: when the tool exits with a non-zero code the
    error is caught and logged and the error flag is set; the report is then
    parsed all the same, from the history that ends with that log record,
    and the success flag is set when the parsed built list is not empty. *)
Theorem run_after_failed_invocation :
  forall (W : world) (C : config) (r : Recipe) (tr : trace) (p : string)
         (code : Z) (out : string),
    path r = Some p ->
    let tr0 := if w_isfile W tr REPORT_PLIST_PATH then tr
               else EvTouch REPORT_PLIST_PATH :: tr in
    (w_isfile W tr REPORT_PLIST_PATH = false ->
     w_touch W tr REPORT_PLIST_PATH = true) ->
    let cmd := autopkg_cmd C p in
    w_run W (EvLog DEBUG "Running" [PStr cmd] :: tr0) cmd = (code, out) ->
    code <> 0%Z ->
    let tr1 := EvLogExn ERROR "" (CalledProcessError code) []
               :: EvRun cmd :: EvLog DEBUG "Running" [PStr cmd] :: tr0 in
    let failed := set_has_run true (set_error true r) in
    match _parse_report W REPORT_PLIST_PATH tr1 with
    | (tr2, Raise e) => run W C (r, tr) = ((failed, tr2), Raise e)
    | (tr2, Ok parsed) =>
        exists built,
          get parsed "built" = Ok (PList built)
          /\ run W C (r, tr)
             = (((if truthy (PList built)
                  then set_success true (set_results parsed failed)
                  else set_results parsed failed), tr2), Ok parsed)
    end.
Proof.
  intros W C r tr p code out Hpath tr0 Htouch cmd Hrun Hcode tr1 failed.
  rewrite (run_touches_report W C r tr Htouch). fold tr0.
  rewrite (run_failed_reaches_parser W C r tr0 p code out Hpath Hrun Hcode).
  fold cmd tr1 failed.
  destruct (_parse_report W REPORT_PLIST_PATH tr1) as [tr2 [parsed|e]] eqn:Hparse.
  2:{ unfold bind at 1, liftT at 1. cbn [fst snd]. now rewrite Hparse. }
  destruct (parse_report_shape _ _ _ _ _ Hparse) as (built & dl & fl & ->).
  exists built. split; [reflexivity|].
  unfold bind at 1, liftT at 1. cbn [fst snd]. rewrite Hparse.
  unfold bind at 1, self_set at 1. cbn [fst snd].
  unfold bind at 1. cbn [lift get lookup String.eqb Ascii.eqb Bool.eqb].
  unfold bind, when, self_set, ret. cbn [fst snd].
  now destruct built.
Qed.

(** C2 on the sample run of Foo, where the tool exits with code 70 and the
    report lists a package. *)
Lemma run_after_failed_invocation_witness :
  exists built,
    get (PDict [("built",
                 PList [PDict [("version", PStr "1.0");
                               ("pkg_path", PStr (cache_dir ++ "/Foo-1.0.pkg"))]]);
                ("downloaded", PList []);
                ("failed",
                 PList [PDict [("message",
                                PStr "Error in local.Foo: post-processor failed");
                               ("recipe", PStr "Foo.pkg.recipe");
                               ("traceback",
                                PStr "Traceback (most recent call last)")]])])
        "built" = Ok (PList built)
    /\ success (fst (fst (run world_failed_with_build config0 (foo_recipe, []))))
       = truthy (PList built).
Proof.
  pose proof (run_after_failed_invocation world_failed_with_build config0
                foo_recipe [] (recipe_file "Foo.pkg.recipe") 70%Z "Failed."
                eq_refl (fun _ => eq_refl) eq_refl
                ltac:(discriminate)) as H.
  vm_compute in H.
  destruct H as (built & Hb & Hrun).
  exists built. split; [exact Hb|].
  injection Hb as <-. reflexivity.
Defined.

(** C2 fails as stated: the tool exits with code 70, and the report is
    opened, parsed, and sets the success flag next to the error flag. *)
Lemma run_failed_invocation_is_parsed :
  fst (w_run world_failed_with_build
         [EvLog DEBUG "Running"
                [PStr (autopkg_cmd config0 (recipe_file "Foo.pkg.recipe"))];
          EvTouch REPORT_PLIST_PATH]
         (autopkg_cmd config0 (recipe_file "Foo.pkg.recipe"))) = 70%Z
  /\ existsb (is_open_of REPORT_PLIST_PATH)
             (snd (fst (run world_failed_with_build config0 (foo_recipe, []))))
     = true
  /\ error (fst (fst (run world_failed_with_build config0 (foo_recipe, []))))
     = true
  /\ success (fst (fst (run world_failed_with_build config0 (foo_recipe, []))))
     = true.
Proof. vm_compute. repeat split; reflexivity. Qed.

(** *** CacheStore *)

Lemma load_cached_attributes_missing (W : world) (C : config) (tr : trace) :
  w_file W tr (METADATA_CACHE_PATH C) = Missing ->
  snd (load_cached_attributes W C tr) = Ok (PDict []).
Proof.
  intros H. unfold load_cached_attributes, try_except, bind, open_read.
  now rewrite H.
Qed.

Lemma load_cached_attributes_document (W : world) (C : config) (tr : trace)
  (v : pyval) :
  w_file W tr (METADATA_CACHE_PATH C) = Present (Document v) ->
  snd (load_cached_attributes W C tr) = Ok v.
Proof.
  intros H. unfold load_cached_attributes, try_except, bind, open_read.
  now rewrite H.
Qed.

(** The loader of the processor never raises: whatever the file is, the
    result is a value, and it is the empty mapping unless the file holds a
    document. *)
Lemma get_latest_recipe_run_info_total (W : world) (f : string) (tr : trace) :
  snd (CacheRecipeMetadata.get_latest_recipe_run_info W f tr)
  = Ok (match w_file W tr f with
        | Present (Document v) => v
        | _ => PDict []
        end).
Proof.
  unfold CacheRecipeMetadata.get_latest_recipe_run_info, try_except_any, bind,
    open_read.
  destruct (w_file W tr f) as [| |[|v]]; reflexivity.
Qed.

(** C3, at the failing input: the cache file is there and is not JSON.
    [load_cached_attributes] lets the decoding error through, where the
    loader of the processor answers with the empty mapping. *)
Theorem load_cached_attributes_garbled_raises :
  w_file world_garbled_cache [] (METADATA_CACHE_PATH config0) = Present Garbled
  /\ snd (load_cached_attributes world_garbled_cache config0 [])
     = Raise JSONDecodeError
  /\ snd (CacheRecipeMetadata.get_latest_recipe_run_info
            world_garbled_cache (METADATA_CACHE_PATH config0) [])
     = Ok (PDict []).
Proof. vm_compute. repeat split; reflexivity. Qed.

(** *** Notification *)

(** C4, at the failing input: the run of Foo fails, its report says that no
    release was found, and a webhook is configured.  No notification is
    posted, but the bare [return] of [_eval_recipe_results] cannot be
    unpacked by [slack_alert]: the [TypeError] is not an [AttributeError],
    the loop of [main] ends, and Bar is never run. *)
Theorem main_loop_stops_on_no_releases :
  snd (_eval_recipe_results world_no_releases
         (fst (handle_recipe world_no_releases config_slack (foo_recipe, []))))
  = Ok None
  /\ snd (main_loop world_no_releases config_slack
            ["Foo.pkg.recipe"; "Bar.pkg.recipe"] []) = Raise TypeError
  /\ existsb is_post
       (fst (main_loop world_no_releases config_slack
               ["Foo.pkg.recipe"; "Bar.pkg.recipe"] [])) = false
  /\ existsb (is_running_log "Bar.pkg.recipe")
       (fst (main_loop world_no_releases config_slack
               ["Foo.pkg.recipe"; "Bar.pkg.recipe"] [])) = false
  /\ existsb (is_running_log "Bar.pkg.recipe")
       (fst (main_loop world_no_releases config0
               ["Foo.pkg.recipe"; "Bar.pkg.recipe"] [])) = true.
Proof. vm_compute. repeat split; reflexivity. Qed.


(** *** PlaceholderReplicator *)

Lemma replicate_download_without_pathname (W : world) (i : string)
  (d : list (string * pyval)) (tr : trace) :
  (forall s, lookup "pathname" d <> Some (PStr s)) ->
  replicate_download W i (PDict d) tr
  = (EvLogExn CRITICAL populate_issue TypeError [PStr i; PDict d] :: tr, Ok tt).
Proof.
  intros Hno.
  unfold replicate_download.
  unfold bind at 1. cbn [lift get].
  unfold bind at 1. cbn [lift].
  unfold bind at 1. cbn [lift].
  unfold bind at 1. cbn [lift].
  unfold try_except. unfold bind at 1.
  destruct (lookup "pathname" d) as [v|] eqn:Hp.
  - destruct v; try reflexivity.
    now elim (Hno s).
  - reflexivity.
Qed.

(** C5, as the code has it: a record whose pathname is missing, or is not a
    string, is caught as the [TypeError] of the path split and logged with
    the recipe key and the record, and the replication goes on with the
    next record of the entry. *)
Theorem replication_skips_record_without_pathname :
  forall (W : world) (i : string) (d : list (string * pyval))
         (rest : list pyval) (tr : trace),
    (forall s, lookup "pathname" d <> Some (PStr s)) ->
    for_each (PDict d :: rest) (replicate_download W i) tr
    = for_each rest (replicate_download W i)
        (EvLogExn CRITICAL populate_issue TypeError [PStr i; PDict d] :: tr).
Proof.
  intros W i d rest tr Hno.
  cbn [for_each]. unfold bind at 1.
  now rewrite replicate_download_without_pathname.
Qed.

(** C5 on a record without pathname followed by the record of Bar, whose
    placeholder is made. *)
Lemma replication_skips_record_without_pathname_witness :
  for_each [PDict record_no_pathname; record_bar]
           (replicate_download world_mkfile_strict "Foo.pkg.recipe") []
  = for_each [record_bar]
             (replicate_download world_mkfile_strict "Foo.pkg.recipe")
             [EvLogExn CRITICAL populate_issue TypeError
                       [PStr "Foo.pkg.recipe"; PDict record_no_pathname]]
  /\ existsb (is_run_of ("mkfile -n '1048576' '" ++ bar_download ++ "'"))
       (fst (for_each [PDict record_no_pathname; record_bar]
               (replicate_download world_mkfile_strict "Foo.pkg.recipe") []))
     = true.
Proof.
  split.
  - apply (replication_skips_record_without_pathname
             world_mkfile_strict "Foo.pkg.recipe" record_no_pathname
             [record_bar] []).
    intros s. vm_compute. discriminate.
  - vm_compute. reflexivity.
Defined.

(** C5 fails as stated: the first record has a pathname and no size, the
    [mkfile] command made for it exits with code 1, the
    [CalledProcessError] is not a [TypeError], and the record of the next
    recipe is never replicated. *)
Lemma replication_aborts_on_failed_command :
  snd (create_file_and_attributes world_mkfile_strict cache_sizeless_first [])
  = Raise (CalledProcessError 1)
  /\ existsb (is_run_of ("mkfile -n 'None' '" ++ foo_download ++ "'"))
       (fst (create_file_and_attributes world_mkfile_strict
               cache_sizeless_first [])) = true
  /\ existsb (is_run_of ("mkfile -n '1048576' '" ++ bar_download ++ "'"))
       (fst (create_file_and_attributes world_mkfile_strict
               cache_sizeless_first [])) = false.
Proof. vm_compute. repeat split; reflexivity. Qed.

(** *** The home-directory rewrite *)




End ToolsFacts.

(* ------------------------------------------------------------------ *)
(** ** Properties of CacheRecipeMetadata.py *)

Module ProcessorFacts.
Import Py Eff CacheRecipeMetadata Samples Views EffFacts.
Local Open Scope eff_scope.

(** *** Dicts *)

Lemma lookup_setitem_same {A} (k : string) (v : A) (d : list (string * A)) :
  lookup k (setitem k v d) = Some v.
Proof.
  induction d as [|[k' v'] d IH]; cbn [setitem lookup].
  - now rewrite String.eqb_refl.
  - destruct (String.eqb_spec k' k) as [->|Hne]; cbn [lookup].
    + now rewrite String.eqb_refl.
    + destruct (String.eqb_spec k' k); [contradiction | exact IH].
Qed.

Lemma lookup_setitem_other {A} (k k' : string) (v : A) (d : list (string * A)) :
  k' <> k -> lookup k' (setitem k v d) = lookup k' d.
Proof.
  intros Hne.
  induction d as [|[k0 v0] d IH]; cbn [setitem lookup].
  - destruct (String.eqb_spec k k'); [now subst | reflexivity].
  - destruct (String.eqb_spec k0 k) as [->|Hk]; cbn [lookup].
    + destruct (String.eqb_spec k k'); [now subst | reflexivity].
    + destruct (String.eqb_spec k0 k'); [reflexivity | exact IH].
Qed.

Lemma setitem_twice {A} (k : string) (v v' : A) (d : list (string * A)) :
  setitem k v (setitem k v' d) = setitem k v d.
Proof.
  induction d as [|[k0 x] d IH]; cbn [setitem].
  - now rewrite String.eqb_refl.
  - destruct (String.eqb_spec k0 k) as [->|Hne]; cbn [setitem].
    + now rewrite String.eqb_refl.
    + destruct (String.eqb_spec k0 k); [contradiction | now rewrite IH].
Qed.

Lemma existsb_eqb_lookup {A} (k : string) (d : list (string * A)) :
  existsb (String.eqb k) (map fst d) = false -> lookup k d = None.
Proof.
  induction d as [|[k' v'] d IH]; cbn [map fst existsb lookup]; [reflexivity|].
  intros H. apply orb_false_elim in H as [Hk H].
  rewrite String.eqb_sym, Hk. now apply IH.
Qed.

Lemma existsb_eqb_lookup_some {A} (k : string) (d : list (string * A)) :
  existsb (String.eqb k) (map fst d) = true -> exists v, lookup k d = Some v.
Proof.
  induction d as [|[k' v'] d IH]; cbn [map fst existsb lookup];
    [discriminate|].
  intros H.
  destruct (String.eqb_spec k' k) as [->|Hne]; [now exists v'|].
  apply IH.
  destruct (String.eqb_spec k k') as [->|_]; [now elim Hne | exact H].
Qed.

(** *** What [main] computes *)

Lemma get_latest_recipe_run_info_eq (W : world) (f : string) (tr : trace) :
  get_latest_recipe_run_info W f tr
  = (EvOpen f :: tr,
     Ok (match w_file W tr f with
         | Present (Document v) => v
         | _ => PDict []
         end)).
Proof.
  unfold get_latest_recipe_run_info, try_except_any, bind, open_read.
  destruct (w_file W tr f) as [| |[|v]]; reflexivity.
Qed.

Lemma getsize_inv (W : world) (p : pyval) (tr tr' : trace) (n : Z) :
  getsize W p tr = (tr', Ok n) ->
  exists s, p = PStr s /\ s <> "" /\ w_getsize W tr s = Some n /\ tr' = tr.
Proof.
  unfold getsize. intros H.
  destruct p as [| | |s| |]; try (injection H as _ H; discriminate H).
  destruct s as [|c s]; [injection H as _ H; discriminate H|].
  destruct (w_getsize W tr (String c s)) as [m|] eqn:Hs;
    [|injection H as _ H; discriminate H].
  injection H as <- <-.
  exists (String c s). repeat split; auto. discriminate.
Qed.

Lemma env_get_str (env : list (string * string)) (k s : string) :
  env_get env k = PStr s -> lookup k env = Some s.
Proof.
  unfold env_get. destruct (lookup k env); intros H; [now injection H as ->|].
  discriminate H.
Qed.

(** A step of [main] that sets a key of the record when a value is there. *)
Lemma record_step (b : bool) (msg k : string) (v w : pyval)
  (d : list (string * pyval)) (tr : trace) :
  (if b then (output msg v ;; ret (setitem k w d))%eff else ret d) tr
  = ((if b then EvOutput msg v :: tr else tr), Ok (put_if b k w d)).
Proof. now destruct b. Qed.

Lemma lookup_put_if_other (b : bool) (k k' : string) (v : pyval)
  (d : list (string * pyval)) :
  k' <> k -> lookup k' (put_if b k v d) = lookup k' d.
Proof.
  intros Hne. destruct b; cbn [put_if]; [|reflexivity].
  now apply lookup_setitem_other.
Qed.

Lemma store_in_inv (data data' : list (string * pyval)) (key k : string)
  (v : pyval) :
  store_in data key k v = Ok data' ->
  exists e, lookup key data = Some (PDict e)
            /\ data' = setitem key (PDict (setitem k v e)) data.
Proof.
  unfold store_in, store.
  destruct (lookup key data) as [[| | | | |e]|]; try discriminate.
  intros H. injection H as <-. now exists e.
Qed.

Lemma flag_step (b flag : bool) (msg k : string) (v w : pyval)
  (d : list (string * pyval)) (tr : trace) :
  (if b then (output msg v ;; ret (true, setitem k w d))%eff
   else ret (flag, d)) tr
  = ((if b then EvOutput msg v :: tr else tr), Ok (b || flag, put_if b k w d)).
Proof. now destruct b. Qed.

(** *** The walk to the downloads directory *)

Lemma find_downloads_dir_here (fuel : nat) (directory : string) :
  endswith directory "downloads" = true ->
  find_downloads_dir (S fuel) directory = Some directory.
Proof. intros H. cbn [find_downloads_dir]. now rewrite H. Qed.

Lemma find_downloads_dir_up (fuel : nat) (directory : string) :
  endswith directory "downloads" = false ->
  find_downloads_dir (S fuel) directory
  = find_downloads_dir fuel (parent_dir directory).
Proof. intros H. cbn [find_downloads_dir]. now rewrite H. Qed.

(** More fuel does not change what the walk returns. *)
Lemma find_downloads_dir_more_fuel (fuel fuel' : nat) (directory found : string) :
  find_downloads_dir fuel directory = Some found ->
  fuel <= fuel' ->
  find_downloads_dir fuel' directory = Some found.
Proof.
  revert fuel' directory.
  induction fuel as [|fuel IH]; intros fuel' directory H Hle; [discriminate H|].
  destruct fuel' as [|fuel']; [lia|].
  cbn [find_downloads_dir] in *.
  destruct (endswith directory "downloads"); [exact H|].
  apply IH; [exact H | lia].
Qed.

Lemma main_more_fuel (W : world) (env : list (string * string))
  (fuel fuel' : nat) (tr : trace) (r : trace * res (bool * pyval)) :
  main W env fuel tr = Some r ->
  fuel <= fuel' ->
  main W env fuel' tr = Some r.
Proof.
  unfold main. intros H Hle.
  destruct (main_primary W env tr) as [tr1 [l|e]]; [|exact H].
  destruct (find_downloads_dir fuel (l_pathname l)) as [dd|] eqn:Hfind;
    [|discriminate H].
  now rewrite (find_downloads_dir_more_fuel fuel fuel' _ dd Hfind Hle).
Qed.

(** C9, as the code has it: when the pathname, or the path reached after
    some number of steps to the parent, ends with the letters [downloads],
    the walk ends, and it returns the first such path on the way up; the
    test is on the end of the path string. *)
Theorem find_downloads_dir_nearest :
  forall (directory : string) (k : nat),
    endswith (Nat.iter k parent_dir directory) "downloads" = true ->
    exists n,
      n <= k
      /\ endswith (Nat.iter n parent_dir directory) "downloads" = true
      /\ (forall j, j < n ->
                    endswith (Nat.iter j parent_dir directory) "downloads" = false)
      /\ (forall fuel, n < fuel ->
                       find_downloads_dir fuel directory
                       = Some (Nat.iter n parent_dir directory)).
Proof.
  intros directory k. revert directory.
  induction k as [|k IH]; intros directory Hk.
  - exists 0. cbn [Nat.iter] in *. repeat split; auto.
    + intros j Hj. lia.
    + intros [|fuel] Hf; [lia|]. now apply find_downloads_dir_here.
  - destruct (endswith directory "downloads") eqn:Hd.
    + exists 0. cbn [Nat.iter]. repeat split; auto.
      * lia.
      * intros j Hj. lia.
      * intros [|fuel] Hf; [lia|]. now apply find_downloads_dir_here.
    + rewrite Nat.iter_succ_r in Hk.
      destruct (IH (parent_dir directory) Hk) as (n & Hle & Hn & Hmin & Hfuel).
      exists (S n). rewrite Nat.iter_succ_r. repeat split; auto.
      * lia.
      * intros [|j] Hj; [exact Hd|].
        rewrite Nat.iter_succ_r. apply Hmin. lia.
      * intros [|fuel] Hf; [lia|].
        rewrite find_downloads_dir_up by exact Hd.
        apply Hfuel. lia.
Qed.

(** C9 on the download of Foo, one step below its downloads directory. *)
Lemma find_downloads_dir_nearest_witness :
  exists n,
    n <= 1
    /\ endswith (Nat.iter n parent_dir foo_download) "downloads" = true
    /\ (forall j, j < n ->
                  endswith (Nat.iter j parent_dir foo_download) "downloads" = false)
    /\ (forall fuel, n < fuel ->
                     find_downloads_dir fuel foo_download
                     = Some (Nat.iter n parent_dir foo_download)).
Proof.
  apply (find_downloads_dir_nearest foo_download 1).
  vm_compute. reflexivity.
Defined.

Lemma walk_from_tmp (fuel : nat) (directory : string) :
  directory = "/tmp/Foo-1.0.dmg" \/ directory = "/tmp" \/ directory = "/" ->
  find_downloads_dir fuel directory = None.
Proof.
  revert directory. induction fuel as [|fuel IH]; intros directory H;
    [reflexivity|].
  destruct H as [-> | [-> | ->]];
    (rewrite find_downloads_dir_up by (vm_compute; reflexivity));
    apply IH.
  - right. left. vm_compute. reflexivity.
  - right. right. vm_compute. reflexivity.
  - right. right. vm_compute. reflexivity.
Qed.

(** C9 fails as stated: from a pathname outside of any downloads directory
    the walk reaches the root, which is its own parent, and no amount of
    fuel lets it return; and a directory whose name only ends with the
    letters [downloads] is returned as if it were the downloads directory. *)
Lemma find_downloads_dir_not_total_not_literal :
  (forall fuel, find_downloads_dir fuel "/tmp/Foo-1.0.dmg" = None)
  /\ find_downloads_dir 2 "/Users/runner/old-downloads/Foo-1.0.dmg"
     = Some "/Users/runner/old-downloads"
  /\ snd (PosixPath.split "/Users/runner/old-downloads") = "old-downloads".
Proof.
  split; [|split].
  - intros fuel. apply walk_from_tmp. now left.
  - vm_compute. reflexivity.
  - vm_compute. reflexivity.
Qed.


(** *** The primary record *)

(** What the first part of [main] leaves in its local variables. *)
Lemma main_primary_inv (W : world) (env : list (string * string))
  (tr tr1 : trace) (l : locals) :
  main_primary W env tr = (tr1, Ok l) ->
  exists pathname size d0,
    lookup "pathname" env = Some pathname
    /\ pathname <> ""
    /\ w_getsize W tr pathname = Some size
    /\ loaded W env tr = PDict d0
    /\ l_pathname l = pathname
    /\ l_recipe_filename l = recipe_filename_of env
    /\ l_output_file l = output_file_of env
    /\ l_data l = (if existsb (String.eqb (recipe_filename_of env)) (map fst d0)
                   then d0
                   else setitem (recipe_filename_of env) (PDict []) d0)
    /\ l_cache_modified l = primary_modified env size
    /\ l_recipe_metadata_list l = [PDict (primary_record env size)].
Proof.
  unfold main_primary. cbv zeta. intros H.
  apply bind_inv in H as (size & s1 & Hsize & H).
  apply getsize_inv in Hsize as (pathname & Hp & Hne & Hsize & ->).
  apply bind_inv in H as (recipe_name & s2 & Hrn & H).
  apply lift_inv in Hrn as [Hrn ->].
  destruct (env_get env "RECIPE_PATH") as [| | |rn| |] eqn:Hrp;
    try discriminate Hrn.
  injection Hrn as ->.
  assert (recipe_filename_of env = snd (PosixPath.split recipe_name)) as Hrf.
  { unfold recipe_filename_of. now rewrite (env_get_str _ _ _ Hrp). }
  destruct (PosixPath.split recipe_name) as [recipe_path recipe_filename].
  cbn [snd] in Hrf. subst recipe_filename.
  apply bind_inv in H as (ofp & s3 & Hofp & H).
  apply lift_inv in Hofp as [Hofp ->].
  apply bind_inv in H as (ofn & s4 & Hofn & H).
  apply lift_inv in Hofn as [Hofn ->].
  assert (PosixPath.join2 ofp ofn = output_file_of env) as Hout.
  { unfold output_file_of. unfold env_get in Hofp, Hofn.
    destruct (lookup "output_file_name" env) as [n|]; [|discriminate Hofn].
    injection Hofn as ->.
    destruct (lookup "output_file_path" env) as [q|].
    - cbn [truthy] in Hofp. destruct (q =? "")%string; cbn [negb] in Hofp;
        now injection Hofp as ->.
    - cbn [truthy negb] in Hofp. now injection Hofp as ->. }
  rewrite Hout in H.
  apply bind_inv in H as (data & s5 & Hdata & H).
  rewrite get_latest_recipe_run_info_eq in Hdata.
  injection Hdata as <- <-. fold (loaded W env tr) in H.
  apply bind_inv in H as (known & s6 & Hknown & H).
  apply lift_inv in Hknown as [Hknown ->].
  destruct (loaded W env tr) as [| | | | |d0] eqn:Hloaded; try discriminate Hknown.
  cbn [keys] in Hknown. injection Hknown as <-.
  apply bind_inv in H as (data & s7 & Hdata & H).
  apply lift_inv in Hdata as [Hdata ->]. injection Hdata as <-.
  apply bind_inv in H as (fd1 & s8 & H1 & H).
  rewrite record_step in H1. injection H1 as <- <-.
  apply bind_inv in H as (fd2 & s9 & H2 & H).
  rewrite record_step in H2. injection H2 as <- <-.
  apply bind_inv in H as ([m1 fd3] & s10 & H3 & H).
  rewrite flag_step in H3. injection H3 as <- <- <-.
  apply bind_inv in H as ([m2 fd4] & s11 & H4 & H).
  rewrite flag_step in H4. injection H4 as <- <- <-.
  apply bind_inv in H as ([m3 fd5] & s12 & H5 & H).
  rewrite flag_step in H5. injection H5 as <- <- <-.
  apply ret_inv in H as [<- _].
  exists pathname, size, d0.
  cbn [l_pathname l_recipe_filename l_output_file l_data l_cache_modified
       l_recipe_metadata_list].
  rewrite Hp. cbn [str].
  repeat split; auto.
  - now apply env_get_str.
  - unfold primary_modified.
    destruct (truthy (env_get env "etag")), (truthy (env_get env "last_modified")),
      (negb (size =? 0)%Z); reflexivity.
  - unfold primary_record. now rewrite Hp.
Qed.


(** *** Bonus downloads *)

Lemma app_nonempty_r (a b : string) : b <> "" -> a ++ b <> "".
Proof.
  intros Hb. destruct a as [|c a]; cbn [append]; [exact Hb | discriminate].
Qed.

Lemma join2_nonempty (root name : string) :
  name <> "" -> PosixPath.join2 root name <> "".
Proof.
  intros Hn. unfold PosixPath.join2.
  destruct (startswith name "/"); [exact Hn|].
  destruct ((root =? "") || endswith root "/").
  - now apply app_nonempty_r.
  - apply app_nonempty_r. discriminate.
Qed.

Lemma run_command_inv (W : world) (cmd : string) (tr tr' : trace)
  (r : Z * string) :
  _run_command W cmd tr = (tr', Ok r) -> tr' = EvRun cmd :: tr.
Proof. unfold _run_command. intros H. now injection H as <- _. Qed.

Lemma bonus_download_has_pathname (W : world) (known p : string)
  (tr tr' : trace) (recs : list pyval) :
  p <> "" ->
  bonus_download W known p tr = (tr', Ok recs) ->
  Forall has_pathname recs.
Proof.
  intros Hp. unfold bonus_download. intros H.
  apply bind_inv in H as (size & s1 & _ & H).
  destruct ((size >? 500000)%Z && negb (p =? known)).
  2:{ apply ret_inv in H as [<- _]. constructor. }
  apply bind_inv in H as (u & s2 & _ & H).
  apply bind_inv in H as ([c1 add_etag] & s3 & _ & H).
  apply bind_inv in H as ([c2 add_last_mod] & s4 & _ & H).
  apply bind_inv in H as ([c3 additional_dl] & s5 & _ & H).
  apply bind_inv in H as ([c4 additional_dl_type] & s6 & _ & H).
  destruct (negb (add_last_mod =? "") || contains "archive" additional_dl_type
            || contains "compressed" additional_dl_type).
  2:{ apply ret_inv in H as [<- _]. constructor. }
  cbv zeta in H.
  apply bind_inv in H as (d1 & t1 & H1 & H).
  rewrite record_step in H1. injection H1 as <- <-.
  apply bind_inv in H as (d2 & t2 & H2 & H).
  rewrite record_step in H2. injection H2 as <- <-.
  apply bind_inv in H as (d3 & t3 & H3 & H).
  rewrite record_step in H3. injection H3 as <- <-.
  apply bind_inv in H as (d4 & t4 & H4 & H).
  rewrite record_step in H4. injection H4 as <- <-.
  apply bind_inv in H as (d5 & t5 & H5 & H).
  rewrite record_step in H5. injection H5 as <- <-.
  apply ret_inv in H as [<- _].
  constructor; [|constructor].
  eexists _, p. split; [reflexivity|]. split; [|exact Hp].
  rewrite !lookup_put_if_other by discriminate.
  destruct (String.eqb_spec p "") as [->|_]; [now elim Hp|].
  cbn [negb put_if]. apply lookup_setitem_same.
Qed.

Lemma bonus_downloads_in_have_pathname (W : world) (known root : string)
  (files : list string) :
  (forall name, In name files -> name <> "") ->
  forall (tr tr' : trace) (recs : list pyval),
    bonus_downloads_in W known root files tr = (tr', Ok recs) ->
    Forall has_pathname recs.
Proof.
  induction files as [|name files IH]; intros Hnames tr tr' recs H.
  - apply ret_inv in H as [<- _]. constructor.
  - cbn [bonus_downloads_in] in H.
    apply bind_inv in H as (found & s1 & Hfound & H).
    apply bind_inv in H as (more & s2 & Hmore & H).
    apply ret_inv in H as [<- _].
    apply Forall_app. split.
    + eapply bonus_download_has_pathname; [|exact Hfound].
      apply join2_nonempty, Hnames. now left.
    + apply (IH (fun n Hn => Hnames n (or_intror Hn)) s1 s2). exact Hmore.
Qed.

Lemma bonus_downloads_have_pathname (W : world) (known : string)
  (walk : list (string * list string)) :
  (forall root files name, In (root, files) walk -> In name files -> name <> "") ->
  forall (tr tr' : trace) (recs : list pyval),
    bonus_downloads W known walk tr = (tr', Ok recs) ->
    Forall has_pathname recs.
Proof.
  induction walk as [|[root files] walk IH]; intros Hnames tr tr' recs H.
  - apply ret_inv in H as [<- _]. constructor.
  - cbn [bonus_downloads] in H.
    apply bind_inv in H as (found & s1 & Hfound & H).
    apply bind_inv in H as (more & s2 & Hmore & H).
    apply ret_inv in H as [<- _].
    apply Forall_app. split.
    + apply (bonus_downloads_in_have_pathname W known root files
               (fun n Hn => Hnames root files n (or_introl eq_refl) Hn) tr s1).
      exact Hfound.
    + apply (IH (fun r f n Hr Hn => Hnames r f n (or_intror Hr) Hn) s1 s2).
      exact Hmore.
Qed.

Lemma populate_multiple_dls_have_pathname (W : world) (dls_dir known : string)
  (tr tr' : trace) (recs : list pyval) :
  walk_names_nonempty W ->
  populate_multiple_dls W dls_dir known tr = (tr', Ok recs) ->
  Forall has_pathname recs.
Proof.
  intros Hw. unfold populate_multiple_dls. intros H.
  apply bind_inv in H as (walk & s1 & Hwalk & H).
  unfold ask in Hwalk. injection Hwalk as <- <-.
  apply (bonus_downloads_have_pathname W known (w_walk W tr dls_dir)
           (Hw tr dls_dir) tr tr').
  exact H.
Qed.

(** *** The whole of [main] *)

Lemma main_persist_inv (W : world) (l : locals) (downloads_dir : string)
  (tr1 tr' : trace) (m : bool) (v : pyval) (first : pyval) :
  l_recipe_metadata_list l = [first] ->
  main_persist W l downloads_dir tr1 = (tr', Ok (m, v)) ->
  exists bonus e0 t tr2,
    (bonus = []
     \/ exists ta tb,
          populate_multiple_dls W downloads_dir (l_pathname l) ta = (tb, Ok bonus))
    /\ m = l_cache_modified l || negb (is_nil bonus)
    /\ lookup (l_recipe_filename l) (l_data l) = Some (PDict e0)
    /\ v = PDict (setitem (l_recipe_filename l)
                          (PDict (final_entry e0 m (w_now W t) (first :: bonus)))
                          (l_data l))
    /\ tr' = EvOutput "Metadata cache written to" (PStr (l_output_file l))
             :: EvDump (l_output_file l) v :: tr2.
Proof.
  intros Hfirst. unfold main_persist. intros H.
  apply bind_inv in H as (contents & s1 & _ & H).
  apply bind_inv in H as ([cm recs] & s2 & Hscan & H).
  assert (exists bonus,
             (bonus = []
              \/ exists ta tb,
                   populate_multiple_dls W downloads_dir (l_pathname l) ta
                   = (tb, Ok bonus))
             /\ cm = l_cache_modified l || negb (is_nil bonus)
             /\ recs = first :: bonus) as (bonus & Hbonus & -> & ->).
  { destruct (1 <? List.length contents)%nat.
    - apply bind_inv in Hscan as (bonus & s3 & Hpop & Hscan).
      exists bonus. split; [right; now exists s1, s3|].
      destruct bonus as [|b bonus].
      + apply ret_inv in Hscan as [Hscan _]. injection Hscan as <- <-.
        rewrite Hfirst. cbn [is_nil negb]. now rewrite orb_false_r.
      + apply ret_inv in Hscan as [Hscan _]. injection Hscan as <- <-.
        rewrite Hfirst. cbn [is_nil negb app]. now rewrite orb_true_r.
    - apply ret_inv in Hscan as [Hscan _]. injection Hscan as <- <-.
      exists []. rewrite Hfirst. cbn [is_nil negb].
      rewrite orb_false_r. auto. }
  set (m0 := l_cache_modified l || negb (is_nil bonus)) in *.
  apply bind_inv in H as (data1 & s3 & Hstamp & H).
  apply bind_inv in H as (data2 & s4 & Hstore & H).
  apply lift_inv in Hstore as [Hstore ->].
  apply store_in_inv in Hstore as (e1 & He1 & ->).
  apply bind_inv in H as (u & s5 & Hdump & H).
  apply bind_inv in H as (u' & s6 & Hout & H).
  apply ret_inv in H as [H ->]. injection H as <- <-.
  unfold dump in Hdump.
  destruct (w_open_w W s3 (l_output_file l)); [|discriminate Hdump].
  injection Hdump as <- _.
  unfold output, emit in Hout. injection Hout as <- _.
  destruct m0 eqn:Hm0.
  - apply bind_inv in Hstamp as (now & s7 & Hnow & Hstamp).
    unfold ask in Hnow. injection Hnow as <- <-.
    apply lift_inv in Hstamp as [Hstamp ->].
    apply store_in_inv in Hstamp as (e0 & He0 & ->).
    rewrite lookup_setitem_same in He1. injection He1 as <-.
    rewrite setitem_twice.
    exists bonus, e0, s2, s2. repeat split; auto.
  - apply ret_inv in Hstamp as [<- ->].
    exists bonus, e1, s2, s2. repeat split; auto.
Qed.

(** A run of [main] that returns has read the size of the pathname, loaded
    the cache, collected the bonus records, and written the loaded mapping
    back with the entry of the recipe replaced. *)
Lemma main_inv (W : world) (env : list (string * string)) (fuel : nat)
  (tr tr' : trace) (m : bool) (v : pyval) :
  main W env fuel tr = Some (tr', Ok (m, v)) ->
  exists pathname size d0 bonus d' t tr2,
    lookup "pathname" env = Some pathname
    /\ pathname <> ""
    /\ w_getsize W tr pathname = Some size
    /\ loaded W env tr = PDict d0
    /\ (bonus = []
        \/ exists dd ta tb,
             populate_multiple_dls W dd pathname ta = (tb, Ok bonus))
    /\ m = primary_modified env size || negb (is_nil bonus)
    /\ v = PDict d'
    /\ lookup (recipe_filename_of env) d'
       = Some (PDict (final_entry (loaded_entry (recipe_filename_of env) d0) m
                                  (w_now W t)
                                  (PDict (primary_record env size) :: bonus)))
    /\ (forall k, k <> recipe_filename_of env -> lookup k d' = lookup k d0)
    /\ tr' = EvOutput "Metadata cache written to" (PStr (output_file_of env))
             :: EvDump (output_file_of env) v :: tr2.
Proof.
  unfold main. intros H.
  destruct (main_primary W env tr) as [tr1 [l|e]] eqn:Hprimary;
    [|discriminate H].
  destruct (find_downloads_dir fuel (l_pathname l)) as [dd|]; [|discriminate H].
  injection H as H.
  apply main_primary_inv in Hprimary
    as (pathname & size & d0 & Hp & Hne & Hsize & Hload & Hlp & Hrf & Hof & Hdata
        & Hmod & Hlist).
  apply (main_persist_inv W l dd tr1 tr' m v _ Hlist) in H
    as (bonus & e0 & t & tr2 & Hbonus & Hm & He0 & Hv & Htr).
  rewrite Hlp, Hrf, Hof, Hmod in *.
  set (rf := recipe_filename_of env) in *.
  exists pathname, size, d0, bonus.
  exists (setitem rf
            (PDict (final_entry e0 m (w_now W t)
                                (PDict (primary_record env size) :: bonus)))
            (l_data l)).
  exists t, tr2.
  assert (loaded_entry rf d0 = e0) as He.
  { unfold loaded_entry. rewrite Hdata in He0.
    destruct (existsb (String.eqb rf) (map fst d0)) eqn:Hex.
    - now rewrite He0.
    - rewrite lookup_setitem_same in He0. injection He0 as <-.
      now rewrite (existsb_eqb_lookup _ _ Hex). }
  repeat split; auto.
  - destruct Hbonus as [Hb | (ta & tb & Hpop)]; [now left | right].
    now exists dd, ta, tb.
  - rewrite lookup_setitem_same. now rewrite He.
  - intros k Hk. rewrite lookup_setitem_other by exact Hk.
    rewrite Hdata.
    destruct (existsb (String.eqb rf) (map fst d0)); [reflexivity|].
    now apply lookup_setitem_other.
Qed.

Lemma final_entry_records (e0 : list (string * pyval)) (m : bool) (now : string)
  (records : list pyval) :
  lookup "download_metadata" (final_entry e0 m now records) = Some (PList records).
Proof. unfold final_entry. apply lookup_setitem_same. Qed.

Lemma final_entry_timestamp (e0 : list (string * pyval)) (m : bool) (now : string)
  (records : list pyval) :
  lookup "cache_timestamp" (final_entry e0 m now records)
  = if m then Some (PStr now) else lookup "cache_timestamp" e0.
Proof.
  unfold final_entry. rewrite lookup_setitem_other by discriminate.
  destruct m; [apply lookup_setitem_same | reflexivity].
Qed.

(** *** MetadataRecorder *)

(** C7, as the code has it: the entry is marked modified exactly when an
    etag, a last-modified value or a non-zero size on disk was found for
    the primary record, or a bonus record was collected; a url or a
    pathname alone does not count.  A modified entry carries a reading of
    the clock as its timestamp, an unmodified one keeps the timestamp that
    was loaded. *)
Theorem main_stamps_iff_modified :
  forall (W : world) (env : list (string * string)) (fuel : nat)
         (tr tr' : trace) (modified : bool) (v : pyval),
    main W env fuel tr = Some (tr', Ok (modified, v)) ->
    exists pathname size d0 d' entry records,
      lookup "pathname" env = Some pathname
      /\ w_getsize W tr pathname = Some size
      /\ loaded W env tr = PDict d0
      /\ v = PDict d'
      /\ lookup (recipe_filename_of env) d' = Some (PDict entry)
      /\ lookup "download_metadata" entry = Some (PList records)
      /\ modified
         = (truthy (env_get env "etag") || truthy (env_get env "last_modified")
            || negb (size =? 0)%Z || (1 <? List.length records)%nat)
      /\ (modified = true ->
          exists t, lookup "cache_timestamp" entry = Some (PStr (w_now W t)))
      /\ (modified = false ->
          lookup "cache_timestamp" entry
          = lookup "cache_timestamp" (loaded_entry (recipe_filename_of env) d0)).
Proof.
  intros W env fuel tr tr' modified v H.
  apply main_inv in H
    as (pathname & size & d0 & bonus & d' & t & tr2 & Hp & Hne & Hsize & Hload
        & Hbonus & Hm & Hv & Hentry & Hother & Htr).
  exists pathname, size, d0, d'.
  exists (final_entry (loaded_entry (recipe_filename_of env) d0) modified
                      (w_now W t) (PDict (primary_record env size) :: bonus)).
  exists (PDict (primary_record env size) :: bonus).
  repeat split; auto.
  - apply final_entry_records.
  - rewrite Hm. unfold primary_modified. f_equal.
    now destruct bonus.
  - intros ->. exists t. now rewrite final_entry_timestamp.
  - intros ->. now rewrite final_entry_timestamp.
Qed.

Lemma main_bar_bonus :
  main world_bar_bonus env_bar 2 []
  = Some (trace_after_bar, Ok (true, cache_after_bar)).
Proof. vm_compute. reflexivity. Qed.

(** C7 on the sample run of Bar. *)
Lemma main_stamps_iff_modified_witness :
  exists pathname size d0 d' entry records,
    lookup "pathname" env_bar = Some pathname
    /\ w_getsize world_bar_bonus [] pathname = Some size
    /\ loaded world_bar_bonus env_bar [] = PDict d0
    /\ cache_after_bar = PDict d'
    /\ lookup (recipe_filename_of env_bar) d' = Some (PDict entry)
    /\ lookup "download_metadata" entry = Some (PList records)
    /\ true
       = (truthy (env_get env_bar "etag") || truthy (env_get env_bar "last_modified")
          || negb (size =? 0)%Z || (1 <? List.length records)%nat)
    /\ (true = true ->
        exists t, lookup "cache_timestamp" entry
                  = Some (PStr (w_now world_bar_bonus t)))
    /\ (true = false ->
        lookup "cache_timestamp" entry
        = lookup "cache_timestamp" (loaded_entry (recipe_filename_of env_bar) d0)).
Proof.
  exact (main_stamps_iff_modified world_bar_bonus env_bar 2 [] trace_after_bar
           true cache_after_bar main_bar_bonus).
Defined.

(** C7 fails as stated: a url and a pathname were found for the primary
    record, the download is empty and came without etag or last-modified
    value, nothing else is in the downloads directory, and the entry is
    written unmodified and without timestamp. *)
Lemma main_url_and_pathname_do_not_stamp :
  truthy (env_get env_foo_empty "url") = true
  /\ truthy (env_get env_foo_empty "pathname") = true
  /\ option_map snd (main world_foo_empty env_foo_empty 2 [])
     = Some (Ok (false,
                 PDict [("Foo.pkg.recipe",
                         PDict [("download_metadata",
                                 PList [PDict [("url", PStr "https://example.com/Foo-1.0.pkg");
                                               ("pathname", PStr foo_download)]])])])).
Proof. vm_compute. repeat split; reflexivity. Qed.

(** C8: the mapping written back differs from the loaded one at most at the
    key of the current recipe; under every other key, what is written is
    what was loaded, and that mapping is what goes to the cache file. *)
Theorem main_preserves_other_entries :
  forall (W : world) (env : list (string * string)) (fuel : nat)
         (tr tr' : trace) (modified : bool) (v : pyval),
    main W env fuel tr = Some (tr', Ok (modified, v)) ->
    exists d0 d' tr2,
      loaded W env tr = PDict d0
      /\ v = PDict d'
      /\ tr' = EvOutput "Metadata cache written to" (PStr (output_file_of env))
               :: EvDump (output_file_of env) (PDict d') :: tr2
      /\ forall k, k <> recipe_filename_of env -> lookup k d' = lookup k d0.
Proof.
  intros W env fuel tr tr' modified v H.
  apply main_inv in H
    as (pathname & size & d0 & bonus & d' & t & tr2 & Hp & Hne & Hsize & Hload
        & Hbonus & Hm & Hv & Hentry & Hother & Htr).
  exists d0, d', tr2. subst v. auto.
Qed.

(** C8 on the sample run of Bar, whose cache holds an entry for Foo. *)
Lemma main_preserves_other_entries_witness :
  exists d0 d' tr2,
    loaded world_bar_bonus env_bar [] = PDict d0
    /\ cache_after_bar = PDict d'
    /\ trace_after_bar
       = EvOutput "Metadata cache written to" (PStr (output_file_of env_bar))
         :: EvDump (output_file_of env_bar) (PDict d') :: tr2
    /\ forall k, k <> recipe_filename_of env_bar -> lookup k d' = lookup k d0.
Proof.
  exact (main_preserves_other_entries world_bar_bonus env_bar 2 []
           trace_after_bar true cache_after_bar main_bar_bonus).
Defined.

Lemma primary_record_pathname (env : list (string * string)) (size : Z)
  (pathname : string) :
  lookup "pathname" env = Some pathname -> pathname <> "" ->
  lookup "pathname" (primary_record env size) = Some (PStr pathname).
Proof.
  intros Hp Hne. unfold primary_record.
  rewrite !lookup_put_if_other by discriminate.
  unfold env_get at 1 2. rewrite Hp. cbn [truthy].
  destruct (String.eqb_spec pathname "") as [->|_]; [now elim Hne|].
  cbn [negb put_if]. apply lookup_setitem_same.
Qed.

(** Without a pathname the size probe raises and nothing is written. *)
Lemma main_without_pathname (W : world) (env : list (string * string))
  (fuel : nat) (tr : trace) :
  lookup "pathname" env = None \/ lookup "pathname" env = Some "" ->
  exists e, main W env fuel tr = Some (tr, Raise e).
Proof.
  intros H.
  assert (exists e, getsize W (env_get env "pathname") tr = (tr, Raise e))
    as [e Hsize].
  { unfold getsize, env_get. destruct H as [-> | ->]; eexists; reflexivity. }
  exists e. unfold main, main_primary. cbv zeta.
  unfold bind at 1. now rewrite Hsize.
Qed.

(** C10: every record of the [download_metadata] that [main] writes for the
    recipe names a file: the first one holds the pathname of the run, which
    is not empty since its size was read, and each bonus record holds the
    path of the file that was scanned.  A run without pathname, or with an
    empty one, ends at the size probe, before anything is written. *)
Theorem main_records_have_pathname :
  forall (W : world) (env : list (string * string)) (fuel : nat) (tr : trace),
    (forall (tr' : trace) (modified : bool) (v : pyval),
        walk_names_nonempty W ->
        main W env fuel tr = Some (tr', Ok (modified, v)) ->
        exists d' entry primary bonus pathname,
          v = PDict d'
          /\ lookup (recipe_filename_of env) d' = Some (PDict entry)
          /\ lookup "download_metadata" entry
             = Some (PList (PDict primary :: bonus))
          /\ lookup "pathname" env = Some pathname
          /\ pathname <> ""
          /\ lookup "pathname" primary = Some (PStr pathname)
          /\ Forall has_pathname (PDict primary :: bonus))
    /\ (lookup "pathname" env = None \/ lookup "pathname" env = Some "" ->
        exists e, main W env fuel tr = Some (tr, Raise e)).
Proof.
  intros W env fuel tr. split; [|apply main_without_pathname].
  intros tr' modified v Hwalk H.
  apply main_inv in H
    as (pathname & size & d0 & bonus & d' & t & tr2 & Hp & Hne & Hsize & Hload
        & Hbonus & Hm & Hv & Hentry & Hother & Htr).
  exists d'.
  exists (final_entry (loaded_entry (recipe_filename_of env) d0) modified
                      (w_now W t) (PDict (primary_record env size) :: bonus)).
  exists (primary_record env size), bonus, pathname.
  pose proof (primary_record_pathname env size pathname Hp Hne) as Hprimary.
  repeat split; auto.
  - apply final_entry_records.
  - constructor.
    + now exists (primary_record env size), pathname.
    + destruct Hbonus as [-> | (dd & ta & tb & Hpop)]; [constructor|].
      now apply (populate_multiple_dls_have_pathname W dd pathname ta tb).
Qed.

Lemma walk_names_nonempty_bar : walk_names_nonempty world_bar_bonus.
Proof.
  intros tr top root files name Hin Hname.
  cbn in Hin.
  destruct (top =? bar_downloads)%string; [|contradiction].
  destruct Hin as [Hin|[]]. injection Hin as <- <-.
  destruct Hname as [<-|[<-|[]]]; discriminate.
Qed.

(** C10 on the sample run of Bar, with its bonus record. *)
Lemma main_records_have_pathname_witness :
  exists d' entry primary bonus pathname,
    cache_after_bar = PDict d'
    /\ lookup (recipe_filename_of env_bar) d' = Some (PDict entry)
    /\ lookup "download_metadata" entry = Some (PList (PDict primary :: bonus))
    /\ lookup "pathname" env_bar = Some pathname
    /\ pathname <> ""
    /\ lookup "pathname" primary = Some (PStr pathname)
    /\ Forall has_pathname (PDict primary :: bonus).
Proof.
  exact (proj1 (main_records_have_pathname world_bar_bonus env_bar 2 [])
               trace_after_bar true cache_after_bar walk_names_nonempty_bar
               main_bar_bonus).
Defined.

End ProcessorFacts.

(* ------------------------------------------------------------------ *)
(** ** Further properties of the report parser and the receipt scanner *)

Module ParserFacts.
Import Py Eff AutopkgTools Samples Views EffFacts.
Local Open Scope eff_scope.

(** X1: a report without summary results, or with an empty one, yields no
    built and no downloaded item; its failures are passed on as they are,
    and nothing but the report is read. *)
Theorem parse_report_without_summary :
  forall (W : world) (report : string) (tr : trace)
         (data : list (string * pyval)),
    w_file W tr report = Present (Document (PDict data)) ->
    (forall v, lookup "summary_results" data = Some v -> truthy v = false) ->
    _parse_report W report tr
    = (EvOpen report :: tr,
       Ok (PDict [("built", PList []);
                  ("downloaded", PList []);
                  ("failed", match lookup "failures" data with
                             | Some failures => failures
                             | None => PList []
                             end)])).
Proof.
  intros W report tr data Hfile Hsum.
  unfold _parse_report, _plist_pal, open_read, bind at 1 2.
  rewrite Hfile. cbn [plistlib_load lift].
  unfold bind at 1. cbn [get_default lift].
  unfold bind at 1. cbn [get lift].
  destruct (lookup "summary_results" data) as [v|] eqn:Hv.
  - rewrite (Hsum v eq_refl). reflexivity.
  - reflexivity.
Qed.

(** X1 on the report of a run that found no release. *)
Lemma parse_report_without_summary_witness :
  _parse_report world_no_releases REPORT_PLIST_PATH []
  = (EvOpen REPORT_PLIST_PATH :: [],
     Ok (PDict [("built", PList []);
                ("downloaded", PList []);
                ("failed", match report_no_releases with
                           | PDict data =>
                               match lookup "failures" data with
                               | Some failures => failures
                               | None => PList []
                               end
                           | _ => PNone
                           end)])).
Proof.
  refine (parse_report_without_summary world_no_releases REPORT_PLIST_PATH []
            _ eq_refl _).
  intros v H. vm_compute in H. discriminate H.
Defined.

Lemma fringe_paths_without_pkg (rows : list pyval) :
  Forall (fun x => exists k p rest,
                     x = PDict ((k, PStr p) :: rest) /\ fnmatch_pkg p = false)
         rows ->
  fringe_paths rows = Ok [].
Proof.
  induction 1 as [|x rows (k & p & rest & -> & Hp) _ IH]; [reflexivity|].
  cbn [fringe_paths values map snd]. now rewrite IH, Hp.
Qed.

(** X2: without a package summary, a download is promoted to a build only
    when the path of a download row names a package: when no row does, the
    built list stays empty and the receipts are never looked at. *)
Theorem parse_report_download_without_pkg_name :
  forall (W : world) (report : string) (tr : trace)
         (data summary dl : list (string * pyval)) (rows : list pyval),
    w_file W tr report = Present (Document (PDict data)) ->
    lookup "summary_results" data = Some (PDict summary) ->
    filter fnmatch_pkg (map fst summary) = [] ->
    lookup "" summary = None ->
    lookup "url_downloader_summary_result" summary = Some (PDict dl) ->
    lookup "data_rows" dl = Some (PList rows) ->
    Forall (fun x => exists k p rest,
                       x = PDict ((k, PStr p) :: rest) /\ fnmatch_pkg p = false)
           rows ->
    _parse_report W report tr
    = (EvOpen report :: tr,
       Ok (PDict [("built", PList []);
                  ("downloaded", PList rows);
                  ("failed", match lookup "failures" data with
                             | Some failures => failures
                             | None => PList []
                             end)])).
Proof.
  intros W report tr data summary dl rows Hfile Hsum Hkeys Hempty Hdl Hrows Hno.
  assert (summary <> []) as Hs by (intros ->; discriminate Hdl).
  assert (dl <> []) as Hd by (intros ->; discriminate Hrows).
  unfold _parse_report, _plist_pal, open_read, bind at 1 2.
  rewrite Hfile. cbn [plistlib_load lift].
  unfold bind at 1. cbn [get_default lift].
  unfold bind at 1. cbn [get lift]. rewrite Hsum.
  assert (truthy (PDict summary) = true) as ->
      by (destruct summary; [contradiction | reflexivity]).
  cbn [keys]. unfold bind at 2. cbn [lift]. rewrite Hkeys.
  cbn [join String.concat].
  unfold bind at 2. cbn [get_default lift]. rewrite Hempty.
  unfold bind at 2. cbn [lift get_default lookup].
  unfold bind at 2. cbn [lift iter].
  unfold bind at 2. cbn [lift]. rewrite Hdl.
  unfold bind at 2. cbn [lift get_default]. rewrite Hrows.
  unfold bind at 2. cbn [lift iter].
  assert (truthy (PDict dl) = true) as ->
      by (destruct dl; [contradiction | reflexivity]).
  cbn [truthy negb andb].
  unfold bind at 2. cbn [lift get]. rewrite Hrows.
  unfold bind at 2. cbn [lift iter].
  unfold bind at 2. rewrite (fringe_paths_without_pkg rows Hno). cbn [lift].
  cbn [join String.concat String.eqb negb].
  reflexivity.
Qed.

(** X2 on a run that downloaded a disk image into a cache directory whose
    name does not mention a package. *)
Lemma parse_report_download_without_pkg_name_witness :
  _parse_report (world_download_only baz_download) REPORT_PLIST_PATH []
  = (EvOpen REPORT_PLIST_PATH :: [],
     Ok (PDict [("built", PList []);
                ("downloaded", PList [PDict [("download_path", PStr baz_download)]]);
                ("failed", PList [])])).
Proof.
  refine (parse_report_download_without_pkg_name
            (world_download_only baz_download) REPORT_PLIST_PATH [] _ _ _ _
            eq_refl eq_refl eq_refl eq_refl eq_refl eq_refl _).
  repeat constructor.
  exists "download_path", baz_download, []. split; reflexivity.
Defined.

(** X3: without a package summary, one download row whose path holds the
    letters [pkg], anywhere in it, is promoted: when the cache root of the
    download has no receipts directory, the built list is the download path
    alone, without version. *)
Theorem parse_report_promotes_pkg_download :
  forall (W : world) (report : string) (tr : trace)
         (data summary dl row : list (string * pyval)) (k path : string)
         (mtime : Z),
    w_file W tr report = Present (Document (PDict data)) ->
    lookup "summary_results" data = Some (PDict summary) ->
    filter fnmatch_pkg (map fst summary) = [] ->
    lookup "" summary = None ->
    lookup "url_downloader_summary_result" summary = Some (PDict dl) ->
    lookup "data_rows" dl = Some (PList [PDict ((k, PStr path) :: row)]) ->
    fnmatch_pkg path = true ->
    w_getmtime W (EvOpen report :: tr) path = Some mtime ->
    2 <= List.length (PosixPath.pp_parts (PosixPath.Path path)) ->
    w_exists W (EvLog DEBUG "Trying to get receipt data from provided DL"
                      [PStr path] :: EvOpen report :: tr)
             (PosixPath.join2
                (PosixPath.path_str
                   (PosixPath.parent (PosixPath.parent (PosixPath.Path path))))
                "receipts") = false ->
    _parse_report W report tr
    = (EvLog DEBUG "Trying to get receipt data from provided DL" [PStr path]
       :: EvOpen report :: tr,
       Ok (PDict [("built", PList [PDict [("pkg_path", PStr path)]]);
                  ("downloaded", PList [PDict ((k, PStr path) :: row)]);
                  ("failed", match lookup "failures" data with
                             | Some failures => failures
                             | None => PList []
                             end)])).
Proof.
  intros W report tr data summary dl row k path mtime
         Hfile Hsum Hkeys Hempty Hdl Hrows Hpkg Hmtime Hparts Hreceipts.
  assert (summary <> []) as Hs by (intros ->; discriminate Hdl).
  assert (dl <> []) as Hd by (intros ->; discriminate Hrows).
  assert (path <> "") as Hpath by (intros ->; discriminate Hpkg).
  unfold _parse_report, _plist_pal, open_read, bind at 1 2.
  rewrite Hfile. cbn [plistlib_load lift].
  unfold bind at 1. cbn [get_default lift].
  unfold bind at 1. cbn [get lift]. rewrite Hsum.
  assert (truthy (PDict summary) = true) as ->
      by (destruct summary; [contradiction | reflexivity]).
  unfold bind at 1.
  cbn [keys]. unfold bind at 1. cbn [lift]. rewrite Hkeys.
  cbn [join String.concat].
  unfold bind at 1. cbn [get_default lift]. rewrite Hempty.
  unfold bind at 1. cbn [lift get_default lookup].
  unfold bind at 1. cbn [lift iter].
  unfold bind at 1. cbn [lift]. rewrite Hdl.
  unfold bind at 1. cbn [lift get_default]. rewrite Hrows.
  unfold bind at 1. cbn [lift iter].
  assert (truthy (PDict dl) = true) as ->
      by (destruct dl; [contradiction | reflexivity]).
  cbn [truthy negb andb].
  unfold bind at 1. cbn [lift get]. rewrite Hrows.
  unfold bind at 1. cbn [lift iter].
  unfold bind at 1. cbn [fringe_paths values map snd lift]. rewrite Hpkg.
  cbn [join String.concat].
  destruct (String.eqb_spec path "") as [->|_]; [now elim Hpath|].
  cbn [negb].
  unfold bind at 1.
  unfold _get_pkg_version_from_receipt.
  unfold bind at 1, getmtime. rewrite Hmtime.
  unfold bind at 1, PosixPath.parents_1.
  apply Nat.leb_le in Hparts. rewrite Hparts. cbn [lift].
  unfold bind at 1, log, emit.
  unfold bind at 1, ask. rewrite Hreceipts.
  reflexivity.
Qed.

(** X3 on a disk image downloaded by a recipe whose identifier holds the
    letters [pkg]: the image is reported as a build. *)
Lemma parse_report_promotes_pkg_download_witness :
  fnmatch_pkg (cache_dir ++ "/downloads/Foo-1.0.dmg") = true
  /\ _parse_report (world_download_only (cache_dir ++ "/downloads/Foo-1.0.dmg"))
                   REPORT_PLIST_PATH []
     = ([EvLog DEBUG "Trying to get receipt data from provided DL"
               [PStr (cache_dir ++ "/downloads/Foo-1.0.dmg")];
         EvOpen REPORT_PLIST_PATH],
        Ok (PDict [("built",
                    PList [PDict [("pkg_path",
                                   PStr (cache_dir ++ "/downloads/Foo-1.0.dmg"))]]);
                   ("downloaded",
                    PList [PDict [("download_path",
                                   PStr (cache_dir ++ "/downloads/Foo-1.0.dmg"))]]);
                   ("failed", PList [])])).
Proof.
  split; [reflexivity|].
  refine (parse_report_promotes_pkg_download
            (world_download_only (cache_dir ++ "/downloads/Foo-1.0.dmg"))
            REPORT_PLIST_PATH [] _ _ _ [] "download_path" _ 1686130200%Z
            eq_refl eq_refl eq_refl eq_refl eq_refl eq_refl eq_refl eq_refl _
            eq_refl).
  vm_compute. lia.
Defined.

(** *** ReceiptScanner *)

(** X4: a receipt that is not strictly newer than the download is never
    opened: over receipts that are all as old as the download or older, the
    scan returns what it started with and leaves no trace. *)
Theorem scan_receipts_ignores_older :
  forall (W : world) (dl_mod_time : Z) (receipts : list string)
         (acc : pyval * pyval) (tr : trace),
    (forall r, In r receipts ->
               exists t, w_getmtime W tr r = Some t /\ (t <= dl_mod_time)%Z) ->
    scan_receipts W dl_mod_time receipts acc tr = (tr, Ok acc).
Proof.
  intros W dl_mod_time receipts acc tr.
  induction receipts as [|receipt rest IH]; intros Hold; [reflexivity|].
  destruct (Hold receipt (or_introl eq_refl)) as (t & Ht & Hle).
  cbn [scan_receipts]. unfold bind at 1, getmtime. rewrite Ht.
  destruct (Z.gtb_spec t dl_mod_time) as [Hgt|_]; [lia|].
  apply IH. intros r Hr. apply Hold. now right.
Qed.

(** X4 on the receipt that was written before the download. *)
Lemma scan_receipts_ignores_older_witness :
  scan_receipts world_receipts 1686130200%Z [old_receipt] (PNone, PNone) []
  = ([], Ok (PNone, PNone)).
Proof.
  apply (scan_receipts_ignores_older world_receipts 1686130200%Z [old_receipt]
           (PNone, PNone) []).
  intros r [<-|[]]. exists 1685600000%Z. split; [reflexivity | lia].
Defined.

(** X5: a newer receipt that names no version is passed over as a whole:
    the package path it may hold is not taken, and the scan goes on with the
    values it had. *)
Theorem scan_receipts_skips_receipt_without_version :
  forall (W : world) (dl_mod_time t : Z) (receipt : string)
         (rest : list string) (acc : pyval * pyval) (tr : trace)
         (receipt_plist : pyval) (plists : list pyval),
    w_getmtime W tr receipt = Some t ->
    (dl_mod_time < t)%Z ->
    w_file W (EvLog DEBUG "Found new receipt" [PStr receipt] :: tr) receipt
    = Present (Document receipt_plist) ->
    iter receipt_plist = Ok plists ->
    receipt_values "version" plists = Ok [] ->
    scan_receipts W dl_mod_time (receipt :: rest) acc tr
    = scan_receipts W dl_mod_time rest acc
        (EvLog DEBUG "Read in plist with contents" [receipt_plist]
         :: EvOpen receipt
         :: EvLog DEBUG "Found new receipt" [PStr receipt] :: tr).
Proof.
  intros W dl_mod_time t receipt rest acc tr receipt_plist plists
         Ht Hnew Hfile Hiter Hversions.
  cbn [scan_receipts]. unfold bind at 1, getmtime. rewrite Ht.
  destruct (Z.gtb_spec t dl_mod_time) as [_|Hle]; [|lia].
  unfold bind at 1, log, emit.
  unfold bind at 1, _plist_pal, bind at 1, open_read. rewrite Hfile.
  cbn [plistlib_load lift].
  unfold bind at 1, emit.
  unfold bind at 1. cbn [lift]. rewrite Hiter.
  unfold bind at 1. cbn [lift]. rewrite Hversions.
  reflexivity.
Qed.

(** X5 on the receipt of the package copier, which holds a package path. *)
Lemma scan_receipts_skips_receipt_without_version_witness :
  receipt_values "pkg_path"
                 [PDict [("Processor", PStr "URLDownloader");
                         ("Output", PDict [("pathname", PStr foo_download)])];
                  PDict [("Processor", PStr "PkgCopier");
                         ("Output", PDict [("pkg_path", PStr (cache_dir ++ "/Foo.pkg"))])]]
  = Ok [PStr (cache_dir ++ "/Foo.pkg")]
  /\ snd (scan_receipts world_receipts 1686130200%Z [new_receipt] (PNone, PNone) [])
     = Ok (PNone, PNone).
Proof.
  split; [reflexivity|].
  rewrite (scan_receipts_skips_receipt_without_version
             world_receipts 1686130200%Z 1686130300%Z new_receipt []
             (PNone, PNone) [] receipt_without_version _
             eq_refl ltac:(lia) eq_refl eq_refl eq_refl).
  reflexivity.
Defined.




End ParserFacts.

(* ------------------------------------------------------------------ *)
(** ** Further properties of the recipe runner and the notification *)

Module RunnerFacts.
Import Py Eff AutopkgTools Samples Views EffFacts.
Local Open Scope eff_scope.

Lemma run_ok_reaches_parser (W : world) (C : config) (r : Recipe)
  (tr0 : trace) (p out : string) :
  path r = Some p ->
  w_run W (EvLog DEBUG "Running" [PStr (autopkg_cmd C p)] :: tr0) (autopkg_cmd C p)
  = (0%Z, out) ->
  run_after_touch W C (r, tr0)
  = (parsed <- liftT (_parse_report W REPORT_PLIST_PATH) ;;
     self_set (set_results parsed) ;;
     built <- lift (get parsed "built") ;;
     when (truthy built) (self_set (set_success true)) ;;
     ret parsed)%eff
      (set_has_run true r,
       EvRun (autopkg_cmd C p)
       :: EvLog DEBUG "Running" [PStr (autopkg_cmd C p)] :: tr0).
Proof.
  intros Hpath Hrun.
  unfold run_after_touch.
  unfold bind at 1.
  unfold try_except, bind at 1, attr_path. cbn [fst snd]. rewrite Hpath.
  unfold bind at 1, liftT at 1, log, emit. cbn [fst snd].
  unfold bind at 1, liftT at 1, _run_command. cbn [fst snd].
  rewrite Hrun. cbn [Z.eqb].
  unfold ret at 1.
  unfold bind at 1, self_set at 1. cbn [fst snd].
  reflexivity.
Qed.

(** X7: when the tool exits with code 0, the error flag is left as it was,
    the report is parsed, and the recipe is marked as a success exactly when
    the parsed built list is not empty; a report that cannot be parsed lets
    its error through. *)
Theorem run_after_successful_invocation :
  forall (W : world) (C : config) (r : Recipe) (tr : trace) (p out : string),
    path r = Some p ->
    let tr0 := if w_isfile W tr REPORT_PLIST_PATH then tr
               else EvTouch REPORT_PLIST_PATH :: tr in
    (w_isfile W tr REPORT_PLIST_PATH = false ->
     w_touch W tr REPORT_PLIST_PATH = true) ->
    let cmd := autopkg_cmd C p in
    w_run W (EvLog DEBUG "Running" [PStr cmd] :: tr0) cmd = (0%Z, out) ->
    let tr1 := EvRun cmd :: EvLog DEBUG "Running" [PStr cmd] :: tr0 in
    let ran := set_has_run true r in
    match _parse_report W REPORT_PLIST_PATH tr1 with
    | (tr2, Raise e) => run W C (r, tr) = ((ran, tr2), Raise e)
    | (tr2, Ok parsed) =>
        exists built,
          get parsed "built" = Ok (PList built)
          /\ run W C (r, tr)
             = (((if truthy (PList built)
                  then set_success true (set_results parsed ran)
                  else set_results parsed ran), tr2), Ok parsed)
    end.
Proof.
  intros W C r tr p out Hpath tr0 Htouch cmd Hrun tr1 ran.
  rewrite (ToolsFacts.run_touches_report W C r tr Htouch). fold tr0.
  rewrite (run_ok_reaches_parser W C r tr0 p out Hpath Hrun).
  fold cmd tr1 ran.
  destruct (_parse_report W REPORT_PLIST_PATH tr1) as [tr2 [parsed|e]] eqn:Hparse.
  2:{ unfold bind at 1, liftT at 1. cbn [fst snd]. now rewrite Hparse. }
  destruct (ToolsFacts.parse_report_shape _ _ _ _ _ Hparse)
    as (built & dl & fl & ->).
  exists built. split; [reflexivity|].
  unfold bind at 1, liftT at 1. cbn [fst snd]. rewrite Hparse.
  unfold bind at 1, self_set at 1. cbn [fst snd].
  unfold bind at 1. cbn [lift get lookup String.eqb Ascii.eqb Bool.eqb].
  unfold bind, when, self_set, ret. cbn [fst snd].
  now destruct built.
Qed.

(** X7 on the run of Bar, which exits with code 0 and reports a package. *)
Lemma run_after_successful_invocation_witness :
  match _parse_report world_failed_with_build REPORT_PLIST_PATH
          [EvRun (autopkg_cmd config0 (recipe_file "Bar.pkg.recipe"));
           EvLog DEBUG "Running"
                 [PStr (autopkg_cmd config0 (recipe_file "Bar.pkg.recipe"))];
           EvTouch REPORT_PLIST_PATH] with
  | (tr2, Raise e) =>
      run world_failed_with_build config0 (bar_recipe, [])
      = ((set_has_run true bar_recipe, tr2), Raise e)
  | (tr2, Ok parsed) =>
      exists built,
        get parsed "built" = Ok (PList built)
        /\ run world_failed_with_build config0 (bar_recipe, [])
           = (((if truthy (PList built)
                then set_success true
                       (set_results parsed (set_has_run true bar_recipe))
                else set_results parsed (set_has_run true bar_recipe)), tr2),
              Ok parsed)
  end.
Proof.
  exact (run_after_successful_invocation world_failed_with_build config0
           bar_recipe [] (recipe_file "Bar.pkg.recipe") ""
           eq_refl (fun _ => eq_refl) eq_refl).
Defined.

(** X8: on a recipe whose file was not found, [run] ends with an
    [AttributeError] at the point where the command is built: the tool is
    not invoked, the report is not read, and the object is left as it
    was. *)
Theorem run_of_unlocated_recipe :
  forall (W : world) (C : config) (r : Recipe) (tr : trace),
    path r = None ->
    (w_isfile W tr REPORT_PLIST_PATH = false ->
     w_touch W tr REPORT_PLIST_PATH = true) ->
    run W C (r, tr)
    = ((r, if w_isfile W tr REPORT_PLIST_PATH then tr
           else EvTouch REPORT_PLIST_PATH :: tr),
       Raise AttributeError).
Proof.
  intros W C r tr Hpath Htouch.
  rewrite (ToolsFacts.run_touches_report W C r tr Htouch).
  unfold run_after_touch.
  unfold bind at 1.
  unfold try_except, bind at 1, attr_path. cbn [fst snd]. rewrite Hpath.
  reflexivity.
Qed.

Lemma run_of_unlocated_recipe_witness :
  run still_world config0 (lost_recipe, [])
  = ((lost_recipe, [EvTouch REPORT_PLIST_PATH]), Raise AttributeError).
Proof.
  exact (run_of_unlocated_recipe still_world config0 lost_recipe []
           eq_refl (fun _ => eq_refl)).
Defined.

(** X9: a recipe that the search path does not hold is logged, reported
    to the webhook as not located, and passed over: the tool is not invoked
    for it and the loop goes on with the next identifier. *)
Theorem main_loop_passes_over_missing_recipe :
  forall (W : world) (C : config) (identifier : string) (rest : list string)
         (tr : trace) (hook : string),
    w_glob W tr (str (RECIPES_DIR C) ++ "/**/" ++ identifier) = [] ->
    args_debug C = false ->
    SLACK_WEBHOOK C = Some hook ->
    hook <> "" ->
    let tr1 : trace := EvLog INFO "Running" [PStr identifier]
                       :: EvLog ERROR "Could not locate" [PStr identifier] :: tr in
    let tr2 : trace := if w_isfile W tr1 REPORT_PLIST_PATH then tr1
                       else EvTouch REPORT_PLIST_PATH :: tr1 in
    (w_isfile W tr1 REPORT_PLIST_PATH = false ->
     w_touch W tr1 REPORT_PLIST_PATH = true) ->
    let tr3 : trace := EvLogExn ERROR "Skipping run! Recipe was not found."
                                AttributeError [PStr identifier] :: tr2 in
    w_post W tr3 hook = 200%Z ->
    main_loop W C (identifier :: rest) tr
    = main_loop W C rest
        (EvPost hook "ERROR: Unable to locate specified recipe!"
                ("Skipping run of " ++ identifier
                 ++ "; recipe doesn't exist or name is malformed.")
                "danger" :: tr3).
Proof.
  intros W C identifier rest tr hook Hglob Hdebug Hhook Hne tr1 tr2 Htouch tr3
         Hpost.
  unfold main_loop at 1. cbn [for_each]. fold (main_loop W C rest).
  unfold bind at 1. unfold bind at 1, Recipe_init. rewrite Hglob.
  unfold bind at 1, log, emit. cbn [recipe_name].
  fold tr1.
  unfold with_recipe, try_except.
  unfold bind at 1, handle_recipe. unfold bind at 1.
  rewrite (run_of_unlocated_recipe W C
             (mkRecipe identifier None false true (PDict []) PNone false)
             tr1 eq_refl Htouch).
  fold tr2.
  cbn [isinstance exn_eqb orb].
  unfold bind at 1, self_get. cbn [fst recipe_name].
  unfold bind at 1, liftT at 1, log_exn, emit. cbn [fst snd]. fold tr3.
  unfold slack_alert. rewrite Hdebug, Hhook.
  unfold bind at 1, _eval_recipe_results.
  unfold bind at 1, self_get at 1. cbn [fst error].
  unfold try_except, bind at 1, name, bind at 1, plist, bind at 1, attr at 1.
  cbn [fst path isinstance exn_eqb orb].
  unfold bind at 1, self_get at 1, ret at 1. cbn [fst recipe_name].
  cbn [truthy].
  assert (negb (hook =? "") = true) as ->.
  { destruct (String.eqb_spec hook ""); [contradiction | reflexivity]. }
  cbn [append String.eqb negb andb].
  unfold bind at 1, self_get at 1. cbn [fst error].
  unfold bind at 1, liftT at 1, post. cbn [fst snd str].
  cbv beta. cbn [fst snd error].
  rewrite Hpost. cbn [Z.eqb Pos.eqb negb].
  reflexivity.
Qed.

(** X9 on an identifier that the search path does not hold. *)
Lemma main_loop_passes_over_missing_recipe_witness :
  main_loop still_world config_slack ["Qux.pkg.recipe"; "Bar.pkg.recipe"] []
  = main_loop still_world config_slack ["Bar.pkg.recipe"]
      [EvPost "https://hooks.slack.example/services/T0/B0/x"
              "ERROR: Unable to locate specified recipe!"
              "Skipping run of Qux.pkg.recipe; recipe doesn't exist or name is malformed."
              "danger";
       EvLogExn ERROR "Skipping run! Recipe was not found." AttributeError
                [PStr "Qux.pkg.recipe"];
       EvTouch REPORT_PLIST_PATH;
       EvLog INFO "Running" [PStr "Qux.pkg.recipe"];
       EvLog ERROR "Could not locate" [PStr "Qux.pkg.recipe"]].
Proof.
  refine (main_loop_passes_over_missing_recipe still_world config_slack
            "Qux.pkg.recipe" ["Bar.pkg.recipe"] [] _
            eq_refl eq_refl eq_refl _ (fun _ => eq_refl) eq_refl).
  discriminate.
Defined.

(** X10: after a failed run whose report lists no failure, the
    notification names the recipe in its title and says [Unknown error];
    the recipe file is read for the name and kept. *)
Theorem eval_failed_run_without_failures :
  forall (W : world) (r : Recipe) (tr : trace) (p : string)
         (keys input n failed : pyval),
    error r = true ->
    path r = Some p ->
    _keys r = PNone ->
    w_file W tr p = Present (Document keys) ->
    get keys "Input" = Ok input ->
    get input "NAME" = Ok n ->
    getitem (results r) "failed" = Ok failed ->
    truthy failed = false ->
    _eval_recipe_results W (r, tr)
    = ((set_keys keys r, EvOpen p :: tr),
       Ok (Some (PStr ("Failed to run " ++ str n), PStr "Unknown error"))).
Proof.
  intros W r tr p keys input n failed Herr Hpath Hkeys Hfile Hinput Hname
         Hfailed Hempty.
  unfold _eval_recipe_results.
  unfold bind at 1, self_get at 1. cbn [fst]. rewrite Herr.
  unfold try_except.
  unfold bind at 1, name, bind at 1, plist, bind at 1, attr at 1.
  cbn [fst]. rewrite Hpath, Hkeys.
  unfold bind at 1, attr_path. cbn [fst]. rewrite Hpath.
  unfold bind at 1, liftT at 1, _plist_pal, bind at 1, open_read.
  cbn [fst snd]. rewrite Hfile. cbn [plistlib_load lift].
  unfold bind at 1, self_set at 1, ret at 1. cbn [fst snd].
  unfold bind at 1. cbn [lift]. rewrite Hinput. cbn [lift]. rewrite Hname.
  unfold bind at 1, attr at 1. cbn [fst set_keys path results].
  rewrite Hpath.
  unfold bind at 1. cbn [lift]. rewrite Hfailed. rewrite Hempty.
  reflexivity.
Qed.

(** X10 on the recipe Foo after a failed run with an empty failures list. *)
Lemma eval_failed_run_without_failures_witness :
  _eval_recipe_results world_no_releases
    (set_results (PDict [("built", PList []); ("downloaded", PList []);
                         ("failed", PList [])])
                 (set_error true foo_recipe), [])
  = ((set_keys (recipe_plist "Foo")
               (set_results (PDict [("built", PList []); ("downloaded", PList []);
                                    ("failed", PList [])])
                            (set_error true foo_recipe)),
      [EvOpen (recipe_file "Foo.pkg.recipe")]),
     Ok (Some (PStr "Failed to run Foo", PStr "Unknown error"))).
Proof.
  exact (eval_failed_run_without_failures world_no_releases
            (set_results (PDict [("built", PList []); ("downloaded", PList []);
                                 ("failed", PList [])])
                         (set_error true foo_recipe))
            [] (recipe_file "Foo.pkg.recipe") (recipe_plist "Foo")
            (PDict [("NAME", PStr "Foo")]) (PStr "Foo")
            (PList []) eq_refl eq_refl eq_refl eq_refl eq_refl eq_refl
            eq_refl eq_refl).
Defined.

Lemma upto_last_digit_inv (s m : string) :
  upto_last_digit s = Some m ->
  exists body d rest,
    m = body ++ String d ""
    /\ s = body ++ String d rest
    /\ is_digit d = true.
Proof.
  revert m. induction s as [|c s IH]; intros m H; [discriminate H|].
  cbn [upto_last_digit] in H.
  destruct (is_newline c); [discriminate H|].
  destruct (upto_last_digit s) as [m'|] eqn:Hs.
  - injection H as <-.
    destruct (IH m' eq_refl) as (body & d & rest & -> & -> & Hd).
    now exists (String c body), d, rest.
  - destruct (is_digit c) eqn:Hc; [|discriminate H].
    injection H as <-.
    now exists "", c, s.
Qed.

(** X11: the version that is scraped from a build path when the report
    names none is a piece of that path that starts with a digit and ends
    with a digit, so it has at least two characters. *)
Theorem version_search_found :
  forall s v : string,
    version_search s = Some v ->
    exists before c body d rest,
      s = before ++ String c (body ++ String d rest)
      /\ v = String c (body ++ String d "")
      /\ is_digit c = true
      /\ is_digit d = true.
Proof.
  induction s as [|a s IH]; intros v H; [discriminate H|].
  cbn [version_search] in H.
  destruct (is_digit a) eqn:Ha.
  - destruct (upto_last_digit s) as [m|] eqn:Hm.
    + injection H as <-.
      destruct (upto_last_digit_inv s m Hm) as (body & d & rest & -> & -> & Hd).
      now exists "", a, body, d, rest.
    + destruct (IH v H) as (before & c & body & d & rest & -> & -> & Hc & Hd).
      now exists (String a before), c, body, d, rest.
  - destruct (IH v H) as (before & c & body & d & rest & -> & -> & Hc & Hd).
    now exists (String a before), c, body, d, rest.
Qed.

(** X11 on the path of a package of Foo. *)
Lemma version_search_found_witness :
  exists before c body d rest,
    "/Library/AutoPkg/Cache/local.Foo/Foo-1.0.pkg"
    = before ++ String c (body ++ String d rest)
    /\ "1.0" = String c (body ++ String d "")
    /\ is_digit c = true
    /\ is_digit d = true.
Proof.
  exact (version_search_found "/Library/AutoPkg/Cache/local.Foo/Foo-1.0.pkg"
           "1.0" eq_refl).
Defined.

End RunnerFacts.

(* ------------------------------------------------------------------ *)
(** ** Further properties of the placeholder replication *)

Module ReplayFacts.
Import Py Eff AutopkgTools Samples Views EffFacts.
Local Open Scope eff_scope.

Lemma run_command_ok (W : world) (cmd : string) (tr : trace) :
  (forall tr cmd, fst (w_run W tr cmd) = 0%Z) ->
  _run_command W cmd tr = (EvRun cmd :: tr, Ok (0%Z, snd (w_run W tr cmd))).
Proof.
  intros H. unfold _run_command.
  specialize (H tr cmd).
  destruct (w_run W tr cmd) as [code out]. cbn [fst snd] in *. now subst code.
Qed.

(** The events of the replay of one record on a machine where the commands
    succeed, the most recent first. *)
Lemma replicate_download_events (W : world) (i : string)
  (d : list (string * pyval)) (tr : trace) (p : string) :
  lookup "pathname" d = Some (PStr p) ->
  commands_succeed W ->
  let cache_path := fst (PosixPath.split p) in
  let user := console_user_at W tr p in
  let dir := fst (home_rewrite cache_path p user) in
  let p' := placeholder_path W tr p in
  let t2 : trace := EvRun stat_console
                    :: EvLog DEBUG "Found previous cache path" [PStr cache_path]
                    :: tr in
  let t3 : trace :=
    if home_rewrite_fires cache_path user
    then EvLog DEBUG
               "Recorded home dir and logged in user do not match; updating cache path"
               [PStr (target_home_dir cache_path); PStr user] :: t2
    else t2 in
  let t4 : trace := if w_exists W t3 dir then t3 else EvMkdir dir :: t3 in
  let t5 : trace := EvRun (mkfile_cmd (field d "dl_size_in_bytes") p') :: t4 in
  let t6 : trace :=
    if truthy (field d "etag")
    then EvRun (xattr_etag_cmd (field d "etag") p') :: t5
    else EvLog INFO "Skipping write of attribute 'etag'; key is missing" [PStr i]
         :: t5 in
  let t7 : trace :=
    if truthy (field d "last_modified")
    then EvRun (xattr_last_modified_cmd (field d "last_modified") p') :: t6
    else EvLog INFO "Skipping write of attribute 'last_modified'; key is missing"
               [PStr i] :: t6 in
  replicate_download W i (PDict d) tr
  = (EvLog INFO "Wrote file with xattrs and byte size"
           [field d "dl_size_in_bytes"; PStr p'] :: t7,
     Ok tt).
Proof.
  intros Hp [Hcmd Hdir] cache_path user dir p' t2 t3 t4 t5 t6 t7.
  unfold replicate_download.
  unfold bind at 1. cbn [lift get]. rewrite Hp.
  unfold bind at 1. cbn [lift]. fold (field d "etag").
  unfold bind at 1. cbn [lift]. fold (field d "last_modified").
  unfold bind at 1. cbn [lift]. fold (field d "dl_size_in_bytes").
  unfold try_except.
  unfold bind at 1. cbn [lift fspath].
  destruct (PosixPath.split p) as [cp cf] eqn:Hsplit.
  cbn [fst] in cache_path. subst cache_path.
  unfold bind at 1, log at 1, emit.
  unfold bind at 1. rewrite (run_command_ok W _ _ Hcmd).
  fold stat_console.
  assert (user = snd (w_run W (EvLog DEBUG "Found previous cache path" [PStr cp] :: tr)
                            stat_console)) as Huser.
  { unfold user, console_user_at. now rewrite Hsplit. }
  rewrite <- Huser. fold t2.
  unfold bind at 1.
  assert (when (home_rewrite_fires cp user)
               (log DEBUG
                    "Recorded home dir and logged in user do not match; updating cache path"
                    [PStr (target_home_dir cp); PStr user]) t2 = (t3, Ok tt)) as ->.
  { unfold t3, when, log, emit, ret. now destruct (home_rewrite_fires cp user). }
  assert (p' = snd (home_rewrite cp p user)) as Hp'.
  { unfold p', placeholder_path. rewrite Hsplit. reflexivity. }
  destruct (home_rewrite cp p user) as [dir0 p0] eqn:Hrw.
  cbn [fst snd] in dir, Hp'. subst dir p0.
  unfold bind at 1, ask.
  unfold bind at 1.
  assert (when (negb (w_exists W t3 dir0)) (mkdir W dir0) t3 = (t4, Ok tt)) as ->.
  { unfold t4, when, mkdir, ret.
    destruct (w_exists W t3 dir0) eqn:He; cbn [negb]; [reflexivity|].
    now rewrite (Hdir t3 dir0 He). }
  unfold bind at 1. rewrite (run_command_ok W _ _ Hcmd).
  fold (mkfile_cmd (field d "dl_size_in_bytes") p'). fold t5.
  unfold bind at 1.
  assert ((if truthy (field d "etag")
           then (_run_command W
                   ("xattr -w com.github.autopkg.etag '" ++ str (field d "etag")
                    ++ "' '" ++ p' ++ "'") ;; ret tt)%eff
           else log INFO "Skipping write of attribute 'etag'; key is missing"
                    [PStr i]) t5 = (t6, Ok tt)) as ->.
  { unfold t6. destruct (truthy (field d "etag")); [|reflexivity].
    unfold bind. now rewrite (run_command_ok W _ _ Hcmd). }
  unfold bind at 1.
  assert ((if truthy (field d "last_modified")
           then (_run_command W
                   ("xattr -w com.github.autopkg.last-modified '"
                    ++ str (field d "last_modified") ++ "' '" ++ p' ++ "'") ;;
                 ret tt)%eff
           else log INFO
                    "Skipping write of attribute 'last_modified'; key is missing"
                    [PStr i]) t6 = (t7, Ok tt)) as ->.
  { unfold t7. destruct (truthy (field d "last_modified")); [|reflexivity].
    unfold bind. now rewrite (run_command_ok W _ _ Hcmd). }
  reflexivity.
Qed.

Lemma EvRun_inj (a b : string) : EvRun a = EvRun b -> a = b.
Proof. intros E. now injection E. Qed.

Lemma etag_cmd_not_last_modified (a b : pyval) (p q : string) :
  xattr_etag_cmd a p <> xattr_last_modified_cmd b q.
Proof. unfold xattr_etag_cmd, xattr_last_modified_cmd. cbn [append]. discriminate. Qed.

Lemma etag_cmd_not_mkfile (a b : pyval) (p q : string) :
  xattr_etag_cmd a p <> mkfile_cmd b q.
Proof. unfold xattr_etag_cmd, mkfile_cmd. cbn [append]. discriminate. Qed.

Lemma last_modified_cmd_not_mkfile (a b : pyval) (p q : string) :
  xattr_last_modified_cmd a p <> mkfile_cmd b q.
Proof. unfold xattr_last_modified_cmd, mkfile_cmd. cbn [append]. discriminate. Qed.

Lemma etag_cmd_not_stat (a : pyval) (p : string) :
  xattr_etag_cmd a p <> stat_console.
Proof. unfold xattr_etag_cmd, stat_console. cbn [append]. discriminate. Qed.

Lemma last_modified_cmd_not_stat (a : pyval) (p : string) :
  xattr_last_modified_cmd a p <> stat_console.
Proof. unfold xattr_last_modified_cmd, stat_console. cbn [append]. discriminate. Qed.

(** X12: on a machine where every command succeeds and missing directories
    can be made, the replay of a record whose pathname is a string ends
    normally: it issues [mkfile -n] with the recorded size for the path under
    the console user's home, writes the etag attribute exactly when the
    recorded etag is truthy, writes the last-modified attribute exactly when
    the recorded value is truthy, and logs no exception. *)
Theorem replicate_download_replays (W : world) (i : string)
  (d : list (string * pyval)) (tr : trace) (p : string) :
  lookup "pathname" d = Some (PStr p) ->
  commands_succeed W ->
  let p' := placeholder_path W tr p in
  exists new : trace,
    replicate_download W i (PDict d) tr = ((new ++ tr)%list, Ok tt)
    /\ In (EvRun (mkfile_cmd (field d "dl_size_in_bytes") p')) new
    /\ (In (EvRun (xattr_etag_cmd (field d "etag") p')) new
        <-> truthy (field d "etag") = true)
    /\ (In (EvRun (xattr_last_modified_cmd (field d "last_modified") p')) new
        <-> truthy (field d "last_modified") = true)
    /\ no_log_exn new = true.
Proof.
  intros Hp Hw p'.
  pose proof (replicate_download_events W i d tr p Hp Hw) as H.
  cbv zeta in H. fold p' in H.
  set (cp := fst (PosixPath.split p)) in *.
  set (user := console_user_at W tr p) in *.
  set (dir := fst (home_rewrite cp p user)) in *.
  set (t2 := (EvRun stat_console
              :: EvLog DEBUG "Found previous cache path" [PStr cp] :: nil)%list).
  set (t3 := ((if home_rewrite_fires cp user
               then (EvLog DEBUG
                      "Recorded home dir and logged in user do not match; updating cache path"
                      [PStr (target_home_dir cp); PStr user] :: nil)%list
               else nil) ++ t2)%list).
  set (e3 := if home_rewrite_fires cp user return trace
             then EvLog DEBUG
                    "Recorded home dir and logged in user do not match; updating cache path"
                    [PStr (target_home_dir cp); PStr user]
                  :: EvRun stat_console
                  :: EvLog DEBUG "Found previous cache path" [PStr cp] :: tr
             else EvRun stat_console
                  :: EvLog DEBUG "Found previous cache path" [PStr cp] :: tr) in *.
  assert (e3 = (t3 ++ tr)%list) as He3.
  { unfold e3, t3, t2. now destruct (home_rewrite_fires cp user). }
  set (t4 := ((if w_exists W e3 dir then nil else (EvMkdir dir :: nil)%list) ++ t3)%list).
  set (mk := EvRun (mkfile_cmd (field d "dl_size_in_bytes") p')) in *.
  set (et := EvRun (xattr_etag_cmd (field d "etag") p')) in *.
  set (lm := EvRun (xattr_last_modified_cmd (field d "last_modified") p')) in *.
  set (se := EvLog INFO "Skipping write of attribute 'etag'; key is missing" [PStr i]) in *.
  set (sl := EvLog INFO "Skipping write of attribute 'last_modified'; key is missing"
                   [PStr i]) in *.
  set (wr := EvLog INFO "Wrote file with xattrs and byte size"
                   [field d "dl_size_in_bytes"; PStr p']) in *.
  exists (wr :: (if truthy (field d "last_modified") then lm else sl)
             :: (if truthy (field d "etag") then et else se)
             :: mk :: t4)%list.
  assert (mk <> et) as Hmk_et.
  { unfold mk, et. intros E. apply EvRun_inj in E. symmetry in E.
    now apply etag_cmd_not_mkfile in E. }
  assert (mk <> lm) as Hmk_lm.
  { unfold mk, lm. intros E. apply EvRun_inj in E. symmetry in E.
    now apply last_modified_cmd_not_mkfile in E. }
  assert (et <> lm) as Het_lm.
  { unfold et, lm. intros E. apply EvRun_inj in E.
    now apply etag_cmd_not_last_modified in E. }
  assert (~ In et t4) as Het4.
  { unfold t4, t3, t2, et. intros Hin.
    rewrite !in_app_iff in Hin.
    destruct Hin as [Hin | [Hin | Hin]].
    - destruct (w_exists W e3 dir); cbn in Hin; [easy|].
      destruct Hin as [E|[]]; discriminate E.
    - destruct (home_rewrite_fires cp user); cbn in Hin; [|easy].
      destruct Hin as [E|[]]; discriminate E.
    - cbn [In] in Hin. destruct Hin as [E|[E|[]]]; [|discriminate E].
      apply EvRun_inj in E. symmetry in E. now apply etag_cmd_not_stat in E. }
  assert (~ In lm t4) as Hlm4.
  { unfold t4, t3, t2, lm. intros Hin.
    rewrite !in_app_iff in Hin.
    destruct Hin as [Hin | [Hin | Hin]].
    - destruct (w_exists W e3 dir); cbn in Hin; [easy|].
      destruct Hin as [E|[]]; discriminate E.
    - destruct (home_rewrite_fires cp user); cbn in Hin; [|easy].
      destruct Hin as [E|[]]; discriminate E.
    - cbn [In] in Hin. destruct Hin as [E|[E|[]]]; [|discriminate E].
      apply EvRun_inj in E. symmetry in E. now apply last_modified_cmd_not_stat in E. }
  split; [|split; [|split; [|split]]].
  - rewrite H. f_equal. cbn [app]. f_equal.
    assert ((if w_exists W e3 dir then e3 else EvMkdir dir :: e3) = (t4 ++ tr)%list)
      as E4.
    { unfold t4. destruct (w_exists W e3 dir); cbn [app]; now rewrite He3. }
    destruct (truthy (field d "last_modified")), (truthy (field d "etag"));
      now rewrite E4.
  - cbn [In]. now do 3 right; left.
  - split.
    + intros Hin. cbn [In] in Hin.
      destruct Hin as [E|[E|[E|[E|Hin]]]].
      * discriminate E.
      * destruct (truthy (field d "last_modified")); [|discriminate E].
        now symmetry in E.
      * destruct (truthy (field d "etag")); [reflexivity|discriminate E].
      * contradiction.
      * contradiction.
    + intros ->. cbn [In]. now right; right; left.
  - split.
    + intros Hin. cbn [In] in Hin.
      destruct Hin as [E|[E|[E|[E|Hin]]]].
      * discriminate E.
      * destruct (truthy (field d "last_modified")); [reflexivity|discriminate E].
      * destruct (truthy (field d "etag")); [contradiction|discriminate E].
      * contradiction.
      * contradiction.
    + intros ->. cbn [In]. now right; left.
  - unfold t4, t3, t2.
    destruct (truthy (field d "last_modified")), (truthy (field d "etag")),
      (w_exists W e3 dir), (home_rewrite_fires cp user); reflexivity.
Qed.

Lemma commands_succeed_console_admin : commands_succeed world_console_admin.
Proof.
  split.
  - intros tr cmd. cbn. unfold run_console_admin.
    now destruct (cmd =? "/usr/bin/stat -f%Su /dev/console").
  - reflexivity.
Qed.

Lemma replicate_download_replays_witness :
  exists new : trace,
    replicate_download world_console_admin "Bar.pkg.recipe"
                       (PDict record_bar_fields) []
    = ((new ++ [])%list, Ok tt)
    /\ In (EvRun "mkfile -n '1048576' '/Users/admin/Library/AutoPkg/Cache/com.github.example.pkg.Bar/downloads/Bar.dmg'")
          new
    /\ (In (EvRun "xattr -w com.github.autopkg.etag 'abc123' '/Users/admin/Library/AutoPkg/Cache/com.github.example.pkg.Bar/downloads/Bar.dmg'")
           new
        <-> true = true)
    /\ (In (EvRun "xattr -w com.github.autopkg.last-modified 'None' '/Users/admin/Library/AutoPkg/Cache/com.github.example.pkg.Bar/downloads/Bar.dmg'")
           new
        <-> false = true)
    /\ no_log_exn new = true.
Proof.
  exact (replicate_download_replays world_console_admin "Bar.pkg.recipe"
           record_bar_fields [] bar_download eq_refl
           commands_succeed_console_admin).
Defined.

(** The replay of one record on a machine where the commands succeed ends
    normally and logs no exception. *)
Lemma replicate_download_quiet (W : world) (i : string) (r : pyval) (tr : trace) :
  record_replayable r = true ->
  commands_succeed W ->
  exists new : trace,
    replicate_download W i r tr = ((new ++ tr)%list, Ok tt)
    /\ no_log_exn new = true.
Proof.
  intros Hr Hw.
  destruct r as [| | | | |d]; try discriminate Hr.
  cbn [record_replayable] in Hr.
  destruct (lookup "pathname" d) as [[| | |p| |]|] eqn:Hp; try discriminate Hr.
  pose proof (replicate_download_events W i d tr p Hp Hw) as H.
  cbv zeta in H. rewrite H.
  set (cp := fst (PosixPath.split p)).
  set (user := console_user_at W tr p).
  set (dir := fst (home_rewrite cp p user)).
  set (e3 := if home_rewrite_fires cp user return trace
             then EvLog DEBUG
                    "Recorded home dir and logged in user do not match; updating cache path"
                    [PStr (target_home_dir cp); PStr user]
                  :: EvRun stat_console
                  :: EvLog DEBUG "Found previous cache path" [PStr cp] :: tr
             else EvRun stat_console
                  :: EvLog DEBUG "Found previous cache path" [PStr cp] :: tr).
  set (t3 := ((if home_rewrite_fires cp user
               then [EvLog DEBUG
                      "Recorded home dir and logged in user do not match; updating cache path"
                      [PStr (target_home_dir cp); PStr user]]
               else []) ++ [EvRun stat_console;
                            EvLog DEBUG "Found previous cache path" [PStr cp]])%list).
  assert (e3 = (t3 ++ tr)%list) as He3.
  { unfold e3, t3. now destruct (home_rewrite_fires cp user). }
  set (t4 := ((if w_exists W e3 dir then [] else [EvMkdir dir]) ++ t3)%list).
  assert ((if w_exists W e3 dir then e3 else EvMkdir dir :: e3) = (t4 ++ tr)%list)
    as E4.
  { unfold t4. destruct (w_exists W e3 dir); cbn [app]; now rewrite He3. }
  rewrite E4.
  eexists (_ :: (if truthy (field d "last_modified") then _ else _)
             :: (if truthy (field d "etag") then _ else _)
             :: _ :: t4)%list.
  split.
  - cbn [app].
    destruct (truthy (field d "last_modified")), (truthy (field d "etag"));
      reflexivity.
  - unfold no_log_exn, t4, t3.
    destruct (truthy (field d "last_modified")), (truthy (field d "etag")),
      (w_exists W e3 dir), (home_rewrite_fires cp user); reflexivity.
Qed.

Lemma no_log_exn_app (a b : trace) :
  no_log_exn a = true -> no_log_exn b = true -> no_log_exn (a ++ b)%list = true.
Proof.
  unfold no_log_exn. intros Ha Hb. rewrite forallb_app. now rewrite Ha, Hb.
Qed.

Lemma replicate_records_quiet (W : world) (i : string) (records : list pyval) :
  commands_succeed W ->
  forallb record_replayable records = true ->
  forall tr : trace,
  exists new : trace,
    for_each records (replicate_download W i) tr = ((new ++ tr)%list, Ok tt)
    /\ no_log_exn new = true.
Proof.
  intros Hw. induction records as [|r records IH]; intros Hall tr.
  - exists []. now split.
  - cbn [forallb] in Hall. apply andb_prop in Hall as [Hr Hall].
    destruct (replicate_download_quiet W i r tr Hr Hw) as (n1 & E1 & Q1).
    destruct (IH Hall (n1 ++ tr)%list) as (n2 & E2 & Q2).
    exists (n2 ++ n1)%list. split.
    + cbn [for_each]. unfold bind. rewrite E1, E2. now rewrite List.app_assoc.
    + now apply no_log_exn_app.
Qed.

Lemma replicate_entry_quiet (W : world) (d : list (string * pyval)) (k : string)
  (tr : trace) :
  commands_succeed W ->
  key_replayable d k = true ->
  exists new : trace,
    replicate_entry W (PDict d) k tr = ((new ++ tr)%list, Ok tt)
    /\ no_log_exn new = true.
Proof.
  intros Hw Hk. unfold key_replayable in Hk.
  destruct (lookup k d) as [e|] eqn:He; [|discriminate Hk].
  destruct e as [| | | | |f]; try discriminate Hk.
  cbn [entry_replayable] in Hk.
  destruct (lookup "download_metadata" f) as [[| | | |records|]|] eqn:Hf;
    try discriminate Hk.
  unfold replicate_entry.
  unfold bind at 1. cbn [lift get]. rewrite He.
  unfold bind at 1. cbn [lift get]. rewrite Hf.
  unfold bind at 1. cbn [lift iter].
  now apply replicate_records_quiet.
Qed.

Lemma replicate_keys_quiet (W : world) (d : list (string * pyval))
  (ks : list string) :
  commands_succeed W ->
  forallb (key_replayable d) ks = true ->
  forall tr : trace,
  exists new : trace,
    for_each ks (replicate_entry W (PDict d)) tr = ((new ++ tr)%list, Ok tt)
    /\ no_log_exn new = true.
Proof.
  intros Hw. induction ks as [|k ks IH]; intros Hall tr.
  - exists []. now split.
  - cbn [forallb] in Hall. apply andb_prop in Hall as [Hk Hall].
    destruct (replicate_entry_quiet W d k tr Hw Hk) as (n1 & E1 & Q1).
    destruct (IH Hall (n1 ++ tr)%list) as (n2 & E2 & Q2).
    exists (n2 ++ n1)%list. split.
    + cbn [for_each]. unfold bind. rewrite E1, E2. now rewrite List.app_assoc.
    + now apply no_log_exn_app.
Qed.

(** X13: a cache in which every entry has a list of records and every
    record names its file is replayed to the end on a machine where the
    commands succeed: the replication returns normally and none of its
    events is a logged exception. *)
Theorem create_file_and_attributes_replays_cache (W : world)
  (d : list (string * pyval)) (tr : trace) :
  replayable d = true ->
  commands_succeed W ->
  exists new : trace,
    create_file_and_attributes W (PDict d) tr = ((new ++ tr)%list, Ok tt)
    /\ no_log_exn new = true.
Proof.
  intros Hd Hw. cbn [create_file_and_attributes].
  now apply replicate_keys_quiet.
Qed.

Lemma create_file_and_attributes_replays_cache_witness :
  exists new : trace,
    create_file_and_attributes world_console_admin (PDict cache_bar_then_foo) []
    = ((new ++ [])%list, Ok tt)
    /\ no_log_exn new = true.
Proof.
  exact (create_file_and_attributes_replays_cache world_console_admin
           cache_bar_then_foo [] eq_refl commands_succeed_console_admin).
Defined.

(** X14: the guard of the replication covers one record only.  When the
    first entry of the cache is a mapping without [download_metadata], the
    loop over its records raises [TypeError] outside the guard: the
    replication ends there with no event, and no later entry is replayed. *)
Theorem create_file_and_attributes_entry_without_records (W : world)
  (k : string) (f rest : list (string * pyval)) (tr : trace) :
  lookup "download_metadata" f = None ->
  create_file_and_attributes W (PDict ((k, PDict f) :: rest)) tr
  = (tr, Raise TypeError).
Proof.
  intros Hf.
  cbn [create_file_and_attributes map fst for_each].
  unfold bind at 1. unfold replicate_entry at 1.
  unfold bind at 1. cbn [lift get lookup]. rewrite String.eqb_refl.
  unfold bind at 1. cbn [lift get]. rewrite Hf.
  unfold bind at 1. cbn [lift iter]. reflexivity.
Qed.

Lemma create_file_and_attributes_entry_without_records_witness :
  create_file_and_attributes world_console_admin (PDict cache_unstamped_first) []
  = ([], Raise TypeError).
Proof.
  exact (create_file_and_attributes_entry_without_records world_console_admin
           "Baz.download.recipe"
           [("cache_timestamp", PStr "2023-06-06 09:30:00.000000")]
           [("Foo.pkg.recipe", foo_entry)] [] eq_refl).
Defined.

End ReplayFacts.

(* ------------------------------------------------------------------ *)
(** ** Further properties of the metadata recorder *)

Module RecorderFacts.
Import Py Eff CacheRecipeMetadata Samples Views EffFacts.
Local Open Scope eff_scope.

(** X15: a file of the downloads directory that is the download of this run,
    or whose size is 500000 bytes or less, is passed over without a probe:
    no command is run for it, nothing is printed, and no record is
    returned. *)
Theorem bonus_download_skips_small_or_known (W : world) (known p : string)
  (tr : trace) (n : Z) :
  p <> "" ->
  w_getsize W tr p = Some n ->
  (n <= 500000)%Z \/ p = known ->
  bonus_download W known p tr = (tr, Ok []).
Proof.
  intros Hne Hsize Hskip.
  unfold bonus_download. unfold bind at 1. unfold getsize.
  destruct p as [|c p]; [now elim Hne|].
  rewrite Hsize.
  assert ((n >? 500000)%Z && negb (String c p =? known) = false) as ->;
    [|reflexivity].
  destruct Hskip as [Hn | ->].
  - assert ((n >? 500000)%Z = false) as -> by lia. reflexivity.
  - rewrite String.eqb_refl. cbn [negb]. apply andb_false_r.
Qed.

Lemma bonus_download_skips_small_or_known_witness :
  bonus_download world_small_sibling bar_download
                 (bar_downloads ++ "/notes.txt") []
  = ([], Ok []).
Proof.
  refine (bonus_download_skips_small_or_known world_small_sibling bar_download
            (bar_downloads ++ "/notes.txt") [] 500000 _ eq_refl _).
  - discriminate.
  - left. lia.
Defined.





(** X17: whatever the search for the downloads directory returns is the
    pathname itself or one of its ancestors, reached in fewer steps than the
    fuel, and it ends with the letters [downloads]; no path on the way to
    it does. *)
Theorem find_downloads_dir_sound (fuel : nat) (directory found : string) :
  find_downloads_dir fuel directory = Some found ->
  exists n,
    n < fuel
    /\ found = Nat.iter n parent_dir directory
    /\ endswith found "downloads" = true
    /\ forall j, j < n ->
                 endswith (Nat.iter j parent_dir directory) "downloads" = false.
Proof.
  revert directory. induction fuel as [|fuel IH]; intros directory H;
    [discriminate H|].
  cbn [find_downloads_dir] in H.
  destruct (endswith directory "downloads") eqn:Hd.
  - injection H as <-. exists 0. cbn [Nat.iter]. repeat split; auto; lia.
  - destruct (IH _ H) as (n & Hn & Hfound & Hend & Hmin).
    exists (S n). rewrite Nat.iter_succ_r. repeat split; auto; [lia|].
    intros [|j] Hj; [exact Hd|].
    rewrite Nat.iter_succ_r. apply Hmin. lia.
Qed.

Lemma find_downloads_dir_sound_witness :
  exists n,
    n < 2
    /\ bar_downloads = Nat.iter n parent_dir bar_download
    /\ endswith bar_downloads "downloads" = true
    /\ forall j, j < n ->
                 endswith (Nat.iter j parent_dir bar_download) "downloads" = false.
Proof.
  exact (find_downloads_dir_sound 2 bar_download bar_downloads eq_refl).
Defined.




(** X19: when the cache file holds a document that is not a mapping, [main]
    raises [AttributeError] right after opening it, whatever the fuel:
    nothing is searched, scanned or written. *)
Theorem main_cache_not_a_mapping (W : world) (env : list (string * string))
  (fuel : nat) (tr : trace) (p recipe_path name : string) (n : Z) (v : pyval) :
  lookup "pathname" env = Some p ->
  p <> "" ->
  w_getsize W tr p = Some n ->
  lookup "RECIPE_PATH" env = Some recipe_path ->
  lookup "output_file_name" env = Some name ->
  w_file W tr (output_file_of env) = Present (Document v) ->
  is_mapping v = false ->
  main W env fuel tr
  = Some (EvOpen (output_file_of env) :: tr, Raise AttributeError).
Proof.
  intros Hp Hne Hsize Hrp Hname Hfile Hv.
  unfold main, main_primary. cbv zeta.
  unfold bind at 1. unfold getsize, env_get at 1. rewrite Hp.
  destruct p as [|c p]; [now elim Hne|]. rewrite Hsize.
  unfold bind at 1. unfold env_get at 1. rewrite Hrp. cbn [lift AutopkgTools.fspath].
  destruct (PosixPath.split recipe_path) as [rdir rfile].
  unfold bind at 1.
  assert (AutopkgTools.fspath
            (if negb (truthy (env_get env "output_file_path"))
             then PStr "/tmp" else env_get env "output_file_path")
          = Ok (match lookup "output_file_path" env with
                | Some q => if q =? "" then "/tmp" else q
                | None => "/tmp"
                end)) as ->.
  { unfold env_get. destruct (lookup "output_file_path" env) as [q|];
      [|reflexivity].
    cbn [truthy]. destruct (q =? ""); reflexivity. }
  cbn [lift].
  unfold bind at 1. unfold env_get at 1. rewrite Hname.
  cbn [lift AutopkgTools.fspath].
  unfold bind at 1.
  rewrite ProcessorFacts.get_latest_recipe_run_info_eq.
  unfold output_file_of in Hfile. rewrite Hname in Hfile. rewrite Hfile.
  unfold bind at 1. unfold output_file_of. rewrite Hname.
  destruct v; try discriminate Hv; reflexivity.
Qed.

Lemma main_cache_not_a_mapping_witness :
  main world_cache_list env_foo_empty 0 []
  = Some ([EvOpen (output_file_of env_foo_empty)], Raise AttributeError).
Proof.
  refine (main_cache_not_a_mapping world_cache_list env_foo_empty 0 []
            foo_download (recipe_file "Foo.pkg.recipe") "autopkg_metadata.json"
            0 (PList [PStr "Foo.pkg.recipe"]) eq_refl _ eq_refl eq_refl eq_refl
            eq_refl eq_refl).
  discriminate.
Defined.

(** X20: when the entry that the cache holds for the recipe is not a
    mapping, no run of [main] returns normally: a run that ends, ends in an
    exception, since the records of the run cannot be stored in the
    entry. *)
Theorem main_entry_not_a_mapping (W : world) (env : list (string * string))
  (fuel : nat) (tr tr' : trace) (r : res (bool * pyval))
  (d0 : list (string * pyval)) (x : pyval) :
  loaded W env tr = PDict d0 ->
  lookup (recipe_filename_of env) d0 = Some x ->
  is_mapping x = false ->
  main W env fuel tr = Some (tr', r) ->
  exists e, r = Raise e.
Proof.
  intros Hload Hx Hnot H.
  destruct r as [[m v]|e]; [exfalso | now exists e].
  unfold main in H.
  destruct (main_primary W env tr) as [tr1 [l|e]] eqn:Hprimary;
    [|discriminate H].
  destruct (find_downloads_dir fuel (l_pathname l)) as [dd|]; [|discriminate H].
  injection H as H.
  apply ProcessorFacts.main_primary_inv in Hprimary
    as (pathname & size & d1 & Hp & Hne & Hsize & Hload1 & Hlp & Hrf & Hof & Hdata
        & Hmod & Hlist).
  apply (ProcessorFacts.main_persist_inv W l dd tr1 tr' m v _ Hlist) in H
    as (bonus & e0 & t & tr2 & Hbonus & Hm & He0 & Hv & Htr).
  rewrite Hload in Hload1. injection Hload1 as <-.
  rewrite Hrf, Hdata in He0.
  destruct (existsb (String.eqb (recipe_filename_of env)) (map fst d0)) eqn:Hex.
  - rewrite Hx in He0. injection He0 as ->. discriminate Hnot.
  - rewrite (ProcessorFacts.existsb_eqb_lookup _ _ Hex) in Hx. discriminate Hx.
Qed.

Lemma main_entry_not_a_mapping_witness :
  option_map snd (main world_cache_text_entry env_foo_empty 2 [])
  = Some (Raise TypeError)
  /\ exists e, @Raise (bool * pyval) TypeError = Raise e.
Proof.
  split; [vm_compute; reflexivity|].
  refine (main_entry_not_a_mapping world_cache_text_entry env_foo_empty 2 [] _ _
            [("Foo.pkg.recipe", PStr "stale")] (PStr "stale")
            eq_refl eq_refl eq_refl _).
  vm_compute. reflexivity.
Defined.

End RecorderFacts.

(* ------------------------------------------------------------------ *)
(** ** The command line and the recipe list *)

Module CliFacts.
Import Py Eff AutopkgTools Samples Views EffFacts.
Local Open Scope eff_scope.

Lemma take_drop (n : nat) (s : string) : take n s ++ drop n s = s.
Proof.
  unfold take, drop. revert n.
  induction s as [|c s IH]; intros [|n]; cbn; try reflexivity.
  - now rewrite StrFacts.substring_all.
  - f_equal. apply IH.
Qed.

Lemma splitext_app (p : string) :
  fst (PosixPath.splitext p) ++ snd (PosixPath.splitext p) = p.
Proof.
  unfold PosixPath.splitext.
  destruct ((str_rfind p "/" <? str_rfind p ".")%Z
            && negb (PosixPath.all_dots
                       (slice p (str_rfind p "/" + 1) (str_rfind p "."))));
    cbn [fst snd].
  - apply take_drop.
  - induction p as [|c p IH]; cbn; [reflexivity | now rewrite IH].
Qed.

Lemma with_recipe_ext_ends (recipe : string) :
  endswith (with_recipe_ext recipe) ".recipe" = true.
Proof.
  unfold with_recipe_ext.
  destruct (String.eqb_spec (snd (PosixPath.splitext recipe)) ".recipe")
    as [Hext | _]; cbn [negb].
  - rewrite <- (splitext_app recipe) at 1. rewrite Hext.
    apply StrFacts.endswith_app.
  - apply StrFacts.endswith_app.
Qed.

(** X21: with the override set, [parse_recipes] answers from its argument
    alone: the history is left as it was, one identifier is returned for
    each one given, in their order, and every identifier returned ends with
    [.recipe]. *)
Theorem parse_recipes_override (W : world) (L : cli) (identifiers : list string)
  (tr : trace) :
  recipe_to_run_set L = true ->
  exists out : list string,
    parse_recipes W L (inl identifiers) tr = (tr, Ok (Returned out))
    /\ List.length out = List.length identifiers
    /\ (forall i, nth_error out i
                  = option_map with_recipe_ext (nth_error identifiers i))
    /\ Forall (fun identifier => endswith identifier ".recipe" = true) out.
Proof.
  intros Hset. exists (map with_recipe_ext identifiers).
  unfold parse_recipes. rewrite Hset.
  repeat split.
  - apply length_map.
  - intros i. apply nth_error_map.
  - apply Forall_forall. intros x Hx.
    apply in_map_iff in Hx as (y & <- & _). apply with_recipe_ext_ends.
Qed.

Lemma parse_recipes_override_witness :
  exists out : list string,
    parse_recipes still_world cli_override (inl ["Foo.pkg"; "Bar.pkg.recipe"]) []
    = ([], Ok (Returned out))
    /\ List.length out = 2
    /\ (forall i, nth_error out i
                  = option_map with_recipe_ext
                               (nth_error ["Foo.pkg"; "Bar.pkg.recipe"] i))
    /\ Forall (fun identifier => endswith identifier ".recipe" = true) out.
Proof.
  exact (parse_recipes_override still_world cli_override
           ["Foo.pkg"; "Bar.pkg.recipe"] [] eq_refl).
Defined.

Lemma drop_0 (s : string) : drop 0 s = s.
Proof. unfold drop. rewrite Nat.sub_0_r. apply StrFacts.substring_all. Qed.

Lemma drop_S (n : nat) (c : ascii) (s : string) :
  drop (S n) (String c s) = drop n s.
Proof. reflexivity. Qed.

Lemma prefix_drop (sep s : string) :
  prefix sep s = true -> sep ++ drop (String.length sep) s = s.
Proof.
  revert s. induction sep as [|c sep IH]; intros s H.
  - apply drop_0.
  - destruct s as [|c' s]; [discriminate H|].
    cbn [prefix] in H.
    destruct (ascii_dec c c') as [->|]; [|discriminate H].
    cbn [String.length append]. rewrite drop_S. f_equal. now apply IH.
Qed.

Lemma concat_cons_head (sep : string) (c : ascii) (h : string) (t : list string) :
  String.concat sep (String c h :: t) = String c (String.concat sep (h :: t)).
Proof. destruct t; reflexivity. Qed.

Lemma split_from_nonempty (sep : string) (k : nat) (s : string) :
  split_from sep k s <> [].
Proof.
  revert k. induction s as [|c s IH]; intros k; cbn [split_from];
    [discriminate|].
  destruct k as [|k]; [|apply IH].
  destruct (prefix sep (String c s)); [discriminate|].
  destruct (split_from sep 0 s); discriminate.
Qed.

Lemma prefix_length (sep s : string) :
  prefix sep s = true -> String.length sep <= String.length s.
Proof.
  revert s. induction sep as [|c sep IH]; intros s H; cbn; [lia|].
  destruct s as [|c' s]; [discriminate H|].
  cbn [prefix] in H. destruct (ascii_dec c c'); [|discriminate H].
  apply IH in H. cbn. lia.
Qed.

Lemma join_split_from (sep : string) :
  sep <> "" ->
  forall (s : string) (k : nat),
    k <= String.length s ->
    join sep (split_from sep k s) = drop k s.
Proof.
  intros Hsep. unfold join.
  induction s as [|c s IH]; intros k Hk.
  - cbn in Hk. assert (k = 0) as -> by lia. reflexivity.
  - destruct k as [|k].
    + cbn [split_from].
      destruct (prefix sep (String c s)) eqn:Hpre.
      * pose proof (prefix_length _ _ Hpre) as Hlen.
        pose proof (prefix_drop _ _ Hpre) as Hdrop.
        destruct sep as [|x sep]; [now elim Hsep|].
        cbn [String.length] in *.
        replace (S (String.length sep) - 1) with (String.length sep) by lia.
        pose proof (split_from_nonempty (String x sep) (String.length sep) s) as Hne.
        destruct (split_from (String x sep) (String.length sep) s) as [|h t] eqn:E;
          [now elim Hne|].
        change (String.concat (String x sep) ("" :: h :: t))
          with (String x sep ++ String.concat (String x sep) (h :: t)).
        rewrite <- E. rewrite IH by lia.
        rewrite drop_0. rewrite drop_S in Hdrop. exact Hdrop.
      * pose proof (split_from_nonempty sep 0 s) as Hne.
        destruct (split_from sep 0 s) as [|h t] eqn:E; [now elim Hne|].
        rewrite concat_cons_head. rewrite <- E. rewrite IH by lia.
        now rewrite !drop_0.
    + cbn [split_from]. rewrite IH by (cbn in Hk; lia).
      now rewrite drop_S.
Qed.

(** X22: the identifiers that [main] takes from the override are its pieces
    between the separators: joined again with the separator, they give the
    override back. *)
Theorem split_override_round_trip (override sep : string) :
  sep <> "" ->
  join sep (split_str override sep) = override.
Proof.
  intros Hsep. unfold split_str.
  rewrite (join_split_from sep Hsep) by lia.
  apply drop_0.
Qed.

Lemma split_override_round_trip_witness :
  join ", " (split_str "Foo.pkg, Bar.pkg.recipe" ", ") = "Foo.pkg, Bar.pkg.recipe".
Proof.
  refine (split_override_round_trip "Foo.pkg, Bar.pkg.recipe" ", " _).
  discriminate.
Defined.

(** X23: without the override, a recipe list whose path, taken as given when
    it exists and under the directory of the script when it does not, has
    an extension other than [.json] and [.plist] ends the process with
    status 1: the extension is logged and the file is not opened. *)
Theorem parse_recipes_unsupported_extension (W : world) (L : cli)
  (recipes : string) (tr : trace) :
  recipe_to_run_set L = false ->
  let located := if w_exists W tr recipes then recipes
                 else PosixPath.join2 (EXECUTION_DIR L) recipes in
  let ext := snd (PosixPath.splitext located) in
  ext <> ".json" ->
  ext <> ".plist" ->
  parse_recipes W L (inr recipes) tr
  = (EvLog CRITICAL "Found invalid recipe list extension! Expected .plist/.json"
           [PStr ext] :: tr,
     Ok (Exited 1%Z)).
Proof.
  intros Hset located ext Hjson Hplist.
  unfold parse_recipes. rewrite Hset.
  unfold bind at 1, ask.
  assert ((if negb (w_exists W tr recipes)
           then PosixPath.join2 (EXECUTION_DIR L) recipes else recipes) = located)
    as ->.
  { unfold located. now destruct (w_exists W tr recipes). }
  fold ext.
  apply String.eqb_neq in Hjson, Hplist. rewrite Hjson, Hplist.
  reflexivity.
Qed.

Lemma parse_recipes_unsupported_extension_witness :
  parse_recipes still_world cli_list_txt (inr "recipes.txt") []
  = ([EvLog CRITICAL "Found invalid recipe list extension! Expected .plist/.json"
            [PStr ".txt"]],
     Ok (Exited 1%Z)).
Proof.
  refine (parse_recipes_unsupported_extension still_world cli_list_txt
            "recipes.txt" [] eq_refl _ _); discriminate.
Defined.

(** X24: with neither an override nor a recipe list, [main] logs the lack
    and ends the process with status 1 before anything else: with the cache
    flag set as well, the cache is neither loaded nor replayed. *)
Theorem main_cli_without_recipes (W : world) (C : config) (L : cli) (tr : trace) :
  recipe_to_run_set L = false ->
  args_list L = None \/ args_list L = Some "" ->
  main_cli W C L tr
  = (EvLog CRITICAL "Recipe --list or RECIPE_TO_RUN not provided!" [] :: tr,
     Ok (Exited 1%Z)).
Proof.
  intros Hset Hlist. unfold main_cli. rewrite Hset.
  destruct Hlist as [-> | ->]; reflexivity.
Qed.

Lemma main_cli_without_recipes_witness :
  main_cli world_console_admin config_cache cli_nothing []
  = ([EvLog CRITICAL "Recipe --list or RECIPE_TO_RUN not provided!" []],
     Ok (Exited 1%Z)).
Proof.
  refine (main_cli_without_recipes world_console_admin config_cache cli_nothing
            [] eq_refl _).
  now left.
Defined.

End CliFacts.

(* ------------------------------------------------------------------ *)
(** ** The notification *)

Module NotifierFacts.
Import Py Eff AutopkgTools Samples Views EffFacts.
Local Open Scope eff_scope.

(** X25: in debug mode, or without a webhook, [slack_alert] logs one line
    and returns: nothing is posted, and the recipe is not looked at, so the
    call succeeds on a recipe in any state. *)
Theorem slack_alert_skipped (W : world) (C : config) (r : Recipe) (tr : trace) :
  args_debug C = true \/ SLACK_WEBHOOK C = None ->
  exists e : event,
    slack_alert W C (r, tr) = ((r, e :: tr), Ok tt)
    /\ is_post e = false.
Proof.
  intros H. unfold slack_alert.
  destruct (args_debug C) eqn:Hdebug.
  - eexists. split; [reflexivity | reflexivity].
  - destruct H as [H | ->]; [discriminate H|].
    eexists. split; [reflexivity | reflexivity].
Qed.

Lemma slack_alert_skipped_witness :
  exists e : event,
    slack_alert still_world config_debug (lost_recipe, []) = ((lost_recipe, [e]), Ok tt)
    /\ is_post e = false.
Proof.
  refine (slack_alert_skipped still_world config_debug lost_recipe [] _).
  now left.
Defined.

(** X26: a located recipe whose run neither failed nor built a package is
    not reported: with a webhook configured, [slack_alert] returns without
    an event. *)
Theorem slack_alert_nothing_to_report (W : world) (C : config) (r : Recipe)
  (tr : trace) (p hook : string) :
  args_debug C = false ->
  SLACK_WEBHOOK C = Some hook ->
  path r = Some p ->
  error r = false ->
  success r = false ->
  slack_alert W C (r, tr) = ((r, tr), Ok tt).
Proof.
  intros Hdebug Hhook Hpath Herr Hsucc.
  unfold slack_alert. rewrite Hdebug, Hhook.
  unfold bind at 1. unfold _eval_recipe_results.
  unfold bind at 1. unfold self_get at 1. cbn [fst]. rewrite Herr.
  unfold bind at 1. unfold attr at 1. cbn [fst]. rewrite Hpath, Hsucc.
  reflexivity.
Qed.

Lemma slack_alert_nothing_to_report_witness :
  slack_alert still_world config_slack (bar_downloaded_only, [])
  = ((bar_downloaded_only, []), Ok tt).
Proof.
  exact (slack_alert_nothing_to_report still_world config_slack
           bar_downloaded_only [] (recipe_file "Bar.pkg.recipe")
           "https://hooks.slack.example/services/T0/B0/x"
           eq_refl eq_refl eq_refl eq_refl eq_refl).
Defined.

(** X27: when the results of a recipe evaluate to a title and a description
    that are both set, [slack_alert] posts them once to the webhook, in the
    colour [danger] for a recipe in error and [good] otherwise; it returns
    when the answer has status 200 and raises [ValueError] on any other
    status, after the post. *)
Theorem slack_alert_posts (W : world) (C : config) (r r' : Recipe)
  (tr tr' : trace) (hook : string) (title description : pyval) :
  args_debug C = false ->
  SLACK_WEBHOOK C = Some hook ->
  hook <> "" ->
  _eval_recipe_results W (r, tr) = ((r', tr'), Ok (Some (title, description))) ->
  truthy title = true ->
  truthy description = true ->
  slack_alert W C (r, tr)
  = ((r', EvPost hook (str title) (str description)
                 (if error r' then "danger" else "good") :: tr'),
     if (w_post W tr' hook =? 200)%Z then Ok tt else Raise ValueError).
Proof.
  intros Hdebug Hhook Hne Heval Ht Hd.
  unfold slack_alert. rewrite Hdebug, Hhook.
  unfold bind at 1. rewrite Heval. rewrite Ht, Hd.
  apply String.eqb_neq in Hne. rewrite Hne. cbn [negb andb].
  unfold bind at 1. unfold self_get at 1. cbn [fst].
  unfold bind at 1. unfold liftT, post. cbn [fst snd].
  destruct (w_post W tr' hook =? 200)%Z; reflexivity.
Qed.

Lemma slack_alert_posts_witness :
  slack_alert world_slack_down config_slack (foo_failed_silently, [])
  = ((set_keys (recipe_plist "Foo") foo_failed_silently,
      [EvPost "https://hooks.slack.example/services/T0/B0/x"
              "Failed to run Foo" "Unknown error" "danger";
       EvOpen (recipe_file "Foo.pkg.recipe")]),
     Raise ValueError).
Proof.
  refine (slack_alert_posts world_slack_down config_slack foo_failed_silently
            (set_keys (recipe_plist "Foo") foo_failed_silently)
            [] [EvOpen (recipe_file "Foo.pkg.recipe")]
            "https://hooks.slack.example/services/T0/B0/x"
            (PStr "Failed to run Foo") (PStr "Unknown error")
            eq_refl eq_refl _ eq_refl eq_refl eq_refl).
  discriminate.
Defined.

End NotifierFacts.
